(** * Flight-performance dashboard: the aggregation core

    A shallow embedding of [UseCase2_DeltaBusinessCase.py] and the properties
    of its aggregators.

    Conventions of the embedding.
    - A pandas [DataFrame] is the list of its rows, in row order.  Boolean-mask
      indexing [df[mask]] is [filter]; it builds a new frame, and so does
      [.copy()].
    - A [float64] cell is the rational it denotes ([Q], compared with [Qle] and
      [Qlt], equal up to [Qeq]).  Order tests on floats are exact, so they are
      modelled exactly; sums and quotients are taken in [Q], i.e. before any
      rounding.  [NaN] and the infinities appear only where the code can
      produce them, as [None] or as a constructor of [float].
    - A Python exception is [None] (or [Raised]) in the result type.
    - The columns of a flight record are never null, as the data model has it.
      [flight_date] and [scheduled_departure_datetime] hold either the text
      read from the CSV file or a parsed timestamp. *)

From Stdlib Require Import ZArith QArith List String Ascii Bool Lia Lqa.
From Stdlib Require Import Permutation Sorted.
Import ListNotations.

Open Scope string_scope.
Open Scope Q_scope.

(** ** Calendar dates and timestamps *)

(** [datetime.date]: what [start_date], [end_date] and [.dt.date] are. *)
Record Date := mkDate { year : Z; month : Z; day : Z }.

(** [pandas.Timestamp], with the components the program reads. *)
Record Timestamp := mkTimestamp { date : Date; hour : Z }.

Definition date_eqb (a b : Date) : bool :=
  ((year a =? year b) && (month a =? month b) && (day a =? day b))%Z.

Definition date_leb (a b : Date) : bool :=
  ((year a <? year b)
   || ((year a =? year b)
       && ((month a <? month b)
           || ((month a =? month b) && (day a <=? day b)))))%Z.

(** Days since 1970-01-01 in the proleptic Gregorian calendar. *)
Definition days_from_civil (d : Date) : Z :=
  (let y := if month d <=? 2 then year d - 1 else year d in
   let era := y / 400 in
   let yoe := y - era * 400 in
   let mp := (month d + 9) mod 12 in
   let doy := (153 * mp + 2) / 5 + day d - 1 in
   let doe := yoe * 365 + yoe / 4 - yoe / 100 + doy in
   era * 146097 + doe - 719468)%Z.

Definition weekday_order : list string :=
  ["Monday"; "Tuesday"; "Wednesday"; "Thursday"; "Friday"; "Saturday"; "Sunday"].

(** [.dt.day_name()]; 1970-01-01 was a Thursday. *)
Definition day_name (t : Timestamp) : string :=
  nth (Z.to_nat ((days_from_civil (date t) + 3) mod 7)) weekday_order "".

(** A cell of a date column: the text as loaded, or the parsed value. *)
Inductive date_cell :=
| Text (s : string)
| Stamp (t : Timestamp).

(** ** Flight records *)

Record Row := mkRow {
  flight_date : date_cell;
  scheduled_departure_datetime : date_cell;
  airline : string;
  dep_iata : string;
  dep_airport : string;
  arr_iata : string;
  arr_airport : string;
  arr_country : string;
  arr_latitude : Q;
  arr_longitude : Q;
  dep_delay : Q;
  flight_status : string
}.

Definition DataFrame := list Row.

(** The string-valued columns a caller can group by. *)
Inductive column :=
| col_airline | col_dep_iata | col_dep_airport
| col_arr_iata | col_arr_airport | col_arr_country | col_flight_status.

Definition column_name (c : column) : string :=
  match c with
  | col_airline => "airline"
  | col_dep_iata => "dep_iata"
  | col_dep_airport => "dep_airport"
  | col_arr_iata => "arr_iata"
  | col_arr_airport => "arr_airport"
  | col_arr_country => "arr_country"
  | col_flight_status => "flight_status"
  end.

Fixpoint repeated (cols : list column) : bool :=
  match cols with
  | [] => false
  | c :: t => existsb (fun c' => column_name c =? column_name c') t || repeated t
  end.

Definition get (c : column) (r : Row) : string :=
  match c with
  | col_airline => airline r
  | col_dep_iata => dep_iata r
  | col_dep_airport => dep_airport r
  | col_arr_iata => arr_iata r
  | col_arr_airport => arr_airport r
  | col_arr_country => arr_country r
  | col_flight_status => flight_status r
  end.

(** [(df["flight_status"] != "cancelled") & (df["flight_status"] != "diverted")] *)
Definition operated (r : Row) : bool :=
  negb (flight_status r =? "cancelled") && negb (flight_status r =? "diverted").

(** [(df["airline"] == airline) & ... != "cancelled" & ... != "diverted"] *)
Definition operated_by (a : string) (r : Row) : bool :=
  (airline r =? a) && negb (flight_status r =? "cancelled")
  && negb (flight_status r =? "diverted").

(** ** Order tests and sums on numeric columns *)

Definition Qltb (x y : Q) : bool := negb (Qle_bool y x).

Definition Qsum (l : list Q) : Q := fold_right Qplus 0 l.

Definition Zsum (l : list Z) : Z := fold_right Z.add 0%Z l.

(** [.astype(int)] of a boolean column. *)
Definition astype_int (b : bool) : Z := if b then 1%Z else 0%Z.

(** A [float64] result of an operation that can leave the finite numbers. *)
Inductive float :=
| Finite (q : Q)
| Inf (negative : bool)
| NaN.

(** [x / y] on floats: a zero divisor gives an infinity, or [NaN] for [0/0],
    and raises nothing. *)
Definition fdiv (x y : float) : float :=
  match x, y with
  | Finite a, Finite b =>
      if Qeq_bool b 0 then (if Qeq_bool a 0 then NaN else Inf (Qltb a 0))
      else Finite (a / b)
  | Finite _, Inf _ => Finite 0
  | Inf s, Finite b => Inf (xorb s (Qltb b 0))
  | _, _ => NaN
  end.

Definition fmul (x y : float) : float :=
  match x, y with
  | Finite a, Finite b => Finite (a * b)
  | Finite a, Inf s | Inf s, Finite a =>
      if Qeq_bool a 0 then NaN else Inf (xorb s (Qltb a 0))
  | Inf s, Inf t => Inf (xorb s t)
  | _, _ => NaN
  end.

Definition fsub (x y : float) : float :=
  match x, y with
  | Finite a, Finite b => Finite (a - b)
  | Finite _, Inf s => Inf (negb s)
  | Inf s, Finite _ => Inf s
  | Inf s, Inf t => if Bool.eqb s t then NaN else Inf s
  | _, _ => NaN
  end.

(** [x > y]; false as soon as an operand is [NaN]. *)
Definition fgtb (x y : float) : bool :=
  match x, y with
  | Finite a, Finite b => Qltb b a
  | Finite _, Inf s => s
  | Inf s, Finite _ => negb s
  | Inf s, Inf t => negb s && t
  | _, _ => false
  end.

(** An integer column read as a float. *)
Definition of_int (n : Z) : float := Finite (inject_Z n).

(** [Series.mean()]: [NaN] on an empty column. *)
Definition mean (l : list Q) : float :=
  match l with
  | [] => NaN
  | _ => Finite (Qsum l / inject_Z (Z.of_nat (List.length l)))
  end.

(** ** Sorting and grouping *)

Section Sorting.
Context {A : Type} (leb : A -> A -> bool).

Fixpoint insert (x : A) (l : list A) : list A :=
  match l with
  | [] => [x]
  | y :: t => if leb x y then x :: l else y :: insert x t
  end.

(** A stable sort: of two rows that compare equal, the earlier stays first. *)
Definition sort (l : list A) : list A := fold_right insert [] l.
End Sorting.

Section GroupBy.
Context {K : Type} (eqb leb : K -> K -> bool).

Fixpoint insert_key (k : K) (l : list K) : list K :=
  match l with
  | [] => [k]
  | x :: t =>
      if eqb k x then l
      else if leb k x then k :: l
      else x :: insert_key k t
  end.

(** The distinct keys of a column, ascending. *)
Definition unique_sorted (ks : list K) : list K := fold_right insert_key [] ks.

(** [df.groupby(key)]: one group per distinct key, the groups in key order
    ([sort=True]), the rows of a group in frame order. *)
Definition groupby {R : Type} (key : R -> K) (df : list R) : list (K * list R) :=
  map (fun k => (k, filter (fun r => eqb (key r) k) df))
      (unique_sorted (map key df)).
End GroupBy.

(** Keys of a group-by on several columns: compared column by column. *)
Fixpoint key_eqb (a b : list string) : bool :=
  match a, b with
  | [], [] => true
  | x :: a', y :: b' => (x =? y) && key_eqb a' b'
  | _, _ => false
  end.

Fixpoint key_leb (a b : list string) : bool :=
  match a, b with
  | [], _ => true
  | _ :: _, [] => false
  | x :: a', y :: b' => if x =? y then key_leb a' b' else String.leb x y
  end.

(** ** Delay bins ([pd.cut]) *)

(** A bin edge: [-float("inf")], a number, or [float("inf")]. *)
Inductive edge :=
| NegInf
| Edge (q : Q)
| PosInf.

Definition bins : list edge :=
  [NegInf; Edge 0; Edge 15; Edge 30; Edge 60; Edge 120; PosInf].

Definition labels : list string :=
  ["Early/On time"; "0–15 min"; "15–30 min"; "30–60 min"; "1–2 hrs"; "2+ hrs"].

(** [e < x] for an edge [e] and a finite [x]. *)
Definition edge_ltb (e : edge) (x : Q) : bool :=
  match e with
  | NegInf => true
  | Edge q => Qltb q x
  | PosInf => false
  end.

(** [a.searchsorted(x, side="left")] on an ascending array: how many entries
    lie strictly below [x]. *)
Fixpoint searchsorted_left (a : list edge) (x : Q) : nat :=
  match a with
  | [] => O
  | e :: t => if edge_ltb e x then S (searchsorted_left t x) else O
  end.

(** [pd.cut(x, bins=bins, labels=labels, right=True)] for one value: the
    position found by [searchsorted] names the bin; a position outside the
    edges is [NaN]. *)
Definition cut (x : Q) : option string :=
  let ids := searchsorted_left bins x in
  if (ids =? List.length bins)%nat || (ids =? 0)%nat then None
  else nth_error labels (ids - 1).

(** ** [aggregate_delay_metric] *)

Record DelayMetric := mkDelayMetric {
  group_key : list string;
  ontime_count : Z;
  total_flights : Z;
  pct_ontime : float;
  pct_delay : float
}.

Definition isin (s : string) (values : list string) : bool :=
  existsb (String.eqb s) values.

(** [(flights_copy["dep_delay"] < 15).astype(int)] *)
Definition on_time (r : Row) : Z := astype_int (Qltb (dep_delay r) 15).

(** [flights_copy]: the operated flights, restricted to the destinations asked
    for.  The optional [arr_iata] is a collection of destination codes; [None]
    and the empty collection are false in [if arr_iata:]. *)
Definition metric_flights (flights_df : DataFrame)
    (arr_iata_codes : option (list string)) : DataFrame :=
  let flights_copy := filter operated flights_df in
  match arr_iata_codes with
  | Some (c :: cs) => filter (fun r => isin (arr_iata r) (c :: cs)) flights_copy
  | _ => flights_copy
  end.

(** Grouping by no column at all raises ([None]), and so does
    [reset_index] when a column is named twice. *)
Definition aggregate_delay_metric (flights_df : DataFrame)
    (groupby_col : list column) (arr_iata_codes : option (list string))
  : option (list DelayMetric) :=
  let flights_copy := metric_flights flights_df arr_iata_codes in
  match groupby_col with
  | [] => None
  | _ =>
      if repeated groupby_col then None else
      let agg_df :=
        groupby key_eqb key_leb (fun r => map (fun c => get c r) groupby_col)
                flights_copy in
      Some (map (fun g =>
                   let ontime := Zsum (map on_time (snd g)) in
                   let total := Z.of_nat (List.length (snd g)) in
                   let pct := fmul (fdiv (of_int ontime) (of_int total)) (Finite 100) in
                   mkDelayMetric (fst g) ontime total pct (fsub (Finite 100) pct))
                agg_df)
  end.

(** ** [delays_heatmap] *)

(** What [px.imshow] is given: [y], [x] and the matrix. *)
Record Heatmap := mkHeatmap {
  heat_index : list string;
  heat_columns : list string;
  heat_values : list (list float)
}.

Definition bin_is (b : option string) (label : string) : bool :=
  match b with
  | Some l => l =? label
  | None => false
  end.

(** [groupby([var, "delay_bin"], observed=False).size()]: a size for every
    pair of a value of [var] and a category of the bin column, taken or not. *)
Definition size_by_bin (var : column) (flights_copy : list (Row * option string))
  : list (string * string * Z) :=
  flat_map
    (fun k =>
       map (fun label =>
              (k, label,
               Z.of_nat (List.length
                 (filter (fun rb => (get var (fst rb) =? k) && bin_is (snd rb) label)
                         flights_copy))))
           labels)
    (unique_sorted String.eqb String.leb (map (fun rb => get var (fst rb)) flights_copy)).

Definition level0 (s : list (string * string * Z)) : list string :=
  unique_sorted String.eqb String.leb (map (fun e => fst (fst e)) s).

(** [.unstack(fill_value=0)]: the bin level becomes the columns. *)
Definition unstack (s : list (string * string * Z)) : list (string * list Z) :=
  map (fun k =>
         (k, map (fun label =>
                    match find (fun e => (fst (fst e) =? k) && (snd (fst e) =? label)) s with
                    | Some e => snd e
                    | None => 0%Z
                    end)
                 labels))
      (level0 s).

Definition delays_heatmap (flights_df : DataFrame) (var : column) (airline_name : string)
  : Heatmap :=
  let flights_copy := filter (operated_by airline_name) flights_df in
  let flights_copy := map (fun r => (r, cut (dep_delay r))) flights_copy in
  let delay_counts := unstack (size_by_bin var flights_copy) in
  let airline_delay_proportions :=
    map (fun row => map (fun c => fdiv (of_int c) (of_int (Zsum (snd row)))) (snd row))
        delay_counts in
  mkHeatmap (map fst delay_counts) labels airline_delay_proportions.

(** ** [relative_delay] *)

Record RelativeDelay := mkRelativeDelay {
  rd_dep_airport : string;
  mean_delay : float;
  delay_ratio : float
}.

Definition global_mean (flights_df : DataFrame) (airline_name : string) : float :=
  mean (map dep_delay (filter (operated_by airline_name) flights_df)).

Definition relative_delay (flights_df : DataFrame) (airline_name : string)
  : list RelativeDelay :=
  let flights_copy := filter (operated_by airline_name) flights_df in
  let global_mean := mean (map dep_delay flights_copy) in
  map (fun g =>
         let m := mean (map dep_delay (snd g)) in
         mkRelativeDelay (fst g) m (fdiv m global_mean))
      (groupby String.eqb String.leb dep_airport flights_copy).

(** ** [top_delayed_routes] *)

Record Route := mkRoute {
  route_key : list string;
  flight_count : Z;
  delay_count : Z;
  delay_rate : Q
}.

(** [(flights_copy["dep_delay"] > 60).astype(int)] *)
Definition is_delayed (r : Row) : Z := astype_int (Qltb 60 (dep_delay r)).

(** [Series.median()]: the middle value, or the mean of the two middle ones;
    [NaN] on an empty column. *)
Definition median (l : list Z) : float :=
  let s := sort Z.leb l in
  let n := List.length s in
  match n with
  | O => NaN
  | _ =>
      if Nat.odd n then Finite (inject_Z (nth (n / 2) s 0%Z))
      else Finite ((inject_Z (nth (n / 2 - 1) s 0%Z) + inject_Z (nth (n / 2) s 0%Z)) / 2)
  end.

(** [rate a >= rate b]: the order of [sort_values(..., ascending=False)]. *)
Definition rate_geb (a b : Route) : bool := Qle_bool (delay_rate b) (delay_rate a).

(** Rows of equal rate come out in frame order here; the library leaves their
    order open, and nothing below depends on it. *)
Definition sort_values_desc (df : list Route) : list Route := sort rate_geb df.

Definition kth_smallest (arr : list Q) (k : nat) : Q := nth k (sort Qle_bool arr) 0.

(** [df.nlargest(n, "delay_rate", keep="all")].  With no more than [n] rows the
    frame is sorted and cut to [n] rows; otherwise the rates are negated, the
    [n]-th smallest of them is the boundary, every row at or below the boundary
    is kept, and the kept rows are sorted by a stable sort. *)
Definition nlargest (n : nat) (df : list Route) : list Route :=
  match n with
  | O => []
  | _ =>
      if (List.length df <=? n)%nat then firstn n (sort_values_desc df)
      else
        let arr := map (fun r => - delay_rate r) df in
        let kth_val := kth_smallest arr (n - 1) in
        let ns := filter (fun r => Qle_bool (- delay_rate r) kth_val) df in
        sort (fun a b => Qle_bool (- delay_rate a) (- delay_rate b)) ns
  end.

(** The rows the routes are built from: airline, status and country filters. *)
Definition route_flights (flights_df : DataFrame) (airline_name : string)
    (domestic : bool) : DataFrame :=
  let flights_copy := filter (operated_by airline_name) flights_df in
  filter (fun r => if domestic then arr_country r =? "US"
                   else negb (arr_country r =? "US"))
         flights_copy.

(** [route_df] before the median filter.  The delay rate is the quotient of two
    counts; the flight count of a group is at least one. *)
Definition route_table (flights_df : DataFrame) (airline_name : string)
    (domestic : bool) : list Route :=
  map (fun g =>
         let fc := Z.of_nat (List.length (snd g)) in
         let dc := Zsum (map is_delayed (snd g)) in
         mkRoute (fst g) fc dc (inject_Z dc / inject_Z fc))
      (groupby key_eqb key_leb
               (fun r => [dep_iata r; dep_airport r; arr_iata r; arr_airport r])
               (route_flights flights_df airline_name domestic)).

Definition median_flight_count (flights_df : DataFrame) (airline_name : string)
    (domestic : bool) : float :=
  median (map flight_count (route_table flights_df airline_name domestic)).

(** [route_df[route_df["flight_count"] > median_flight_count]] *)
Definition above_median (flights_df : DataFrame) (airline_name : string)
    (domestic : bool) : list Route :=
  filter (fun r => fgtb (of_int (flight_count r))
                        (median_flight_count flights_df airline_name domestic))
         (route_table flights_df airline_name domestic).

Definition top_delayed_routes (flights_df : DataFrame) (airline_name : string)
    (domestic : bool) : list Route :=
  let route_df := sort_values_desc (above_median flights_df airline_name domestic) in
  nlargest 10 route_df.

(** How many routes of [df] have a delay rate strictly above that of [r]: the
    rank of [r], less one. *)
Definition outranked (df : list Route) (r : Route) : nat :=
  List.length (filter (fun r' => Qltb (delay_rate r) (delay_rate r')) df).

(** The [n] best with ties: the routes that fewer than [n] routes outrank. *)
Definition top_with_ties (n : nat) (df : list Route) : list Route :=
  filter (fun r => (outranked df r <? n)%nat) df.

(** Best rate first: no route is followed by one with a higher rate. *)
Definition descending (df : list Route) : Prop :=
  StronglySorted (fun a b => delay_rate b <= delay_rate a) df.

(** The flights of a route. *)
Definition flights_of_route (key : list string) (flights : DataFrame) : DataFrame :=
  filter (fun x => key_eqb [dep_iata x; dep_airport x; arr_iata x; arr_airport x] key)
         flights.

(** ** Parsing dates: [pd.to_datetime] *)

(** Sequencing of steps that can raise. *)
Definition bind {A B : Type} (x : option A) (f : A -> option B) : option B :=
  match x with
  | Some a => f a
  | None => None
  end.

Notation "x <- e ;; k" := (bind e (fun x => k))
  (at level 61, e at next level, right associativity).

Fixpoint mapM {A B : Type} (f : A -> option B) (l : list A) : option (list B) :=
  match l with
  | [] => Some []
  | a :: t => b <- f a ;; bs <- mapM f t ;; Some (b :: bs)
  end.

Section Dates.
(** The parser behind [pd.to_datetime]: [None] where it cannot read the
    text. *)
Variable to_datetime : string -> option Timestamp.

Definition to_datetime_cell (c : date_cell) : option Timestamp :=
  match c with
  | Text s => to_datetime s
  | Stamp t => Some t
  end.

Definition with_flight_date (r : Row) (c : date_cell) : Row :=
  mkRow c (scheduled_departure_datetime r) (airline r) (dep_iata r)
        (dep_airport r) (arr_iata r) (arr_airport r) (arr_country r)
        (arr_latitude r) (arr_longitude r) (dep_delay r) (flight_status r).

(** [flights_df["flight_date"].dt.date] compared with a date; the accessor
    reads parsed cells only. *)
Definition on_date (test : Date -> bool) (r : Row) : bool :=
  match flight_date r with
  | Stamp t => test (date t)
  | Text _ => false
  end.

(** [select_date] assigns the parsed column to [flights_df] itself, the
    caller's table, and then filters.  The result is the pair of the
    caller's table after the call and the table returned; [None] when
    [pd.to_datetime] raises, which happens before the assignment. *)
Definition select_date (flights_df : DataFrame) (start_date end_date : Date)
  : option (DataFrame * DataFrame) :=
  parsed <- mapM (fun r => to_datetime_cell (flight_date r)) flights_df ;;
  let flights_df :=
    map (fun rt => with_flight_date (fst rt) (Stamp (snd rt)))
        (combine flights_df parsed) in
  let filtered_df :=
    if date_eqb start_date end_date
    then filter (on_date (fun d => date_eqb d start_date)) flights_df
    else filter (on_date (fun d => date_leb start_date d && date_leb d end_date))
                flights_df in
  Some (flights_df, filtered_df).

(** ** [extract_hour] and [peak_hour_delays] *)

(** A row of the copy made by [extract_hour]: the flight and its [hour]
    column, [NaN] where the schedule could not be parsed
    ([errors="coerce"]). *)
Record HourRow := mkHourRow {
  flight : Row;
  hour_col : option Z
}.

Definition extract_hour (flights_df : DataFrame) : list HourRow :=
  map (fun r =>
         mkHourRow r (option_map hour
                        (to_datetime_cell (scheduled_departure_datetime r))))
      flights_df.
End Dates.

Record HourlyFigure := mkHourlyFigure {
  grouped_counts : list (Z * string * Z);
  total_flights_by_hour : list (Z * Z)
}.

(** [np.where(arr_country == "US", "Domestic", "International")] *)
Definition country_group (r : Row) : string :=
  if arr_country r =? "US" then "Domestic" else "International".

Definition hour_group_eqb (a b : Z * string) : bool :=
  (fst a =? fst b)%Z && (snd a =? snd b).

Definition hour_group_leb (a b : Z * string) : bool :=
  if (fst a =? fst b)%Z then String.leb (snd a) (snd b) else (fst a <? fst b)%Z.

(** [flights_copy[flights_copy["dep_delay"] > 15]] *)
Definition delayed_flights (flights_df : list HourRow) (airline_name : string)
  : list HourRow :=
  filter (fun h => Qltb 15 (dep_delay (flight h)))
         (filter (fun h => operated_by airline_name (flight h)) flights_df).

(** Rows whose group key is [NaN] belong to no group. *)
Definition with_hour (rows : list HourRow) : list (Z * Row) :=
  flat_map (fun h => match hour_col h with
                     | Some n => [(n, flight h)]
                     | None => []
                     end) rows.

Definition peak_hour_delays (flights_df : list HourRow) (airline_name : string)
  : HourlyFigure :=
  let flights_copy := filter (fun h => operated_by airline_name (flight h)) flights_df in
  let delayed := delayed_flights flights_df airline_name in
  mkHourlyFigure
    (map (fun g => (fst g, Z.of_nat (List.length (snd g))))
         (groupby hour_group_eqb hour_group_leb
                  (fun nr => (fst nr, country_group (snd nr))) (with_hour delayed)))
    (map (fun g => (fst g, Z.of_nat (List.length (snd g))))
         (groupby Z.eqb Z.leb fst (with_hour flights_copy))).

(** ** [country_to_continent] and [flight_volume_by_day] *)

(** What a call does: it returns a value, or an exception leaves it. *)
Inductive outcome (A : Type) :=
| Returned (a : A)
| Raised.
Arguments Returned {A} a.
Arguments Raised {A}.

(** [str.lower()] on the ASCII letters. *)
Definition lower_ascii (c : ascii) : ascii :=
  let n := nat_of_ascii c in
  if (65 <=? n)%nat && (n <=? 90)%nat then ascii_of_nat (n + 32) else c.

Fixpoint lower (s : string) : string :=
  match s with
  | EmptyString => EmptyString
  | String c t => String (lower_ascii c) (lower t)
  end.

(** The table of [pycountry_convert]; [None] is its [KeyError]. *)
Definition convert_continent_code_to_continent_name (code : string) : option string :=
  if code =? "AF" then Some "Africa"
  else if code =? "AN" then Some "Antarctica"
  else if code =? "AS" then Some "Asia"
  else if code =? "EU" then Some "Europe"
  else if code =? "NA" then Some "North America"
  else if code =? "OC" then Some "Oceania"
  else if code =? "SA" then Some "South America"
  else None.

Record VolumeFigure := mkVolumeFigure {
  (** the rows of [grouped_df], in row order *)
  grouped_df : list (string * Z);
  (** the categories of its weekday column *)
  categories : list string;
  (** [xaxis.categoryarray] of the layout *)
  categoryarray : list string
}.

Section Regions.
(** [pycountry.countries.lookup(name).alpha_2] and
    [pc.country_alpha2_to_continent_code]; [None] where they raise. *)
Variable countries_lookup : string -> option string.
Variable country_alpha2_to_continent_code : string -> option string.

(** The continent name the two libraries resolve a country to. *)
Definition continent_name_of (country_name : string) : option string :=
  country_alpha2 <- countries_lookup country_name ;;
  continent_code <- country_alpha2_to_continent_code country_alpha2 ;;
  convert_continent_code_to_continent_name continent_code.

(** The body of the [try]: [None] when any of its calls raises. *)
Definition continent_of (country_name : string) : option string :=
  country_alpha2 <- countries_lookup country_name ;;
  continent_code <- country_alpha2_to_continent_code country_alpha2 ;;
  continent_name <- convert_continent_code_to_continent_name continent_code ;;
  if country_name =? "US" then Some "usa" else Some (lower continent_name).

(** [try: ... except: return "other"] *)
Definition country_to_continent (country_name : string) : outcome string :=
  match continent_of country_name with
  | Some region => Returned region
  | None => Returned "other"
  end.

Definition apply_country_to_continent (r : Row) : option (Row * string) :=
  match country_to_continent (arr_country r) with
  | Returned region => Some (r, region)
  | Raised => None
  end.

(** [flights_copy] once the [region] column is there and the region is
    selected. *)
Definition region_flights (flights_df : DataFrame) (airline_name region : string)
  : option (list (Row * string)) :=
  let flights_copy := filter (operated_by airline_name) flights_df in
  flights_copy <- mapM apply_country_to_continent flights_copy ;;
  Some (if negb (region =? "world")
        then filter (fun rr => snd rr =? region) flights_copy
        else flights_copy).

(** [.dt.day_name()] needs a parsed column. *)
Definition departure_day_of_week (r : Row) : option string :=
  match flight_date r with
  | Stamp t => Some (day_name t)
  | Text _ => None
  end.

Definition flight_volume_by_day (flights_df : DataFrame)
    (airline_name region : string) : option VolumeFigure :=
  flights_copy <- region_flights flights_df airline_name region ;;
  days <- mapM (fun rr => departure_day_of_week (fst rr)) flights_copy ;;
  let grouped :=
    map (fun g => (fst g, Z.of_nat (List.length (snd g))))
        (groupby String.eqb String.leb (fun d => d) days) in
  Some (mkVolumeFigure grouped weekday_order weekday_order).
End Regions.

(** The flights of a weekday. *)
Definition weekday_is (day : string) (r : Row) : bool :=
  match flight_date r with
  | Stamp t => day_name t =? day
  | Text _ => false
  end.

Definition continents : list string :=
  ["africa"; "antarctica"; "asia"; "europe"; "north america"; "oceania";
   "south america"].

(** ** Sample collaborators *)

Definition digit (c : ascii) : option Z :=
  let n := Z.of_nat (nat_of_ascii c) in
  if ((48 <=? n) && (n <=? 57))%Z then Some (n - 48)%Z else None.

Definition two_digits (a b : ascii) : option Z :=
  x <- digit a ;; y <- digit b ;; Some (10 * x + y)%Z.

Definition days_in_month (y m : Z) : Z :=
  (if m =? 2 then
     (if ((y mod 4 =? 0) && negb (y mod 100 =? 0)) || (y mod 400 =? 0) then 29 else 28)
   else if (m =? 4) || (m =? 6) || (m =? 9) || (m =? 11) then 30 else 31)%Z.

(** A parser for [YYYY-MM-DD] and [YYYY-MM-DD HH:MM...]. *)
Definition iso8601 (s : string) : option Timestamp :=
  match s with
  | String y1 (String y2 (String y3 (String y4 (String "-" (String m1 (String m2
      (String "-" (String d1 (String d2 rest))))))))) =>
      c <- two_digits y1 y2 ;; y <- two_digits y3 y4 ;;
      m <- two_digits m1 m2 ;; d <- two_digits d1 d2 ;;
      let yr := (100 * c + y)%Z in
      if ((1 <=? m) && (m <=? 12) && (1 <=? d) && (d <=? days_in_month yr m))%Z
      then
        match rest with
        | EmptyString => Some (mkTimestamp (mkDate yr m d) 0)
        | String " " (String h1 (String h2 (String ":" _))) =>
            h <- two_digits h1 h2 ;;
            if (h <? 24)%Z then Some (mkTimestamp (mkDate yr m d) h) else None
        | _ => None
        end
      else None
  | _ => None
  end.

(** A few entries of the country tables. *)
Definition sample_lookup (name : string) : option string :=
  if (name =? "US") || (name =? "United States") then Some "US"
  else if (name =? "CA") || (name =? "Canada") then Some "CA"
  else if (name =? "FR") || (name =? "France") then Some "FR"
  else if (name =? "JP") || (name =? "Japan") then Some "JP"
  else None.

Definition sample_continent_code (alpha2 : string) : option string :=
  if (alpha2 =? "US") || (alpha2 =? "CA") then Some "NA"
  else if alpha2 =? "FR" then Some "EU"
  else if alpha2 =? "JP" then Some "AS"
  else None.

(** A flight with the fields the examples vary. *)
Definition a_flight (day : string) (carrier dep arr country : string)
    (delay : Q) (status : string) : Row :=
  mkRow (Text day) (Text (day ++ " 08:00:00")) carrier dep (dep ++ " Airport")
        arr (arr ++ " Airport") country 0 0 delay status.

(** The table of the scenario: 80 flights 5 minutes late, 20 flights 90
    minutes late. *)
Definition scenario_flights : DataFrame :=
  (repeat (a_flight "2024-01-01" "Delta Air Lines" "ATL" "JFK" "US" 5 "normal") 80
   ++ repeat (a_flight "2024-01-02" "Delta Air Lines" "ATL" "LAX" "US" 90 "normal") 20)%list.

(** A Monday flight and a Friday flight, as read from the file. *)
Definition two_weekdays : DataFrame :=
  [a_flight "2024-01-01" "Delta Air Lines" "ATL" "JFK" "US" 5 "normal";
   a_flight "2024-01-05" "Delta Air Lines" "ATL" "CDG" "FR" 20 "normal"].

(** * The rest of the dashboard *)

(** ** Orders on group keys *)

(** What [groupby] needs of the key tests: [eqb] tells when two keys are the
    same value, [leb] orders the values. *)
Record key_order {K : Type} (eqb leb : K -> K -> bool) : Prop := mk_key_order {
  ko_refl : forall a, eqb a a = true;
  ko_sym : forall a b, eqb a b = eqb b a;
  ko_trans : forall a b c, eqb a b = true -> eqb b c = true -> eqb a c = true;
  ko_total : forall a b, leb a b = false -> leb b a = true;
  ko_leb_trans : forall a b c, leb a b = true -> leb b c = true -> leb a c = true;
  ko_antisym : forall a b, leb a b = true -> leb b a = true -> eqb a b = true;
  ko_eqb_leb : forall a b, eqb a b = true -> leb a b = true
}.

(** Strictly below. *)
Definition key_lt {K : Type} (eqb leb : K -> K -> bool) (a b : K) : Prop :=
  leb a b = true /\ eqb a b = false.

(** Keys of two columns: the first column decides, the second breaks ties. *)
Definition pair_eqb {A B : Type} (eqa : A -> A -> bool) (eqb : B -> B -> bool)
    (x y : A * B) : bool :=
  eqa (fst x) (fst y) && eqb (snd x) (snd y).

Definition pair_leb {A B : Type} (eqa lea : A -> A -> bool) (leb : B -> B -> bool)
    (x y : A * B) : bool :=
  if eqa (fst x) (fst y) then leb (snd x) (snd y) else lea (fst x) (fst y).

(** ** [cancelled_flights] *)

(** The table behind the pie chart: a row per departure airport
    ([dep_iata], [dep_airport]) with its [flight_count], the largest count
    first.  Rows of equal count come out in key order here; the library
    leaves their order open. *)
Definition cancelled_flights (flights_df : DataFrame) (airline_name : string)
  : list (list string * Z) :=
  let cancelled :=
    filter (fun r => (flight_status r =? "cancelled") && (airline r =? airline_name))
           flights_df in
  sort (fun a b => (snd b <=? snd a)%Z)
       (map (fun g => (fst g, Z.of_nat (List.length (snd g))))
            (groupby key_eqb key_leb (fun r => [dep_iata r; dep_airport r]) cancelled)).

(** ** [map] *)

Module Geo.

(** A point of the map: latitude, longitude and airport name. *)
Definition location : Type := Q * (Q * string).

Definition location_eqb : location -> location -> bool :=
  pair_eqb Qeq_bool (pair_eqb Qeq_bool String.eqb).

Definition location_leb : location -> location -> bool :=
  pair_leb Qeq_bool Qle_bool (pair_leb Qeq_bool Qle_bool String.leb).

Definition location_of (r : Row) : location :=
  (arr_latitude r, (arr_longitude r, arr_airport r)).

Record Point := mkPoint {
  point : location;
  mean_dep_delay : float;
  flights_to : Z
}.

(** The table [map] hands to [px.scatter_geo]: the mean delay and the number
    of flights for every arrival point.  The [scope] argument goes to the
    plot only. *)
Definition map (flights_df : DataFrame) (airline_name : string) : list Point :=
  let filtered_df := filter (operated_by airline_name) flights_df in
  List.map (fun g => mkPoint (fst g) (mean (List.map dep_delay (snd g)))
                             (Z.of_nat (List.length (snd g))))
           (groupby location_eqb location_leb location_of filtered_df).

End Geo.

(** ** The three metrics of [main] *)

(** [len(filtered_df[filtered_df["airline"] == "Delta Air Lines"])], and the
    same with the status test for cancelled and for diverted flights. *)
Definition metric_total (filtered_df : DataFrame) : Z :=
  Z.of_nat (List.length (filter (fun r => airline r =? "Delta Air Lines") filtered_df)).

Definition metric_cancelled (filtered_df : DataFrame) : Z :=
  Z.of_nat (List.length
    (filter (fun r => (flight_status r =? "cancelled") && (airline r =? "Delta Air Lines"))
            filtered_df)).

Definition metric_diverted (filtered_df : DataFrame) : Z :=
  Z.of_nat (List.length
    (filter (fun r => (flight_status r =? "diverted") && (airline r =? "Delta Air Lines"))
            filtered_df)).

(** ** The axis range of [peak_hour_delays] *)

(** [Series.max()] of a column of counts: [NaN] when the column is empty. *)
Definition series_max (l : list Z) : float :=
  match l with
  | [] => NaN
  | x :: t => of_int (fold_right Z.max x t)
  end.

(** Python's [max(a, b)]: [b] when [b > a], else [a]. *)
Definition py_max (a b : float) : float := if fgtb b a then b else a.

(** The float written [1.1]. *)
Definition one_point_one : Q := 2476979795053773 # 2251799813685248.

(** [max_val], the upper end of both y axes. *)
Definition max_val (fig : HourlyFigure) : float :=
  fmul (py_max (series_max (map snd (grouped_counts fig)))
               (series_max (map snd (total_flights_by_hour fig))))
       (Finite one_point_one).

(** ** Regions *)

(** The region the classifier gives a country. *)
Definition region_of (countries_lookup country_alpha2_to_continent_code
                        : string -> option string) (country_name : string) : string :=
  match continent_name_of countries_lookup country_alpha2_to_continent_code country_name with
  | Some name => if country_name =? "US" then "usa" else lower name
  | None => "other"
  end.

(** The flights [flight_volume_by_day] counts for a region. *)
Definition selected_flights (countries_lookup country_alpha2_to_continent_code
                               : string -> option string)
    (flights_df : DataFrame) (airline_name region : string) : DataFrame :=
  filter (fun r => (region =? "world")
                   || (region_of countries_lookup country_alpha2_to_continent_code
                                 (arr_country r) =? region))
         (filter (operated_by airline_name) flights_df).

(** ** More tables for the examples *)

(** Airport A with 10 cancelled and 5 normal flights, airport B with 2
    cancelled and 20 normal ones, airline X. *)
Definition cancellations : DataFrame :=
  (repeat (a_flight "2024-01-01" "X" "A" "JFK" "US" 0 "cancelled") 10
   ++ repeat (a_flight "2024-01-01" "X" "A" "JFK" "US" 5 "normal") 5
   ++ repeat (a_flight "2024-01-02" "X" "B" "JFK" "US" 0 "cancelled") 2
   ++ repeat (a_flight "2024-01-02" "X" "B" "JFK" "US" 5 "normal") 20)%list.

(** Three Delta flights out of two airports, early on average. *)
Definition early_flights : DataFrame :=
  [a_flight "2024-01-01" "Delta Air Lines" "ATL" "JFK" "US" (-10) "normal";
   a_flight "2024-01-01" "Delta Air Lines" "ATL" "LAX" "US" (-2) "normal";
   a_flight "2024-01-02" "Delta Air Lines" "MSP" "JFK" "US" 3 "normal"].

(** Two Delta flights whose delays cancel out. *)
Definition balanced_flights : DataFrame :=
  [a_flight "2024-01-01" "Delta Air Lines" "ATL" "JFK" "US" (-10) "normal";
   a_flight "2024-01-02" "Delta Air Lines" "MSP" "JFK" "US" 10 "normal"].

(** The flights scheduled in a given hour; a flight whose schedule could not
    be parsed is scheduled in none. *)
Definition at_hour (h : Z) (x : HourRow) : bool :=
  match hour_col x with
  | Some n => (n =? h)%Z
  | None => false
  end.

Definition has_hour (x : HourRow) : bool :=
  match hour_col x with
  | Some _ => true
  | None => false
  end.

(** Two Delta flights at 8 o'clock, one of them 20 minutes late, and one
    whose schedule is unreadable. *)
Definition morning_flights : DataFrame :=
  [a_flight "2024-01-01" "Delta Air Lines" "ATL" "JFK" "US" 20 "normal";
   a_flight "2024-01-01" "Delta Air Lines" "ATL" "CDG" "FR" 5 "normal";
   mkRow (Text "2024-01-01") (Text "soon") "Delta Air Lines" "ATL" "ATL Airport"
         "LAX" "LAX Airport" "US" 0 0 90 "normal"].

(** The two flights of January 2024 with their dates parsed, as [select_date]
    returns them. *)
Definition parsed_weekdays : DataFrame :=
  match select_date iso8601 two_weekdays (mkDate 2024 1 1) (mkDate 2024 1 31) with
  | Some (_, filtered_df) => filtered_df
  | None => []
  end.

(** ** Weekday order *)

(** The place of a weekday name in the week, Monday being 0. *)
Fixpoint position (d : string) (week : list string) : nat :=
  match week with
  | [] => O
  | w :: rest => if d =? w then O else S (position d rest)
  end.

Definition weekday_number (d : string) : nat := position d weekday_order.

(** Rows in the order of the week: Monday before Tuesday, and so on up to
    Sunday. *)
Definition monday_first (days : list string) : Prop :=
  StronglySorted (fun a b => (weekday_number a < weekday_number b)%nat) days.

(** * Properties *)

Lemma Qltb_lt (x y : Q) : Qltb x y = true <-> x < y.
Proof.
  unfold Qltb. rewrite negb_true_iff. split; intro H.
  - apply Qnot_le_lt. intro L. apply Qle_bool_iff in L. congruence.
  - destruct (Qle_bool y x) eqn:E; [|reflexivity].
    apply Qle_bool_iff in E. exfalso. apply (Qlt_not_le _ _ H E).
Qed.

Lemma Qltb_ge (x y : Q) : Qltb x y = false <-> y <= x.
Proof.
  unfold Qltb. rewrite negb_false_iff. apply Qle_bool_iff.
Qed.

(** The bin a delay is cut into, by cases on the five finite edges. *)
Lemma cut_cases (x : Q) :
  (x <= 0 /\ cut x = nth_error labels 0)
  \/ (0 < x /\ x <= 15 /\ cut x = nth_error labels 1)
  \/ (15 < x /\ x <= 30 /\ cut x = nth_error labels 2)
  \/ (30 < x /\ x <= 60 /\ cut x = nth_error labels 3)
  \/ (60 < x /\ x <= 120 /\ cut x = nth_error labels 4)
  \/ (120 < x /\ cut x = nth_error labels 5).
Proof.
  unfold cut, bins, searchsorted_left, edge_ltb.
  destruct (Qltb 0 x) eqn:E0;
    [apply Qltb_lt in E0 | apply Qltb_ge in E0; left; split; [assumption | reflexivity]].
  destruct (Qltb 15 x) eqn:E1;
    [apply Qltb_lt in E1
    | apply Qltb_ge in E1; right; left; repeat split; assumption].
  destruct (Qltb 30 x) eqn:E2;
    [apply Qltb_lt in E2
    | apply Qltb_ge in E2; do 2 right; left; repeat split; assumption].
  destruct (Qltb 60 x) eqn:E3;
    [apply Qltb_lt in E3
    | apply Qltb_ge in E3; do 3 right; left; repeat split; assumption].
  destruct (Qltb 120 x) eqn:E4;
    [apply Qltb_lt in E4
    | apply Qltb_ge in E4; do 4 right; left; repeat split; assumption].
  do 5 right. split; [assumption | reflexivity].
Qed.

(** C2.  [pd.cut] with [right=True] puts every delay in exactly one of the six
    bins [(-inf,0]], [(0,15]], [(15,30]], [(30,60]], [(60,120]], [(120,+inf)]:
    each bin is open on the left and closed on the right, so that a delay of
    exactly 0, 15, 30, 60 or 120 minutes belongs to the lower of its two
    neighbouring bins. *)
Theorem cut_right_closed_bins (x : Q) :
  (exists l, In l labels /\ cut x = Some l)
  /\ (cut x = Some "Early/On time" <-> x <= 0)
  /\ (cut x = Some "0–15 min" <-> 0 < x /\ x <= 15)
  /\ (cut x = Some "15–30 min" <-> 15 < x /\ x <= 30)
  /\ (cut x = Some "30–60 min" <-> 30 < x /\ x <= 60)
  /\ (cut x = Some "1–2 hrs" <-> 60 < x /\ x <= 120)
  /\ (cut x = Some "2+ hrs" <-> 120 < x)
  /\ cut 0 = Some "Early/On time"
  /\ cut 15 = Some "0–15 min"
  /\ cut 30 = Some "15–30 min"
  /\ cut 60 = Some "30–60 min"
  /\ cut 120 = Some "1–2 hrs".
Proof.
  split.
  { destruct (cut_cases x) as [H|[H|[H|[H|[H|H]]]]];
      repeat match goal with H : _ /\ _ |- _ => destruct H end;
      match goal with H : cut x = nth_error labels ?n |- _ =>
        exists (nth n labels ""); split; [simpl; tauto | exact H] end. }
  repeat match goal with
         | |- _ /\ _ => split
         | |- cut _ = Some _ => reflexivity
         end;
    (split;
     [ intro H0;
       destruct (cut_cases x) as [H|[H|[H|[H|[H|H]]]]];
       repeat match goal with H : _ /\ _ |- _ => destruct H end;
       match goal with
       | H : cut x = nth_error labels _ |- _ =>
           rewrite H in H0; simpl in H0; try discriminate H0;
           try (repeat split; lra)
       end
     | intro H0;
       destruct (cut_cases x) as [H|[H|[H|[H|[H|H]]]]];
       repeat match goal with H : _ /\ _ |- _ => destruct H end;
       match goal with
       | H : cut x = nth_error labels _ |- _ =>
           rewrite H; simpl; try reflexivity; exfalso; lra
       end ]).
Qed.

(** ** Groups *)

Section GroupFacts.
Context {K : Type} (eqb leb : K -> K -> bool).
Hypothesis eqb_refl : forall k, eqb k k = true.

Lemma insert_key_incl (k x : K) (l : list K) :
  In x (insert_key eqb leb k l) -> x = k \/ In x l.
Proof using Type.
  induction l as [|y t IH]; simpl.
  - intros [E|[]]. left. symmetry. exact E.
  - destruct (eqb k y); [intro H; right; exact H|].
    destruct (leb k y); simpl.
    + intros [E|H]; [left; symmetry; exact E | right; exact H].
    + intros [E|H]; [right; left; exact E|].
      destruct (IH H) as [E|I]; [left; exact E | right; right; exact I].
Qed.

Lemma unique_sorted_incl (x : K) (ks : list K) :
  In x (unique_sorted eqb leb ks) -> In x ks.
Proof using Type.
  induction ks as [|k t IH]; simpl; [tauto|].
  intro H. destruct (insert_key_incl _ _ _ H) as [E|I].
  - left. symmetry. exact E.
  - right. apply IH. exact I.
Qed.

(** A group is a key met in the frame with the rows that carry it. *)
Lemma groupby_In {R : Type} (key : R -> K) (df : list R) (g : K * list R) :
  In g (groupby eqb leb key df) ->
  In (fst g) (map key df) /\ snd g = filter (fun r => eqb (key r) (fst g)) df.
Proof using Type.
  unfold groupby. rewrite in_map_iff. intros [k [E I]]. subst g. simpl.
  split; [apply unique_sorted_incl; exact I | reflexivity].
Qed.

(** Groups come from rows that are there: none is empty. *)
Lemma groupby_nonempty {R : Type} (key : R -> K) (df : list R) (g : K * list R) :
  In g (groupby eqb leb key df) -> (1 <= List.length (snd g))%nat.
Proof using eqb_refl.
  intro H. destruct (groupby_In _ _ _ H) as [I E]. rewrite E.
  apply in_map_iff in I. destruct I as [r [Er Ir]].
  assert (M : In r (filter (fun r => eqb (key r) (fst g)) df)).
  { apply filter_In. split; [exact Ir|]. rewrite Er. apply eqb_refl. }
  destruct (filter (fun r => eqb (key r) (fst g)) df); [destruct M | simpl; lia].
Qed.
End GroupFacts.

Lemma key_eqb_refl (k : list string) : key_eqb k k = true.
Proof.
  induction k as [|x t IH]; simpl; [reflexivity|].
  rewrite String.eqb_refl. exact IH.
Qed.

Lemma inject_Z_pos_nonzero (n : Z) : (1 <= n)%Z -> ~ inject_Z n == 0.
Proof.
  intros H E. unfold Qeq, inject_Z in E. simpl in E. lia.
Qed.

Lemma fdiv_of_int (a b : Z) :
  (1 <= b)%Z -> fdiv (of_int a) (of_int b) = Finite (inject_Z a / inject_Z b).
Proof.
  intro H. unfold fdiv, of_int.
  destruct (Qeq_bool (inject_Z b) 0) eqn:E; [|reflexivity].
  apply Qeq_bool_eq in E. exfalso. exact (inject_Z_pos_nonzero b H E).
Qed.

Lemma Zsum_on_time (g : list Row) :
  Zsum (map on_time g)
  = Z.of_nat (List.length (filter (fun r => Qltb (dep_delay r) 15) g)).
Proof.
  induction g as [|r t IH]; [reflexivity|].
  cbn [map Zsum fold_right filter]. fold (Zsum (map on_time t)). rewrite IH.
  unfold on_time. destruct (Qltb (dep_delay r) 15); cbn [astype_int List.length]; lia.
Qed.

(** The rows of the table [aggregate_delay_metric] returns: a group is the
    flights that carry its key; it counts them, and those among them that left
    less than 15 minutes late. *)
Lemma aggregate_delay_metric_row (flights_df : DataFrame) (groupby_col : list column)
    (arr_iata_codes : option (list string)) (agg_df : list DelayMetric)
    (row : DelayMetric) :
  aggregate_delay_metric flights_df groupby_col arr_iata_codes = Some agg_df ->
  In row agg_df ->
  let group :=
    filter (fun r => key_eqb (map (fun c => get c r) groupby_col) (group_key row))
           (metric_flights flights_df arr_iata_codes) in
  (1 <= total_flights row)%Z
  /\ total_flights row = Z.of_nat (List.length group)
  /\ ontime_count row
     = Z.of_nat (List.length (filter (fun r => Qltb (dep_delay r) 15) group))
  /\ pct_ontime row
     = Finite (inject_Z (ontime_count row) / inject_Z (total_flights row) * 100)
  /\ pct_delay row
     = Finite (100 - inject_Z (ontime_count row) / inject_Z (total_flights row) * 100).
Proof.
  unfold aggregate_delay_metric.
  destruct groupby_col as [|c cs]; [discriminate|].
  destruct (repeated (c :: cs)); [discriminate|].
  intros E I. injection E as E. subst agg_df.
  apply in_map_iff in I. destruct I as [g [Eg Ig]].
  pose proof (groupby_nonempty key_eqb key_leb key_eqb_refl _ _ _ Ig) as N.
  destruct (groupby_In _ _ _ _ _ Ig) as [_ G].
  assert (T : (1 <= Z.of_nat (List.length (snd g)))%Z) by lia.
  subst row.
  cbn [total_flights pct_ontime pct_delay ontime_count group_key].
  assert (G' : snd g
               = filter (fun r => key_eqb (map (fun c0 => get c0 r) (c :: cs)) (fst g))
                        (metric_flights flights_df arr_iata_codes)) by exact G.
  rewrite <- G'.
  pose proof (fdiv_of_int (Zsum (map on_time (snd g))) _ T) as F.
  unfold fdiv, of_int in F. rewrite F. cbn [fmul fsub].
  rewrite Zsum_on_time. tauto.
Qed.

(** C9.  Every group row of the delay-metric table has [total_flights >= 1]:
    the quotient behind [pct_ontime] never has a zero divisor, and the
    percentage is the finite number [100 * ontime_count / total_flights]. *)
Theorem total_flights_positive (flights_df : DataFrame) (groupby_col : list column)
    (arr_iata_codes : option (list string)) (agg_df : list DelayMetric)
    (row : DelayMetric) :
  aggregate_delay_metric flights_df groupby_col arr_iata_codes = Some agg_df ->
  In row agg_df ->
  (total_flights row >= 1)%Z
  /\ ~ inject_Z (total_flights row) == 0
  /\ exists p, pct_ontime row = Finite p
               /\ p == 100 * inject_Z (ontime_count row) / inject_Z (total_flights row).
Proof.
  intros E I.
  destruct (aggregate_delay_metric_row _ _ _ _ _ E I) as [T [_ [_ [P _]]]].
  split; [lia|]. split; [apply inject_Z_pos_nonzero; exact T|].
  eexists. split; [exact P|].
  field. apply inject_Z_pos_nonzero. exact T.
Qed.

(** ** One airline, one group *)

Section SingleKey.
Context {K : Type} (eqb leb : K -> K -> bool).
Hypothesis eqb_refl : forall k, eqb k k = true.

Lemma unique_sorted_constant (k : K) (ks : list K) :
  ks <> [] -> Forall (eq k) ks -> unique_sorted eqb leb ks = [k].
Proof using eqb_refl.
  induction ks as [|x t IH]; [congruence|].
  intros _ F. inversion F as [|? ? E F']. subst x.
  change (unique_sorted eqb leb (k :: t))
    with (insert_key eqb leb k (unique_sorted eqb leb t)).
  destruct t as [|y t'].
  - reflexivity.
  - rewrite (IH ltac:(discriminate) F'). simpl. rewrite eqb_refl. reflexivity.
Qed.

Lemma groupby_constant {R : Type} (key : R -> K) (k : K) (df : list R) :
  df <> [] -> Forall (fun r => key r = k) df ->
  groupby eqb leb key df = [(k, df)].
Proof using eqb_refl.
  intros N F. unfold groupby.
  rewrite (unique_sorted_constant k).
  - simpl. f_equal. f_equal.
    clear N. induction F as [|r t E F IH]; simpl; [reflexivity|].
    rewrite E, eqb_refl, IH. reflexivity.
  - destruct df; [congruence | discriminate].
  - clear N. induction F as [|r t E F IH]; simpl; constructor; auto.
Qed.
End SingleKey.

Lemma filter_all {A : Type} (p : A -> bool) (l : list A) :
  Forall (fun x => p x = true) l -> filter p l = l.
Proof.
  induction 1 as [|x t E F IH]; simpl; [reflexivity|].
  rewrite E, IH. reflexivity.
Qed.

(** Rows that left 5 minutes late are on time, rows that left 90 minutes late
    are not: the on-time count lies between the two counts. *)
Lemma on_time_between (df : DataFrame) :
  (Z.of_nat (List.length (filter (fun r => Qeq_bool (dep_delay r) 5) df))
   <= Zsum (map on_time df)
   <= Z.of_nat (List.length df)
      - Z.of_nat (List.length (filter (fun r => Qeq_bool (dep_delay r) 90) df)))%Z.
Proof.
  induction df as [|r t IH]; [simpl; lia|].
  cbn [map Zsum fold_right filter]. fold (Zsum (map on_time t)).
  unfold on_time at 1 3.
  destruct (Qeq_bool (dep_delay r) 5) eqn:E5;
    destruct (Qeq_bool (dep_delay r) 90) eqn:E90;
    destruct (Qltb (dep_delay r) 15) eqn:L;
    cbn [astype_int List.length]; try lia; exfalso;
    repeat match goal with
           | H : Qeq_bool _ _ = true |- _ => apply Qeq_bool_eq in H
           | H : Qltb _ _ = true |- _ => apply Qltb_lt in H
           | H : Qltb _ _ = false |- _ => apply Qltb_ge in H
           end; lra.
Qed.

(** C5.  In every group row of the delay-metric table the two percentages are
    finite and add up to 100, the on-time count being the number of flights of
    the group with [dep_delay < 15].  On 100 operated flights of one airline,
    80 of them 5 minutes late and 20 of them 90 minutes late, grouping by
    airline gives the single row with [pct_ontime = 80] and [pct_delay = 20]. *)
Theorem pct_ontime_plus_pct_delay :
  (forall flights_df groupby_col arr_iata_codes agg_df row,
      aggregate_delay_metric flights_df groupby_col arr_iata_codes = Some agg_df ->
      In row agg_df ->
      ontime_count row
      = Z.of_nat (List.length
          (filter (fun r => Qltb (dep_delay r) 15)
             (filter (fun r => key_eqb (map (fun c => get c r) groupby_col)
                                       (group_key row))
                     (metric_flights flights_df arr_iata_codes))))
      /\ exists p d, pct_ontime row = Finite p /\ pct_delay row = Finite d
                     /\ p + d == 100)
  /\ (forall flights_df carrier,
         List.length flights_df = 100%nat ->
         Forall (fun r => airline r = carrier /\ flight_status r = "normal") flights_df ->
         List.length (filter (fun r => Qeq_bool (dep_delay r) 5) flights_df) = 80%nat ->
         List.length (filter (fun r => Qeq_bool (dep_delay r) 90) flights_df) = 20%nat ->
         exists p d,
           aggregate_delay_metric flights_df [col_airline] None
           = Some [mkDelayMetric [carrier] 80 100 (Finite p) (Finite d)]
           /\ p == 80 /\ d == 20).
Proof.
  split.
  - intros flights_df groupby_col arr_iata_codes agg_df row E I.
    destruct (aggregate_delay_metric_row _ _ _ _ _ E I) as [T [_ [O [P D]]]].
    split; [exact O|].
    eexists. eexists. split; [exact P|]. split; [exact D|]. ring.
  - intros flights_df carrier L F N5 N90.
    assert (Op : filter operated flights_df = flights_df).
    { apply filter_all. revert F. apply Forall_impl. intros r [_ S].
      unfold operated. rewrite S. reflexivity. }
    assert (G : groupby key_eqb key_leb (fun r => map (fun c => get c r) [col_airline])
                        flights_df = [([carrier], flights_df)]).
    { apply (groupby_constant key_eqb key_leb key_eqb_refl).
      - destruct flights_df; [discriminate L | discriminate].
      - revert F. apply Forall_impl. intros r [A _]. simpl. rewrite A. reflexivity. }
    assert (S : Zsum (map on_time flights_df) = 80%Z).
    { pose proof (on_time_between flights_df) as B. rewrite N5, N90, L in B. lia. }
    unfold aggregate_delay_metric, metric_flights. rewrite Op, G.
    cbn [map fst snd repeated existsb orb]. rewrite S, L.
    eexists. eexists. split; [reflexivity|]. split; reflexivity.
Qed.

Lemma pct_ontime_plus_pct_delay_witness :
  (forall row,
      In row [mkDelayMetric ["Delta Air Lines"] 80 100
                (Finite (8000 # 100)) (Finite (2000 # 100))] ->
      exists p d, pct_ontime row = Finite p /\ pct_delay row = Finite d
                  /\ p + d == 100)
  /\ exists p d,
      aggregate_delay_metric scenario_flights [col_airline] None
      = Some [mkDelayMetric ["Delta Air Lines"] 80 100 (Finite p) (Finite d)]
      /\ p == 80 /\ d == 20.
Proof.
  split.
  - intros row I.
    apply (proj1 pct_ontime_plus_pct_delay scenario_flights [col_airline] None _ row
             ltac:(vm_compute; reflexivity) I).
  - apply (proj2 pct_ontime_plus_pct_delay scenario_flights "Delta Air Lines").
    + vm_compute. reflexivity.
    + unfold scenario_flights. apply Forall_app. split; apply Forall_forall;
        intros r I; apply repeat_spec in I; subst r; split; reflexivity.
    + vm_compute. reflexivity.
    + vm_compute. reflexivity.
Defined.

(** ** The 15-minute boundary *)

(** C10.  A flight that left exactly 15 minutes late is not on time for
    [aggregate_delay_metric] (its [on_time] flag is 0, so it counts towards
    [pct_delay]: alone in its group it makes [pct_delay] 100), and it is not a
    delayed flight for [peak_hour_delays] either (it is in no
    [delayed_flights], and alone it leaves the delayed counts empty). *)
Theorem boundary_15_minutes (r : Row) :
  dep_delay r == 15 ->
  on_time r = 0%Z
  /\ (forall flights_df airline_name h,
         In h (delayed_flights flights_df airline_name) -> flight h <> r)
  /\ (operated r = true ->
      exists p d,
        aggregate_delay_metric [r] [col_airline] None
        = Some [mkDelayMetric [airline r] 0 1 (Finite p) (Finite d)]
        /\ p == 0 /\ d == 100)
  /\ (forall to_datetime,
         grouped_counts (peak_hour_delays (extract_hour to_datetime [r]) (airline r))
         = []).
Proof.
  intro E.
  assert (L : Qltb (dep_delay r) 15 = false) by (apply Qltb_ge; lra).
  assert (G : Qltb 15 (dep_delay r) = false) by (apply Qltb_ge; lra).
  split; [unfold on_time; rewrite L; reflexivity|].
  split.
  { intros flights_df airline_name h I Eh.
    unfold delayed_flights in I. apply filter_In in I. destruct I as [_ D].
    rewrite Eh, G in D. discriminate D. }
  split.
  { intro Op. unfold aggregate_delay_metric, metric_flights.
    cbn [filter]. rewrite Op.
    rewrite (groupby_constant key_eqb key_leb key_eqb_refl _ [airline r] [r]);
      [|discriminate|constructor; [reflexivity|constructor]].
    cbn [map fst snd Zsum fold_right List.length repeated existsb orb].
    unfold on_time. rewrite L.
    eexists. eexists. split; [reflexivity|]. split; reflexivity. }
  intro to_datetime.
  unfold peak_hour_delays, delayed_flights, extract_hour.
  cbn [map filter flight grouped_counts].
  destruct (operated_by (airline r) r); cbn [filter flight]; [rewrite G|]; reflexivity.
Qed.

Lemma boundary_15_minutes_witness :
  let r := a_flight "2024-01-01" "Delta Air Lines" "ATL" "JFK" "US" 15 "normal" in
  dep_delay r == 15
  /\ on_time r = 0%Z
  /\ grouped_counts (peak_hour_delays (extract_hour iso8601 [r]) (airline r)) = [].
Proof.
  intro r.
  assert (E : dep_delay r == 15) by reflexivity.
  destruct (boundary_15_minutes r E) as [O [_ [_ P]]].
  split; [exact E|]. split; [exact O | exact (P iso8601)].
Defined.

(** ** Relative delay *)

Lemma mean_of_rows {A : Type} (f : A -> Q) (l : list A) :
  (1 <= List.length l)%nat ->
  mean (map f l) = Finite (Qsum (map f l) / inject_Z (Z.of_nat (List.length l))).
Proof.
  destruct l as [|x t]; simpl; [lia|]. intros _. rewrite length_map. reflexivity.
Qed.

Lemma fdiv_by_positive (m g : Q) : 0 < g -> fdiv (Finite m) (Finite g) = Finite (m / g).
Proof.
  intro H. unfold fdiv. destruct (Qeq_bool g 0) eqn:E; [|reflexivity].
  apply Qeq_bool_eq in E. rewrite E in H. exfalso. exact (Qlt_irrefl 0 H).
Qed.

Lemma ratio_above_one (m g : Q) : 0 < g -> (1 < m / g <-> g < m).
Proof.
  intro H. split; intro L.
  - assert (E : m == m / g * g) by (field; intro Z; rewrite Z in H; exact (Qlt_irrefl 0 H)).
    rewrite E. rewrite <- (Qmult_1_l g) at 1.
    apply Qmult_lt_compat_r; assumption.
  - apply Qlt_shift_div_l; [exact H|]. rewrite Qmult_1_l. exact L.
Qed.

(** C4.  When the airline-wide mean delay is positive, every airport row of
    [relative_delay] carries the mean delay of the airport's flights and a
    finite ratio with [delay_ratio * global_mean == mean_delay]; the ratio
    exceeds 1 exactly when the airport's mean exceeds the airline's. *)
Theorem delay_ratio_times_global_mean (flights_df : DataFrame)
    (airline_name : string) (gm : Q) (row : RelativeDelay) :
  global_mean flights_df airline_name = Finite gm ->
  0 < gm ->
  In row (relative_delay flights_df airline_name) ->
  let flights :=
    filter (fun r => dep_airport r =? rd_dep_airport row)
           (filter (operated_by airline_name) flights_df) in
  exists m ratio,
    mean_delay row = Finite m
    /\ delay_ratio row = Finite ratio
    /\ (1 <= List.length flights)%nat
    /\ m = Qsum (map dep_delay flights) / inject_Z (Z.of_nat (List.length flights))
    /\ ratio * gm == m
    /\ (1 < ratio <-> gm < m).
Proof.
  intros G P I flights. unfold relative_delay in I. unfold global_mean in G.
  apply in_map_iff in I. destruct I as [g [Eg Ig]].
  pose proof (groupby_nonempty String.eqb String.leb String.eqb_refl _ _ _ Ig) as N.
  destruct (groupby_In _ _ _ _ _ Ig) as [_ F].
  rewrite G in Eg. rewrite (mean_of_rows dep_delay _ N) in Eg.
  rewrite (fdiv_by_positive _ _ P) in Eg. subst row.
  assert (F' : snd g = flights) by exact F.
  exists (Qsum (map dep_delay (snd g)) / inject_Z (Z.of_nat (List.length (snd g)))).
  exists (Qsum (map dep_delay (snd g)) / inject_Z (Z.of_nat (List.length (snd g))) / gm).
  cbn [mean_delay delay_ratio]. rewrite <- F'.
  split; [reflexivity|]. split; [reflexivity|]. split; [exact N|].
  split; [reflexivity|].
  generalize (Qsum (map dep_delay (snd g)) / inject_Z (Z.of_nat (List.length (snd g)))).
  intro m. split.
  - field. intro Z. rewrite Z in P. exact (Qlt_irrefl 0 P).
  - apply ratio_above_one. exact P.
Qed.

Lemma delay_ratio_times_global_mean_witness :
  let df := [a_flight "2024-01-01" "Delta Air Lines" "ATL" "JFK" "US" 30 "normal";
             a_flight "2024-01-01" "Delta Air Lines" "ATL" "LAX" "US" 10 "normal";
             a_flight "2024-01-02" "Delta Air Lines" "MSP" "JFK" "US" 5 "normal"] in
  let row := mkRelativeDelay "ATL Airport" (Finite (40 # 2)) (Finite (120 # 90)) in
  global_mean df "Delta Air Lines" = Finite (45 # 3)
  /\ 0 < 45 # 3
  /\ In row (relative_delay df "Delta Air Lines")
  /\ exists m ratio,
      mean_delay row = Finite m /\ delay_ratio row = Finite ratio
      /\ ratio * (45 # 3) == m /\ (1 < ratio <-> 45 # 3 < m).
Proof.
  intros df row.
  assert (G : global_mean df "Delta Air Lines" = Finite (45 # 3)) by reflexivity.
  assert (P : 0 < 45 # 3) by reflexivity.
  assert (I : In row (relative_delay df "Delta Air Lines")) by (left; reflexivity).
  split; [exact G|]. split; [exact P|]. split; [exact I|].
  destruct (delay_ratio_times_global_mean df "Delta Air Lines" (45 # 3) row G P I)
    as [m [ratio [M [R [_ [_ [T B]]]]]]].
  exists m, ratio. tauto.
Defined.

(** ** The delay distribution *)

Lemma filter_map_length {A B : Type} (f : A -> B) (p : B -> bool) (l : list A) :
  List.length (filter p (map f l)) = List.length (filter (fun x => p (f x)) l).
Proof.
  induction l as [|x t IH]; simpl; [reflexivity|].
  destruct (p (f x)); simpl; rewrite IH; reflexivity.
Qed.

(** Every flight is in one bin: the six bin counts of a set of flights add up
    to the number of flights. *)
Lemma bin_counts_total (p : Row -> bool) (flights : DataFrame) :
  Zsum (map (fun label =>
               Z.of_nat (List.length
                 (filter (fun r => p r && bin_is (cut (dep_delay r)) label) flights)))
            labels)
  = Z.of_nat (List.length (filter p flights)).
Proof.
  unfold labels. cbn [map Zsum fold_right].
  induction flights as [|r t IH]; [reflexivity|].
  cbn [filter]. destruct (p r); cbn [andb]; [|exact IH].
  destruct (cut_cases (dep_delay r)) as [H|[H|[H|[H|[H|H]]]]];
    repeat match goal with H : _ /\ _ |- _ => destruct H end;
    match goal with H : cut _ = _ |- _ => rewrite H end;
    repeat match goal with
           | |- context [bin_is (nth_error labels ?i) ?l] =>
               let v := eval vm_compute in (bin_is (nth_error labels i) l) in
               change (bin_is (nth_error labels i) l) with v
           end;
    cbn [List.length]; lia.
Qed.



Section Heatmap.
Variables (flights_df : DataFrame) (var : column) (airline_name : string).

Let flights := filter (operated_by airline_name) flights_df.
Let binned := map (fun r => (r, cut (dep_delay r))) flights.

(** Flights of dimension value [k] in the bin [label], and in any bin. *)
Let cell (k label : string) : Z :=
  Z.of_nat (List.length
    (filter (fun r => (get var r =? k) && bin_is (cut (dep_delay r)) label) flights)).
Let total (k : string) : Z :=
  Z.of_nat (List.length (filter (fun r => get var r =? k) flights)).

Lemma size_by_bin_entry (e : string * string * Z) :
  In e (size_by_bin var binned) ->
  In (fst (fst e)) (map (get var) flights)
  /\ In (snd (fst e)) labels
  /\ snd e = cell (fst (fst e)) (snd (fst e)).
Proof using Type.
  unfold size_by_bin. rewrite in_flat_map. intros [k [Ik Ie]].
  apply in_map_iff in Ie. destruct Ie as [label [E Il]]. subst e. cbn [fst snd].
  split.
  - apply unique_sorted_incl in Ik. unfold binned in Ik.
    rewrite map_map in Ik. exact Ik.
  - split; [exact Il|]. unfold cell, binned. rewrite filter_map_length. reflexivity.
Qed.

Lemma size_by_bin_complete (k label : string) :
  In k (unique_sorted String.eqb String.leb
          (map (fun rb : Row * option string => get var (fst rb)) binned)) ->
  In label labels ->
  In (k, label, cell k label) (size_by_bin var binned).
Proof using Type.
  intros Ik Il. unfold size_by_bin. apply in_flat_map. exists k.
  split; [exact Ik|]. apply in_map_iff. exists label.
  split; [|exact Il]. unfold cell, binned. rewrite filter_map_length. reflexivity.
Qed.

Lemma level0_key (k : string) :
  In k (level0 (size_by_bin var binned)) ->
  In k (unique_sorted String.eqb String.leb
          (map (fun rb : Row * option string => get var (fst rb)) binned)).
Proof using Type.
  intro I. unfold level0 in I. apply unique_sorted_incl in I.
  apply in_map_iff in I. destruct I as [e [E Ie]]. subst k.
  unfold size_by_bin in Ie. apply in_flat_map in Ie. destruct Ie as [k [Ik Ie]].
  apply in_map_iff in Ie. destruct Ie as [label [E _]]. subst e. exact Ik.
Qed.

(** A row of the count matrix: the six bin counts of its dimension value,
    in the order of the labels. *)
Lemma unstack_row (row : string * list Z) :
  In row (unstack (size_by_bin var binned)) ->
  snd row = map (cell (fst row)) labels /\ (1 <= total (fst row))%Z.
Proof using Type.
  unfold unstack. rewrite in_map_iff. intros [k [E Ik]]. subst row. cbn [fst snd].
  apply level0_key in Ik. split.
  - apply map_ext_in. intros label Il.
    destruct (find (fun e : string * string * Z =>
                      (fst (fst e) =? k) && (snd (fst e) =? label))
                   (size_by_bin var binned)) as [e|] eqn:F.
    + apply find_some in F. destruct F as [Ie M].
      apply andb_true_iff in M. destruct M as [M1 M2].
      apply String.eqb_eq in M1. apply String.eqb_eq in M2.
      destruct (size_by_bin_entry e Ie) as [_ [_ C]]. rewrite C, M1, M2. reflexivity.
    + pose proof (find_none _ _ F _ (size_by_bin_complete k label Ik Il)) as M.
      cbn [fst snd] in M. rewrite !String.eqb_refl in M. discriminate M.
  - apply unique_sorted_incl in Ik. unfold binned in Ik. rewrite map_map in Ik.
    cbn [fst] in Ik. apply in_map_iff in Ik. destruct Ik as [r [E Ir]].
    assert (M : In r (filter (fun r => get var r =? k) flights)).
    { apply filter_In. split; [exact Ir|]. rewrite E. apply String.eqb_refl. }
    unfold total. destruct (filter (fun r => get var r =? k) flights);
      [destruct M | simpl; lia].
Qed.

End Heatmap.

(** ** Sorting *)

Section SortFacts.
Context {A : Type} (leb : A -> A -> bool).

Lemma insert_perm (x : A) (l : list A) : Permutation (insert leb x l) (x :: l).
Proof using Type.
  induction l as [|y t IH]; simpl; [apply Permutation_refl|].
  destruct (leb x y); [apply Permutation_refl|].
  apply Permutation_trans with (y :: x :: t).
  - apply perm_skip. exact IH.
  - apply perm_swap.
Qed.

Lemma sort_perm (l : list A) : Permutation (sort leb l) l.
Proof using Type.
  induction l as [|x t IH]; simpl; [apply perm_nil|].
  apply Permutation_trans with (x :: sort leb t).
  - apply insert_perm.
  - apply perm_skip. exact IH.
Qed.

Hypothesis leb_total : forall a b, leb a b = false -> leb b a = true.
Hypothesis leb_trans :
  forall a b c, leb a b = true -> leb b c = true -> leb a c = true.

Lemma insert_sorted (x : A) (l : list A) :
  StronglySorted (fun a b => leb a b = true) l ->
  StronglySorted (fun a b => leb a b = true) (insert leb x l).
Proof using leb_total leb_trans.
  induction 1 as [|y t S IH F]; simpl.
  - constructor; constructor.
  - destruct (leb x y) eqn:E.
    + constructor; [constructor; assumption|].
      constructor; [exact E|].
      revert F. apply Forall_impl. intros z Z. exact (leb_trans _ _ _ E Z).
    + constructor; [exact IH|].
      apply (Permutation_Forall (Permutation_sym (insert_perm x t))).
      constructor; [apply leb_total; exact E | exact F].
Qed.

Lemma sort_sorted (l : list A) :
  StronglySorted (fun a b => leb a b = true) (sort leb l).
Proof using leb_total leb_trans.
  induction l as [|x t IH]; simpl; [constructor|].
  apply insert_sorted. exact IH.
Qed.
End SortFacts.

Lemma Permutation_filter {A : Type} (p : A -> bool) (l l' : list A) :
  Permutation l l' -> Permutation (filter p l) (filter p l').
Proof.
  induction 1 as [|x l l' P IH|x y l|l l' l'' P1 IH1 P2 IH2]; simpl.
  - apply perm_nil.
  - destruct (p x); [apply perm_skip|]; exact IH.
  - destruct (p x), (p y); try apply Permutation_refl. apply perm_swap.
  - exact (Permutation_trans IH1 IH2).
Qed.

Lemma Qle_bool_total (a b : Q) : Qle_bool a b = false -> Qle_bool b a = true.
Proof.
  intro H. apply Qle_bool_iff. apply Qlt_le_weak.
  apply Qnot_le_lt. intro L. apply Qle_bool_iff in L. congruence.
Qed.

Lemma Qle_bool_trans (a b c : Q) :
  Qle_bool a b = true -> Qle_bool b c = true -> Qle_bool a c = true.
Proof.
  rewrite !Qle_bool_iff. apply Qle_trans.
Qed.

(** In an ascending list the entry at position [k] bounds [x] exactly when at
    most [k] entries lie strictly below [x]. *)
Lemma nth_bounds_count (s : list Q) :
  StronglySorted (fun a b => Qle_bool a b = true) s ->
  forall (k : nat) (x : Q),
    (k < List.length s)%nat ->
    (Qle_bool x (nth k s 0) = true
     <-> (List.length (filter (fun y => Qltb y x) s) <= k)%nat).
Proof.
  induction 1 as [|a t S IH F]; intros k x L; [simpl in L; lia|].
  cbn [filter]. destruct (Qltb a x) eqn:E.
  - destruct k as [|k]; cbn [nth List.length].
    + split; [|lia]. intro H. apply Qle_bool_iff in H. apply Qltb_lt in E.
      exfalso. apply (Qlt_irrefl a). apply Qlt_le_trans with x; assumption.
    + rewrite (IH k x) by (simpl in L; lia). lia.
  - apply Qltb_ge in E.
    assert (Z : filter (fun y => Qltb y x) t = []).
    { clear IH L. induction F as [|b t' B F IHF]; [reflexivity|].
      inversion S as [|? ? S' F']. subst. cbn [filter].
      apply Qle_bool_iff in B.
      assert (N : Qltb b x = false) by (apply Qltb_ge; apply Qle_trans with a; assumption).
      rewrite N. apply IHF. exact S'. }
    rewrite Z. cbn [List.length]. split; [lia|]. intros _.
    apply Qle_bool_iff. destruct k as [|k]; cbn [nth]; [exact E|].
    apply Qle_trans with a; [exact E|].
    apply Qle_bool_iff. rewrite Forall_forall in F. apply F.
    apply nth_In. simpl in L. lia.
Qed.

Lemma filter_length_lt {A : Type} (p : A -> bool) (x : A) (l : list A) :
  In x l -> p x = false -> (List.length (filter p l) < List.length l)%nat.
Proof.
  intros I N. induction l as [|y t IH]; [destruct I|].
  simpl. destruct I as [E|I].
  - subst y. rewrite N. pose proof (filter_length_le p t). lia.
  - specialize (IH I). destruct (p y); simpl; lia.
Qed.

(** ** Ranking routes *)

Lemma rate_geb_total (a b : Route) : rate_geb a b = false -> rate_geb b a = true.
Proof. unfold rate_geb. apply Qle_bool_total. Qed.

Lemma rate_geb_trans (a b c : Route) :
  rate_geb a b = true -> rate_geb b c = true -> rate_geb a c = true.
Proof. unfold rate_geb. intros H1 H2. exact (Qle_bool_trans _ _ _ H2 H1). Qed.

Lemma sort_values_desc_descending (df : list Route) : descending (sort_values_desc df).
Proof.
  unfold descending, sort_values_desc.
  pose proof (sort_sorted rate_geb rate_geb_total rate_geb_trans df) as S.
  induction S as [|a t S IH F]; constructor; [exact IH|].
  revert F. apply Forall_impl. intros b B. apply Qle_bool_iff. exact B.
Qed.

Lemma sort_negated_descending (df : list Route) :
  descending (sort (fun a b => Qle_bool (- delay_rate a) (- delay_rate b)) df).
Proof.
  unfold descending.
  assert (S : StronglySorted
                (fun a b => Qle_bool (- delay_rate a) (- delay_rate b) = true)
                (sort (fun a b => Qle_bool (- delay_rate a) (- delay_rate b)) df)).
  { apply sort_sorted.
    - intros a b. apply Qle_bool_total.
    - intros a b c. apply Qle_bool_trans. }
  induction S as [|a t S IH F]; constructor; [exact IH|].
  revert F. apply Forall_impl. intros b B. apply Qle_bool_iff in B.
  apply Qopp_le_compat in B. rewrite !Qopp_involutive in B. exact B.
Qed.

Lemma outranked_perm (df df' : list Route) (r : Route) :
  Permutation df df' -> outranked df r = outranked df' r.
Proof.
  intro P. unfold outranked. apply Permutation_length. apply Permutation_filter. exact P.
Qed.

Lemma top_with_ties_perm (n : nat) (df df' : list Route) :
  Permutation df df' -> Permutation (top_with_ties n df) (top_with_ties n df').
Proof.
  intro P. unfold top_with_ties.
  rewrite (filter_ext _ (fun r => (outranked df' r <? n)%nat)).
  - apply Permutation_filter. exact P.
  - intro r. rewrite (outranked_perm _ _ r P). reflexivity.
Qed.

(** The boundary test of [nlargest] is the rank test. *)
Lemma nlargest_boundary (n : nat) (df : list Route) (r : Route) :
  (0 < n < List.length df + 1)%nat ->
  Qle_bool (- delay_rate r)
           (kth_smallest (map (fun r => - delay_rate r) df) (n - 1))
  = (outranked df r <? n)%nat.
Proof.
  intro L. unfold kth_smallest, outranked.
  set (arr := map (fun r => - delay_rate r) df).
  assert (P : Permutation (sort Qle_bool arr) arr) by apply sort_perm.
  assert (K : (n - 1 < List.length (sort Qle_bool arr))%nat).
  { rewrite (Permutation_length P). unfold arr. rewrite length_map. lia. }
  pose proof (nth_bounds_count _ (sort_sorted Qle_bool Qle_bool_total Qle_bool_trans arr)
                (n - 1)%nat (- delay_rate r) K) as B.
  rewrite (Permutation_length (Permutation_filter _ _ _ P)) in B.
  unfold arr in B. rewrite filter_map_length in B.
  rewrite (filter_ext (fun x => Qltb (- delay_rate x) (- delay_rate r))
                      (fun r' => Qltb (delay_rate r) (delay_rate r'))) in B.
  - destruct (Qle_bool (- delay_rate r) (nth (n - 1) (sort Qle_bool arr) 0)) eqn:E;
      symmetry; [apply Nat.ltb_lt | apply Nat.ltb_ge].
    + apply proj1 in B. specialize (B E). lia.
    + destruct (Nat.le_gt_cases n
                  (List.length (filter (fun r' => Qltb (delay_rate r) (delay_rate r')) df)))
        as [H|H]; [exact H|].
      apply proj2 in B. fold arr in B. rewrite B in E by lia. discriminate E.
  - intro x. unfold Qltb. f_equal.
    destruct (Qle_bool (delay_rate x) (delay_rate r)) eqn:E.
    + apply Qle_bool_iff. apply Qle_bool_iff in E. apply Qopp_le_compat. exact E.
    + destruct (Qle_bool (- delay_rate r) (- delay_rate x)) eqn:E'; [|reflexivity].
      apply Qle_bool_iff in E'. apply Qopp_le_compat in E'.
      rewrite !Qopp_involutive in E'. apply Qle_bool_iff in E'. congruence.
Qed.

(** [nlargest] with [keep="all"]: the best [n] with their ties, best first. *)
Lemma nlargest_top_with_ties (n : nat) (df : list Route) :
  (0 < n)%nat ->
  Permutation (nlargest n df) (top_with_ties n df) /\ descending (nlargest n df).
Proof.
  intro N. unfold nlargest. destruct n as [|m]; [lia|].
  destruct (List.length df <=? S m)%nat eqn:L.
  - apply Nat.leb_le in L.
    rewrite firstn_all2
      by (unfold sort_values_desc; rewrite (Permutation_length (sort_perm _ df)); exact L).
    split; [|apply sort_values_desc_descending].
    unfold top_with_ties. rewrite filter_all; [apply sort_perm|].
    apply Forall_forall. intros r I. apply Nat.ltb_lt. unfold outranked.
    assert (O : Qltb (delay_rate r) (delay_rate r) = false)
      by (apply Qltb_ge; apply Qle_refl).
    pose proof (filter_length_lt
                  (fun r' => Qltb (delay_rate r) (delay_rate r')) r df I O).
    lia.
  - apply Nat.leb_gt in L. split; [|apply sort_negated_descending].
    apply Permutation_trans with
      (filter (fun r => Qle_bool (- delay_rate r)
                          (kth_smallest (map (fun r => - delay_rate r) df) (S m - 1))) df);
      [apply sort_perm|].
    unfold top_with_ties. rewrite (filter_ext_in _ (fun r => (outranked df r <? S m)%nat));
      [apply Permutation_refl|].
    intros r _. apply nlargest_boundary. lia.
Qed.

Lemma Zsum_is_delayed (g : list Row) :
  Zsum (map is_delayed g)
  = Z.of_nat (List.length (filter (fun r => Qltb 60 (dep_delay r)) g)).
Proof.
  induction g as [|r t IH]; [reflexivity|].
  cbn [map Zsum fold_right filter]. fold (Zsum (map is_delayed t)). rewrite IH.
  unfold is_delayed. destruct (Qltb 60 (dep_delay r)); cbn [astype_int List.length]; lia.
Qed.

(** A row of [route_df]: the flights of the route counted, those more than 60
    minutes late counted, and the quotient of the two counts. *)
Lemma route_table_row (flights_df : DataFrame) (airline_name : string)
    (domestic : bool) (r : Route) :
  In r (route_table flights_df airline_name domestic) ->
  let flights :=
    flights_of_route (route_key r) (route_flights flights_df airline_name domestic) in
  (1 <= flight_count r)%Z
  /\ flight_count r = Z.of_nat (List.length flights)
  /\ delay_count r
     = Z.of_nat (List.length (filter (fun x => Qltb 60 (dep_delay x)) flights))
  /\ delay_rate r = inject_Z (delay_count r) / inject_Z (flight_count r).
Proof.
  intros I flights. unfold route_table in I.
  apply in_map_iff in I. destruct I as [g [E Ig]].
  pose proof (groupby_nonempty key_eqb key_leb key_eqb_refl _ _ _ Ig) as N.
  destruct (groupby_In _ _ _ _ _ Ig) as [_ G].
  subst r. cbn [route_key] in flights.
  assert (G' : snd g = flights) by exact G.
  cbn [flight_count delay_count delay_rate]. rewrite Zsum_is_delayed, <- G'.
  split; [lia|]. repeat split.
Qed.

Lemma median_not_infinite (l : list Z) (s : bool) : median l <> Inf s.
Proof.
  unfold median. destruct (List.length (sort Z.leb l)); [discriminate|].
  destruct (Nat.odd (S n)); discriminate.
Qed.

(** ** Regions *)

Lemma mapM_total {A B : Type} (f : A -> option B) (g : A -> B) (l : list A) :
  (forall x, f x = Some (g x)) -> mapM f l = Some (map g l).
Proof.
  intro H. induction l as [|x t IH]; simpl; [reflexivity|].
  rewrite H, IH. reflexivity.
Qed.

Lemma mapM_Some {A B : Type} (f : A -> option B) (l : list A) (l' : list B) :
  mapM f l = Some l' -> Forall2 (fun x y => f x = Some y) l l'.
Proof.
  revert l'. induction l as [|x t IH]; simpl; intros l' E.
  - injection E as E. subst l'. constructor.
  - destruct (f x) as [y|] eqn:F; [|discriminate E]. simpl in E.
    destruct (mapM f t) as [ys|]; [|discriminate E]. simpl in E.
    injection E as E. subst l'. constructor; [exact F | apply IH; reflexivity].
Qed.

Lemma convert_continent_lowercase (code name : string) :
  convert_continent_code_to_continent_name code = Some name -> In (lower name) continents.
Proof.
  unfold convert_continent_code_to_continent_name, continents.
  repeat match goal with
         | |- context [if ?b then _ else _] => destruct b
         end;
    intro E; try discriminate E; injection E as E; subst name; simpl; tauto.
Qed.

Lemma usa_is_no_continent : ~ In "usa" continents.
Proof.
  unfold continents. simpl. intros H.
  repeat (destruct H as [H|H]; [discriminate H|]). exact H.
Qed.

Lemma tagged_filter {A : Type} (g : A -> string) (v : string) (l : list A) :
  map fst (filter (fun rr : A * string => snd rr =? v) (map (fun r => (r, g r)) l))
  = filter (fun r => g r =? v) l.
Proof.
  induction l as [|x t IH]; simpl; [reflexivity|].
  destruct (g x =? v); simpl; rewrite IH; reflexivity.
Qed.

Lemma weekday_count (day : string) (rows : DataFrame) (days : list string) :
  Forall2 (fun r d => departure_day_of_week r = Some d) rows days ->
  List.length (filter (fun d => d =? day) days)
  = List.length (filter (weekday_is day) rows).
Proof.
  induction 1 as [|r d rows days E F IH]; [reflexivity|].
  cbn [filter]. unfold weekday_is at 1. unfold departure_day_of_week in E.
  destruct (flight_date r) as [s|t]; [discriminate E|].
  injection E as E. subst d.
  destruct (day_name t =? day); cbn [List.length]; rewrite IH; reflexivity.
Qed.

Section RegionFacts.
Variable countries_lookup : string -> option string.
Variable country_alpha2_to_continent_code : string -> option string.

Let resolve := continent_name_of countries_lookup country_alpha2_to_continent_code.
Let classify := country_to_continent countries_lookup country_alpha2_to_continent_code.

(** The libraries know the United States under the code ["US"]. *)
Hypothesis US_resolves : exists name, resolve "US" = Some name.

Lemma continent_of_resolved (c : string) :
  continent_of countries_lookup country_alpha2_to_continent_code c
  = match resolve c with
    | Some name => if c =? "US" then Some "usa" else Some (lower name)
    | None => None
    end.
Proof using Type.
  unfold continent_of, resolve, continent_name_of, bind.
  destruct (countries_lookup c) as [a2|]; [|reflexivity].
  destruct (country_alpha2_to_continent_code a2) as [code|]; [|reflexivity].
  destruct (convert_continent_code_to_continent_name code); reflexivity.
Qed.

Lemma resolved_lowercase (c name : string) :
  resolve c = Some name -> In (lower name) continents.
Proof using Type.
  unfold resolve, continent_name_of, bind.
  destruct (countries_lookup c) as [a2|]; [|discriminate].
  destruct (country_alpha2_to_continent_code a2) as [code|]; [|discriminate].
  apply convert_continent_lowercase.
Qed.

Lemma classify_cases (c : string) :
  classify c
  = Returned (match resolve c with
              | Some name => if c =? "US" then "usa" else lower name
              | None => "other"
              end).
Proof using Type.
  unfold classify, country_to_continent. rewrite continent_of_resolved.
  destruct (resolve c); [destruct (c =? "US")|]; reflexivity.
Qed.

Lemma classify_usa (c : string) : classify c = Returned "usa" <-> c = "US".
Proof using US_resolves.
  rewrite classify_cases. split.
  - intro E. injection E as E.
    destruct (resolve c) as [name|] eqn:R; [|discriminate E].
    destruct (c =? "US") eqn:U; [apply String.eqb_eq; exact U|].
    exfalso. apply usa_is_no_continent. rewrite <- E.
    exact (resolved_lowercase c name R).
  - intro E. subst c. destruct US_resolves as [name R]. rewrite R. reflexivity.
Qed.

(** The flights behind the figure for the region ["usa"]. *)
Lemma region_flights_usa (flights_df : DataFrame) (airline_name : string) :
  exists rows,
    region_flights countries_lookup country_alpha2_to_continent_code
                   flights_df airline_name "usa" = Some rows
    /\ map fst rows
       = filter (fun r => arr_country r =? "US")
                (filter (operated_by airline_name) flights_df).
Proof using US_resolves.
  set (region_of := fun c : string =>
                      match resolve c with
                      | Some name => if c =? "US" then "usa" else lower name
                      | None => "other"
                      end).
  unfold region_flights, bind.
  rewrite (mapM_total _ (fun r => (r, region_of (arr_country r)))).
  - eexists. split; [reflexivity|]. cbn [negb String.eqb Ascii.eqb Bool.eqb].
    rewrite (tagged_filter (fun r => region_of (arr_country r))).
    apply filter_ext. intro r.
    destruct (arr_country r =? "US") eqn:U.
    + apply String.eqb_eq. apply String.eqb_eq in U.
      pose proof (proj2 (classify_usa (arr_country r)) U) as C.
      rewrite classify_cases in C. injection C as C. exact C.
    + apply String.eqb_neq. intro E. apply String.eqb_neq in U. apply U.
      apply classify_usa. rewrite classify_cases. f_equal. exact E.
  - intro r. unfold apply_country_to_continent. fold classify.
    rewrite classify_cases. reflexivity.
Qed.

(** C8.  [country_to_continent] returns on every input and never raises.  It
    returns ["usa"] exactly on the input ["US"], the lower-case continent
    name on any other country the libraries resolve, and ["other"] when the
    lookup fails.  So [flight_volume_by_day] for the region ["usa"] counts,
    weekday by weekday, flights of the airline whose [arr_country] is
    ["US"], and no other. *)
Theorem country_to_continent_total :
  (forall c, exists region, classify c = Returned region)
  /\ (forall c, classify c = Returned "usa" <-> c = "US")
  /\ (forall c name,
         c <> "US" -> resolve c = Some name ->
         classify c = Returned (lower name) /\ In (lower name) continents)
  /\ (forall c, resolve c = None -> classify c = Returned "other")
  /\ (forall flights_df airline_name fig day n,
         flight_volume_by_day countries_lookup country_alpha2_to_continent_code
                              flights_df airline_name "usa" = Some fig ->
         In (day, n) (grouped_df fig) ->
         n = Z.of_nat (List.length
               (filter (weekday_is day)
                  (filter (fun r => arr_country r =? "US")
                     (filter (operated_by airline_name) flights_df))))).
Proof using US_resolves.
  split; [|split; [|split; [|split]]].
  - intro c. rewrite classify_cases. eexists. reflexivity.
  - exact classify_usa.
  - intros c name N R. rewrite classify_cases, R.
    apply String.eqb_neq in N. rewrite N.
    split; [reflexivity | exact (resolved_lowercase c name R)].
  - intros c R. rewrite classify_cases, R. reflexivity.
  - intros flights_df airline_name fig day n E I.
    unfold flight_volume_by_day in E.
    destruct (region_flights_usa flights_df airline_name) as [rows [R M]].
    rewrite R in E. cbn [bind] in E.
    destruct (mapM (fun rr : Row * string => departure_day_of_week (fst rr)) rows)
      as [days|] eqn:D; [|discriminate E].
    cbn [bind] in E. injection E as E. subst fig. cbn [grouped_df] in I.
    apply in_map_iff in I. destruct I as [g [Eg Ig]].
    destruct (groupby_In _ _ _ _ _ Ig) as [_ G].
    injection Eg as Ek En. subst n. rewrite G, Ek. f_equal.
    apply mapM_Some in D.
    assert (D' : Forall2 (fun r d => departure_day_of_week r = Some d)
                         (map fst rows) days).
    { clear -D. induction D; simpl; constructor; assumption. }
    rewrite (weekday_count day _ _ D'), M. reflexivity.
Qed.
End RegionFacts.

Lemma country_to_continent_total_witness :
  (exists name, continent_name_of sample_lookup sample_continent_code "US" = Some name)
  /\ country_to_continent sample_lookup sample_continent_code "US" = Returned "usa"
  /\ country_to_continent sample_lookup sample_continent_code "United States"
     = Returned "north america"
  /\ country_to_continent sample_lookup sample_continent_code "Atlantis"
     = Returned "other".
Proof.
  assert (U : exists name,
             continent_name_of sample_lookup sample_continent_code "US" = Some name)
    by (exists "North America"; reflexivity).
  destruct (country_to_continent_total sample_lookup sample_continent_code U)
    as [_ [Usa [Other [Fail _]]]].
  split; [exact U|]. split; [apply Usa; reflexivity|]. split.
  - apply (Other "United States" "North America"); [discriminate | reflexivity].
  - apply Fail. reflexivity.
Defined.

(** ** The caller's table *)

Lemma select_date_parses_column (to_datetime : string -> option Timestamp)
    (flights_df after returned : DataFrame) (start_date end_date : Date) :
  select_date to_datetime flights_df start_date end_date = Some (after, returned) ->
  Forall (fun r => exists t, flight_date r = Stamp t) after.
Proof.
  unfold select_date, bind.
  destruct (mapM (fun r => to_datetime_cell to_datetime (flight_date r)) flights_df)
    as [parsed|]; [|discriminate].
  intro E. injection E as E _. subst after.
  apply Forall_forall. intros r I. apply in_map_iff in I.
  destruct I as [rt [E _]]. subst r. exists (snd rt). reflexivity.
Qed.

(** C7, on the code.  [select_date] writes the parsed dates into the table it
    is given: called on a table as read from the file, whose [flight_date]
    cells are text, it leaves the caller with a table whose cells are
    timestamps. *)
Theorem select_date_rewrites_flight_date :
  exists after returned,
    select_date iso8601 two_weekdays (mkDate 2024 1 1) (mkDate 2024 1 31)
    = Some (after, returned)
    /\ map flight_date two_weekdays = [Text "2024-01-01"; Text "2024-01-05"]
    /\ map flight_date after
       = [Stamp (mkTimestamp (mkDate 2024 1 1) 0); Stamp (mkTimestamp (mkDate 2024 1 5) 0)]
    /\ after <> two_weekdays.
Proof.
  eexists. eexists. split; [vm_compute; reflexivity|].
  split; [reflexivity|]. split; [reflexivity|]. discriminate.
Qed.

(** ** Weekday rows *)

(** C6, the rows of the table.  The weekday rows of [grouped_df] stay in
    the order of the group keys, the weekday names in ascending order: on a
    Monday flight and a Friday flight the rows are Friday, Monday, which is
    not Monday first. *)
Theorem weekday_rows_in_name_order :
  exists after filtered_df fig,
    select_date iso8601 two_weekdays (mkDate 2024 1 1) (mkDate 2024 1 31)
    = Some (after, filtered_df)
    /\ flight_volume_by_day sample_lookup sample_continent_code
                            filtered_df "Delta Air Lines" "world" = Some fig
    /\ grouped_df fig = [("Friday", 1%Z); ("Monday", 1%Z)]
    /\ ~ monday_first (map fst (grouped_df fig))
    /\ categories fig = weekday_order
    /\ categoryarray fig = weekday_order.
Proof.
  eexists. eexists. eexists. split; [vm_compute; reflexivity|].
  split; [vm_compute; reflexivity|]. split; [reflexivity|].
  split; [|split; reflexivity].
  cbn [grouped_df map fst]. intro M. inversion M as [|d t S F]. subst.
  inversion F as [|d' t' L F']. subst. vm_compute in L. lia.
Qed.

(** A table whose dates are parsed already comes back as it was. *)
Lemma select_date_keeps_parsed (to_datetime : string -> option Timestamp)
    (flights_df : DataFrame) (start_date end_date : Date) :
  Forall (fun r => exists t, flight_date r = Stamp t) flights_df ->
  exists returned,
    select_date to_datetime flights_df start_date end_date = Some (flights_df, returned).
Proof.
  intro F. unfold select_date, bind.
  assert (P : exists parsed,
             mapM (fun r => to_datetime_cell to_datetime (flight_date r)) flights_df
             = Some parsed
             /\ map (fun rt => with_flight_date (fst rt) (Stamp (snd rt)))
                    (combine flights_df parsed) = flights_df).
  { induction F as [|r t [ts E] F [parsed [M C]]]; [exists []; split; reflexivity|].
    exists (ts :: parsed). cbn [mapM bind]. rewrite E. cbn [to_datetime_cell bind].
    rewrite M. split; [reflexivity|]. cbn [combine map fst snd]. rewrite C.
    f_equal. destruct r. cbn in E. subst. reflexivity. }
  destruct P as [parsed [M C]]. rewrite M, C. eexists. reflexivity.
Qed.

Lemma total_flights_positive_witness :
  let row := mkDelayMetric ["Delta Air Lines"] 80 100
               (Finite (8000 # 100)) (Finite (2000 # 100)) in
  aggregate_delay_metric scenario_flights [col_airline] None = Some [row]
  /\ In row [row]
  /\ (total_flights row >= 1)%Z.
Proof.
  intro row.
  assert (E : aggregate_delay_metric scenario_flights [col_airline] None = Some [row])
    by (vm_compute; reflexivity).
  assert (I : In row [row]) by (left; reflexivity).
  split; [exact E|]. split; [exact I|].
  exact (proj1 (total_flights_positive scenario_flights [col_airline] None [row] row E I)).
Defined.

(** * More on the aggregators *)

(** ** Key orders *)

Lemma ascii_compare_refl (c : ascii) : Ascii.compare c c = Eq.
Proof. unfold Ascii.compare. apply N.compare_refl. Qed.

Lemma string_compare_refl (s : string) : String.compare s s = Eq.
Proof.
  induction s as [|c s IH]; simpl; [reflexivity|].
  rewrite ascii_compare_refl. exact IH.
Qed.

Lemma string_leb_refl (s : string) : String.leb s s = true.
Proof. unfold String.leb. rewrite string_compare_refl. reflexivity. Qed.

Lemma string_leb_trans (a b c : string) :
  String.leb a b = true -> String.leb b c = true -> String.leb a c = true.
Proof.
  unfold String.leb. revert b c.
  induction a as [|ca a IH]; intros [|cb b] [|cc c]; simpl;
    try reflexivity; try discriminate.
  unfold Ascii.compare.
  destruct (N.compare_spec (N_of_ascii ca) (N_of_ascii cb)) as [E1|L1|G1];
    destruct (N.compare_spec (N_of_ascii cb) (N_of_ascii cc)) as [E2|L2|G2];
    destruct (N.compare_spec (N_of_ascii ca) (N_of_ascii cc)) as [E3|L3|G3];
    try reflexivity; try discriminate; try lia.
  apply IH.
Qed.

Lemma string_leb_total (a b : string) : String.leb a b = false -> String.leb b a = true.
Proof.
  intro H. destruct (String.leb_total a b) as [T|T]; [congruence | exact T].
Qed.

Lemma string_key_order : key_order String.eqb String.leb.
Proof.
  constructor.
  - apply String.eqb_refl.
  - apply String.eqb_sym.
  - intros a b c H1 H2. apply String.eqb_eq in H1. apply String.eqb_eq in H2.
    subst. apply String.eqb_refl.
  - apply string_leb_total.
  - apply string_leb_trans.
  - intros a b H1 H2. apply String.eqb_eq. apply String.leb_antisym; assumption.
  - intros a b H. apply String.eqb_eq in H. subst. apply string_leb_refl.
Qed.

Lemma Z_key_order : key_order Z.eqb Z.leb.
Proof.
  constructor; intros;
    repeat match goal with
           | H : (_ =? _)%Z = true |- _ => apply Z.eqb_eq in H
           | H : (_ <=? _)%Z = true |- _ => apply Z.leb_le in H
           | H : (_ <=? _)%Z = false |- _ => apply Z.leb_gt in H
           end;
    try (apply Z.eqb_eq); try (apply Z.leb_le); lia.
Qed.

Lemma Q_key_order : key_order Qeq_bool Qle_bool.
Proof.
  constructor.
  - apply Qeq_bool_refl.
  - apply Qeq_bool_comm.
  - apply Qeq_bool_trans.
  - apply Qle_bool_total.
  - apply Qle_bool_trans.
  - intros a b H1 H2. apply Qeq_bool_iff. apply Qle_bool_iff in H1, H2.
    apply Qle_antisym; assumption.
  - intros a b H. apply Qeq_bool_iff in H. apply Qle_bool_iff. rewrite H. apply Qle_refl.
Qed.

(** Two columns ordered make an ordered pair of columns. *)
Lemma pair_key_order {A B : Type} (eqa lea : A -> A -> bool) (eqb leb : B -> B -> bool) :
  key_order eqa lea -> key_order eqb leb ->
  key_order (pair_eqb eqa eqb) (pair_leb eqa lea leb).
Proof.
  intros [ra sa ta tota lta asa ela] [rb sb tb totb ltb asb elb].
  constructor; unfold pair_eqb, pair_leb.
  - intros [a b]. simpl. rewrite ra, rb. reflexivity.
  - intros [a b] [a' b']. simpl. rewrite (sa a a'), (sb b b'). reflexivity.
  - intros [a b] [a' b'] [a'' b'']. simpl. rewrite !andb_true_iff.
    intros [H1 H2] [H3 H4]. split; [exact (ta _ _ _ H1 H3) | exact (tb _ _ _ H2 H4)].
  - intros [a b] [a' b']. simpl. rewrite (sa a' a).
    destruct (eqa a a'); [apply totb | apply tota].
  - intros [a b] [a' b'] [a'' b'']. simpl.
    destruct (eqa a a') eqn:E1; destruct (eqa a' a'') eqn:E2;
      destruct (eqa a a'') eqn:E3; intros H1 H2.
    + exact (ltb _ _ _ H1 H2).
    + rewrite (ta _ _ _ E1 E2) in E3. discriminate E3.
    + rewrite sa in E1. rewrite (ta _ _ _ E1 E3) in E2. discriminate E2.
    + apply (lta a a' a''); [apply ela; exact E1 | exact H2].
    + rewrite sa in E2. rewrite (ta _ _ _ E3 E2) in E1. discriminate E1.
    + apply (lta a a' a''); [exact H1 | apply ela; exact E2].
    + exfalso. rewrite sa in E3.
      pose proof (lta _ _ _ H2 (ela _ _ E3)) as H3.
      rewrite (asa _ _ H1 H3) in E1. discriminate E1.
    + exact (lta _ _ _ H1 H2).
  - intros [a b] [a' b']. simpl. rewrite (sa a' a).
    destruct (eqa a a') eqn:E; intros H1 H2.
    + rewrite (asb _ _ H1 H2). reflexivity.
    + rewrite (asa _ _ H1 H2) in E. discriminate E.
  - intros [a b] [a' b']. simpl. rewrite andb_true_iff. intros [H1 H2].
    rewrite H1. apply elb. exact H2.
Qed.

Lemma key_order_ext {K : Type} (eqb leb eqb' leb' : K -> K -> bool) :
  (forall a b, eqb' a b = eqb a b) -> (forall a b, leb' a b = leb a b) ->
  key_order eqb leb -> key_order eqb' leb'.
Proof.
  intros Ee El [r s t tot lt asy el].
  constructor; intros; rewrite ?Ee, ?El in *; eauto.
Qed.

Lemma hour_group_key_order : key_order hour_group_eqb hour_group_leb.
Proof.
  apply (key_order_ext (pair_eqb Z.eqb String.eqb) (pair_leb Z.eqb Z.leb String.leb)).
  - intros a b. reflexivity.
  - intros a b. unfold hour_group_leb, pair_leb.
    destruct (fst a =? fst b)%Z eqn:E; [reflexivity|].
    apply Z.eqb_neq in E.
    destruct (fst a <? fst b)%Z eqn:L; symmetry;
      [apply Z.leb_le; apply Z.ltb_lt in L | apply Z.leb_gt; apply Z.ltb_ge in L]; lia.
  - apply pair_key_order; [exact Z_key_order | exact string_key_order].
Qed.

Lemma key_eqb_eq (a b : list string) : key_eqb a b = true <-> a = b.
Proof.
  revert b. induction a as [|x a IH]; intros [|y b]; simpl;
    try (split; [reflexivity | reflexivity]); try (split; discriminate).
  rewrite andb_true_iff, String.eqb_eq, IH. split.
  - intros [E1 E2]. subst. reflexivity.
  - intro E. injection E as E1 E2. split; assumption.
Qed.

Lemma list_key_order : key_order key_eqb key_leb.
Proof.
  constructor.
  - apply key_eqb_refl.
  - intros a b. destruct (key_eqb a b) eqn:E.
    + apply key_eqb_eq in E. subst. symmetry. apply key_eqb_refl.
    + destruct (key_eqb b a) eqn:E'; [|reflexivity].
      apply key_eqb_eq in E'. subst. rewrite key_eqb_refl in E. discriminate E.
  - intros a b c H1 H2. apply key_eqb_eq in H1, H2. subst. apply key_eqb_refl.
  - induction a as [|x a IH]; intros [|y b]; simpl; try discriminate; try reflexivity.
    rewrite (String.eqb_sym y x).
    destruct (x =? y); [apply IH | apply string_leb_total].
  - induction a as [|x a IH]; intros [|y b] [|z c]; simpl;
      try discriminate; try reflexivity.
    destruct (x =? y) eqn:E1; destruct (y =? z) eqn:E2; destruct (x =? z) eqn:E3;
      try (apply String.eqb_eq in E1); try (apply String.eqb_eq in E2);
      try (apply String.eqb_eq in E3); subst;
      try (rewrite String.eqb_refl in * );
      try discriminate; intros H1 H2.
    + exact (IH _ _ H1 H2).
    + exact H2.
    + exact H1.
    + exfalso. apply String.eqb_neq in E1. apply E1.
      apply String.leb_antisym; assumption.
    + exact (string_leb_trans _ _ _ H1 H2).
  - induction a as [|x a IH]; intros [|y b]; simpl; try discriminate; try reflexivity.
    rewrite (String.eqb_sym y x).
    destruct (x =? y) eqn:E; intros H1 H2.
    + apply IH; assumption.
    + apply String.eqb_neq in E. exfalso. apply E.
      apply String.leb_antisym; assumption.
  - intros a b H. apply key_eqb_eq in H. subst.
    induction b as [|x b IH]; simpl; [reflexivity|].
    rewrite String.eqb_refl. exact IH.
Qed.

(** ** Groups under a key order *)

Section OrderedGroups.
Context {K : Type} (eqb leb : K -> K -> bool).
Hypothesis order : key_order eqb leb.

Lemma insert_key_keeps (k x : K) (l : list K) :
  In x l -> In x (insert_key eqb leb k l).
Proof using Type.
  induction l as [|y t IH]; simpl; [tauto|].
  intro I. destruct (eqb k y); [exact I|].
  destruct (leb k y); [right; exact I|].
  destruct I as [E|I]; [left; exact E | right; apply IH; exact I].
Qed.

Lemma insert_key_has (k : K) (l : list K) :
  exists k', In k' (insert_key eqb leb k l) /\ eqb k k' = true.
Proof using order.
  induction l as [|y t [k' [I E]]]; simpl.
  - exists k. split; [left; reflexivity | apply (ko_refl _ _ order)].
  - destruct (eqb k y) eqn:Ey; [exists y; split; [left; reflexivity | exact Ey]|].
    destruct (leb k y).
    + exists k. split; [left; reflexivity | apply (ko_refl _ _ order)].
    + exists k'. split; [right; exact I | exact E].
Qed.

Lemma insert_key_sorted (k : K) (l : list K) :
  StronglySorted (key_lt eqb leb) l ->
  StronglySorted (key_lt eqb leb) (insert_key eqb leb k l).
Proof using order.
  destruct order as [r s t tot lt asy el].
  induction 1 as [|y u S IH F]; simpl.
  - constructor; constructor.
  - destruct (eqb k y) eqn:E; [constructor; assumption|].
    destruct (leb k y) eqn:L.
    + constructor; [constructor; assumption|].
      constructor; [split; assumption|].
      revert F. apply Forall_impl. intros z [Lz Ez]. split; [exact (lt _ _ _ L Lz)|].
      destruct (eqb k z) eqn:Ekz; [|reflexivity].
      rewrite s in Ekz. pose proof (lt _ _ _ Lz (el _ _ Ekz)) as Lyk.
      rewrite (asy _ _ L Lyk) in E. discriminate E.
    + constructor; [exact IH|].
      apply Forall_forall. intros z I.
      destruct (insert_key_incl _ _ _ _ _ I) as [Ez|Iz].
      * subst z. split; [apply tot; exact L | rewrite s; exact E].
      * rewrite Forall_forall in F. apply F. exact Iz.
Qed.

(** The keys of a column come out ascending, each value once. *)
Lemma unique_sorted_sorted (ks : list K) :
  StronglySorted (key_lt eqb leb) (unique_sorted eqb leb ks).
Proof using order.
  induction ks as [|k t IH]; simpl; [constructor|].
  apply insert_key_sorted. exact IH.
Qed.

Lemma unique_sorted_complete (k : K) (ks : list K) :
  In k ks -> exists k', In k' (unique_sorted eqb leb ks) /\ eqb k k' = true.
Proof using order.
  induction ks as [|x t IH]; simpl; [tauto|].
  intros [E|I].
  - subst x. apply insert_key_has.
  - destruct (IH I) as [k' [I' E']]. exists k'.
    split; [apply insert_key_keeps; exact I' | exact E'].
Qed.

Lemma sorted_keys_match_once (v : K) (l : list K) :
  StronglySorted (key_lt eqb leb) l ->
  (List.length (filter (fun k => eqb v k) l) <= 1)%nat.
Proof using order.
  destruct order as [r s t tot lt asy el].
  induction 1 as [|y u S IH F]; simpl; [lia|].
  destruct (eqb v y) eqn:E; [|exact IH].
  assert (Z : filter (fun k => eqb v k) u = []).
  { clear IH S. induction F as [|z u' [Lz Ez] F IHF]; [reflexivity|].
    simpl. destruct (eqb v z) eqn:Evz; [|exact IHF].
    rewrite s in E. rewrite (t _ _ _ E Evz) in Ez. discriminate Ez. }
  rewrite Z. simpl. lia.
Qed.

Lemma sorted_keys_NoDup (l : list K) :
  StronglySorted (key_lt eqb leb) l -> NoDup l.
Proof using order.
  induction 1 as [|y u S IH F]; constructor; [|exact IH].
  intro I. rewrite Forall_forall in F. destruct (F y I) as [_ E].
  rewrite (ko_refl _ _ order) in E. discriminate E.
Qed.

(** A key of the column matches exactly one of the group keys. *)
Lemma key_matches_once (v : K) (ks : list K) :
  In v ks -> List.length (filter (fun k => eqb v k) (unique_sorted eqb leb ks)) = 1%nat.
Proof using order.
  intro I. pose proof (sorted_keys_match_once v _ (unique_sorted_sorted ks)) as U.
  destruct (unique_sorted_complete v ks I) as [k' [I' E']].
  assert (M : In k' (filter (fun k => eqb v k) (unique_sorted eqb leb ks)))
    by (apply filter_In; split; assumption).
  destruct (filter (fun k => eqb v k) (unique_sorted eqb leb ks));
    [destruct M | simpl in *; lia].
Qed.

Lemma flat_map_filter_skip {R : Type} (p : K -> R -> bool) (r : R) (t : list R)
    (l : list K) :
  filter (fun k => p k r) l = [] ->
  flat_map (fun k => filter (p k) (r :: t)) l = flat_map (fun k => filter (p k) t) l.
Proof using Type.
  induction l as [|k l IH]; [reflexivity|].
  intro Z. cbn [filter] in Z. cbn [flat_map].
  assert (Hd : filter (p k) (r :: t)
               = if p k r then r :: filter (p k) t else filter (p k) t) by reflexivity.
  rewrite Hd. destruct (p k r); [discriminate Z|]. rewrite (IH Z). reflexivity.
Qed.

Lemma flat_map_filter_cons {R : Type} (p : K -> R -> bool) (r : R) (t : list R)
    (l : list K) :
  List.length (filter (fun k => p k r) l) = 1%nat ->
  Permutation (flat_map (fun k => filter (p k) (r :: t)) l)
              (r :: flat_map (fun k => filter (p k) t) l).
Proof using Type.
  induction l as [|k l IH]; [discriminate|].
  intro L. cbn [filter] in L. cbn [flat_map].
  assert (Hd : filter (p k) (r :: t)
               = if p k r then r :: filter (p k) t else filter (p k) t) by reflexivity.
  rewrite Hd. destruct (p k r).
  - rewrite flat_map_filter_skip.
    + apply Permutation_refl.
    + destruct (filter (fun k => p k r) l); [reflexivity | simpl in L; lia].
  - apply Permutation_trans with
      (filter (p k) t ++ r :: flat_map (fun k => filter (p k) t) l)%list.
    + apply Permutation_app_head. apply IH. exact L.
    + apply Permutation_sym. apply Permutation_middle.
Qed.

(** The groups of a frame hold each of its rows once. *)
Lemma groupby_partition {R : Type} (key : R -> K) (df : list R) :
  Permutation (flat_map snd (groupby eqb leb key df)) df.
Proof using order.
  unfold groupby. rewrite flat_map_concat_map, map_map. cbn [snd].
  rewrite <- flat_map_concat_map.
  assert (G : forall l, incl l df ->
                Permutation
                  (flat_map (fun k => filter (fun r => eqb (key r) k) l)
                            (unique_sorted eqb leb (map key df))) l).
  { induction l as [|r t IH]; intro I.
    - clear. induction (unique_sorted eqb leb (map key df)); simpl; auto.
    - apply Permutation_trans with
        (r :: flat_map (fun k => filter (fun r => eqb (key r) k) t)
                       (unique_sorted eqb leb (map key df))).
      + apply (flat_map_filter_cons (fun k r => eqb (key r) k)).
        apply key_matches_once. apply in_map. apply I. left. reflexivity.
      + apply perm_skip. apply IH. intros x Ix. apply I. right. exact Ix. }
  apply G. apply incl_refl.
Qed.

Lemma groupby_keys_sorted {R : Type} (key : R -> K) (df : list R) :
  StronglySorted (key_lt eqb leb) (map fst (groupby eqb leb key df)).
Proof using order.
  unfold groupby. rewrite map_map. cbn [fst]. rewrite map_id.
  apply unique_sorted_sorted.
Qed.

Lemma groupby_sizes {R : Type} (key : R -> K) (df : list R) :
  Zsum (map (fun g => Z.of_nat (List.length (snd g))) (groupby eqb leb key df))
  = Z.of_nat (List.length df).
Proof using order.
  rewrite <- (Permutation_length (groupby_partition key df)).
  induction (groupby eqb leb key df) as [|g l IH]; [reflexivity|].
  cbn [map Zsum fold_right flat_map]. fold (Zsum (map (fun g => Z.of_nat (List.length (snd g))) l)).
  rewrite IH, length_app. lia.
Qed.
End OrderedGroups.

(** ** The date filter *)

Lemma date_eqb_eq (a b : Date) : date_eqb a b = true <-> a = b.
Proof.
  destruct a as [ya ma da], b as [yb mb db]. unfold date_eqb. cbn [year month day].
  rewrite !andb_true_iff, !Z.eqb_eq. split.
  - intros [[E1 E2] E3]. subst. reflexivity.
  - intro E. injection E as E1 E2 E3. tauto.
Qed.

Lemma date_leb_refl (a : Date) : date_leb a a = true.
Proof. unfold date_leb. lia. Qed.

Lemma date_leb_trans (a b c : Date) :
  date_leb a b = true -> date_leb b c = true -> date_leb a c = true.
Proof. unfold date_leb. lia. Qed.

Lemma date_leb_antisym (a b : Date) :
  date_leb a b = true -> date_leb b a = true -> a = b.
Proof.
  intros H1 H2. apply date_eqb_eq. unfold date_leb, date_eqb in *. lia.
Qed.

Lemma mapM_None {A B : Type} (f : A -> option B) (l : list A) :
  mapM f l = None <-> exists x, In x l /\ f x = None.
Proof.
  induction l as [|x t IH]; simpl.
  - split; [discriminate | intros [x [[] _]]].
  - destruct (f x) as [y|] eqn:F; simpl.
    + destruct (mapM f t) as [ys|]; simpl.
      * split; [discriminate|]. intros [z [[E|I] N]]; [subst; congruence|].
        exfalso. assert (X : Some ys = None) by (apply (proj2 IH); exists z; tauto).
        discriminate X.
      * split; [|reflexivity]. intros _. destruct (proj1 IH eq_refl) as [z [I N]].
        exists z. split; [right; exact I | exact N].
    + split; [|reflexivity]. intros _. exists x. split; [left; reflexivity | exact F].
Qed.

Lemma filter_filter_same {A : Type} (p : A -> bool) (l : list A) :
  filter p (filter p l) = filter p l.
Proof.
  apply filter_all. apply Forall_forall. intros x I. apply filter_In in I. tauto.
Qed.

(** What [select_date] returns, whichever branch is taken. *)
Lemma select_date_returned (to_datetime : string -> option Timestamp)
    (flights_df after returned : DataFrame) (start_date end_date : Date) :
  select_date to_datetime flights_df start_date end_date = Some (after, returned) ->
  returned
  = filter (on_date (fun d => date_leb start_date d && date_leb d end_date)) after.
Proof.
  unfold select_date, bind.
  destruct (mapM (fun r => to_datetime_cell to_datetime (flight_date r)) flights_df)
    as [parsed|]; [|discriminate].
  intro E. injection E as E1 E2. rewrite E1 in E2. subst returned.
  destruct (date_eqb start_date end_date) eqn:D; [|reflexivity].
  apply date_eqb_eq in D. subst end_date.
  apply filter_ext. intro r. unfold on_date.
  destruct (flight_date r) as [s|t]; [reflexivity|].
  destruct (date_eqb (date t) start_date) eqn:E.
  - apply date_eqb_eq in E. rewrite E, date_leb_refl. reflexivity.
  - destruct (date_leb start_date (date t)) eqn:L1; [|reflexivity].
    destruct (date_leb (date t) start_date) eqn:L2; [|reflexivity].
    rewrite (date_leb_antisym _ _ L2 L1) in E.
    rewrite (proj2 (date_eqb_eq _ _) eq_refl) in E. discriminate E.
Qed.

(** X1.  [select_date] is an inclusive range filter on both of its branches:
    it returns, in table order, the rows of the parsed table whose date lies
    between [start_date] and [end_date], both included; the single-day branch
    is the range filter with equal ends. *)
Theorem select_date_inclusive_range (to_datetime : string -> option Timestamp)
    (flights_df after returned : DataFrame) (start_date end_date : Date) :
  select_date to_datetime flights_df start_date end_date = Some (after, returned) ->
  returned
  = filter (on_date (fun d => date_leb start_date d && date_leb d end_date)) after
  /\ Forall (fun r => exists t, flight_date r = Stamp t
                                /\ date_leb start_date (date t) = true
                                /\ date_leb (date t) end_date = true)
            returned.
Proof.
  intro E. pose proof (select_date_returned _ _ _ _ _ _ E) as R.
  split; [exact R|]. rewrite R. apply Forall_forall. intros r I.
  apply filter_In in I. destruct I as [_ D]. unfold on_date in D.
  destruct (flight_date r) as [s|t]; [discriminate D|].
  apply andb_true_iff in D. exists t. tauto.
Qed.

Lemma select_date_inclusive_range_witness :
  exists after returned,
    select_date iso8601 two_weekdays (mkDate 2024 1 2) (mkDate 2024 1 5)
    = Some (after, returned)
    /\ map arr_iata returned = ["CDG"]
    /\ Forall (fun r => exists t, flight_date r = Stamp t
                                  /\ date_leb (mkDate 2024 1 2) (date t) = true
                                  /\ date_leb (date t) (mkDate 2024 1 5) = true)
              returned.
Proof.
  eexists. eexists.
  assert (E : select_date iso8601 two_weekdays (mkDate 2024 1 2) (mkDate 2024 1 5)
              = Some (fst (match select_date iso8601 two_weekdays (mkDate 2024 1 2)
                                             (mkDate 2024 1 5) with
                           | Some p => p | None => ([], []) end),
                      snd (match select_date iso8601 two_weekdays (mkDate 2024 1 2)
                                             (mkDate 2024 1 5) with
                           | Some p => p | None => ([], []) end)))
    by (vm_compute; reflexivity).
  split; [exact E|]. split; [vm_compute; reflexivity|].
  exact (proj2 (select_date_inclusive_range _ _ _ _ _ _ E)).
Defined.

(** X2.  [select_date] does not skip a row whose date it cannot read: one
    [flight_date] cell holding text that [pd.to_datetime] rejects makes the
    whole call raise, whatever the range asked for. *)
Theorem select_date_raises (to_datetime : string -> option Timestamp)
    (flights_df : DataFrame) (start_date end_date : Date) (r : Row) (s : string) :
  In r flights_df -> flight_date r = Text s -> to_datetime s = None ->
  select_date to_datetime flights_df start_date end_date = None.
Proof.
  intros I T N. unfold select_date, bind.
  assert (X : mapM (fun r => to_datetime_cell to_datetime (flight_date r)) flights_df
              = None).
  { apply mapM_None. exists r. split; [exact I|]. rewrite T. exact N. }
  rewrite X. reflexivity.
Qed.

Lemma select_date_raises_witness :
  let r := a_flight "01/05/2024" "Delta Air Lines" "ATL" "CDG" "FR" 20 "normal" in
  In r (two_weekdays ++ [r])%list
  /\ flight_date r = Text "01/05/2024"
  /\ iso8601 "01/05/2024" = None
  /\ select_date iso8601 (two_weekdays ++ [r])%list (mkDate 2024 1 1) (mkDate 2024 1 31)
     = None.
Proof.
  intro r.
  assert (I : In r (two_weekdays ++ [r])%list) by (apply in_or_app; right; left; reflexivity).
  assert (T : flight_date r = Text "01/05/2024") by reflexivity.
  assert (N : iso8601 "01/05/2024" = None) by reflexivity.
  split; [exact I|]. split; [exact T|]. split; [exact N|].
  exact (select_date_raises iso8601 _ (mkDate 2024 1 1) (mkDate 2024 1 31) r _ I T N).
Defined.

(** X3.  A range given backwards, [start_date] after [end_date], is not an
    error and is not swapped: [select_date] returns the empty table. *)
Theorem select_date_reversed_range (to_datetime : string -> option Timestamp)
    (flights_df after returned : DataFrame) (start_date end_date : Date) :
  date_leb start_date end_date = false ->
  select_date to_datetime flights_df start_date end_date = Some (after, returned) ->
  returned = [].
Proof.
  intros L E. rewrite (select_date_returned _ _ _ _ _ _ E). clear E.
  induction after as [|r t IH]; [reflexivity|].
  cbn [filter]. unfold on_date at 1.
  destruct (flight_date r) as [s|ts]; [exact IH|].
  destruct (date_leb start_date (date ts)) eqn:L1; [|exact IH].
  destruct (date_leb (date ts) end_date) eqn:L2; [|exact IH].
  rewrite (date_leb_trans _ _ _ L1 L2) in L. discriminate L.
Qed.

Lemma select_date_reversed_range_witness :
  date_leb (mkDate 2024 1 31) (mkDate 2024 1 1) = false
  /\ exists after,
      select_date iso8601 two_weekdays (mkDate 2024 1 31) (mkDate 2024 1 1)
      = Some (after, []).
Proof.
  split; [reflexivity|].
  assert (L : date_leb (mkDate 2024 1 31) (mkDate 2024 1 1) = false) by reflexivity.
  assert (E : exists after returned,
             select_date iso8601 two_weekdays (mkDate 2024 1 31) (mkDate 2024 1 1)
             = Some (after, returned))
    by (eexists; eexists; vm_compute; reflexivity).
  destruct E as [after [returned E]].
  exists after. rewrite E.
  rewrite (select_date_reversed_range iso8601 two_weekdays after returned _ _ L E).
  reflexivity.
Defined.

(** X4.  Filtering the filtered table again with the same range changes
    nothing: the second call returns its argument, and leaves it as it was. *)
Theorem select_date_idempotent (to_datetime : string -> option Timestamp)
    (flights_df after returned : DataFrame) (start_date end_date : Date) :
  select_date to_datetime flights_df start_date end_date = Some (after, returned) ->
  select_date to_datetime returned start_date end_date = Some (returned, returned).
Proof.
  intro E.
  assert (P : Forall (fun r => exists t, flight_date r = Stamp t) returned).
  { pose proof (select_date_parses_column _ _ _ _ _ _ E) as A.
    rewrite (select_date_returned _ _ _ _ _ _ E).
    apply Forall_forall. intros r I. apply filter_In in I.
    rewrite Forall_forall in A. apply A. tauto. }
  destruct (select_date_keeps_parsed to_datetime returned start_date end_date P)
    as [again E2].
  rewrite E2. f_equal. f_equal.
  rewrite (select_date_returned _ _ _ _ _ _ E2).
  rewrite (select_date_returned _ _ _ _ _ _ E) at 1 2.
  apply filter_filter_same.
Qed.

Lemma select_date_idempotent_witness :
  exists after returned,
    select_date iso8601 two_weekdays (mkDate 2024 1 1) (mkDate 2024 1 3)
    = Some (after, returned)
    /\ map arr_iata returned = ["JFK"]
    /\ select_date iso8601 returned (mkDate 2024 1 1) (mkDate 2024 1 3)
       = Some (returned, returned).
Proof.
  assert (E : exists after returned,
             select_date iso8601 two_weekdays (mkDate 2024 1 1) (mkDate 2024 1 3)
             = Some (after, returned) /\ map arr_iata returned = ["JFK"])
    by (eexists; eexists; split; vm_compute; reflexivity).
  destruct E as [after [returned [E A]]].
  exists after, returned. split; [exact E|]. split; [exact A|].
  exact (select_date_idempotent iso8601 two_weekdays after returned _ _ E).
Defined.

(** X5.  Of the caller's table [select_date] touches the [flight_date] column
    only: after the call the table has the same rows in the same order, each
    with its date parsed and every other column as it was. *)
Theorem select_date_frame (to_datetime : string -> option Timestamp)
    (flights_df after returned : DataFrame) (start_date end_date : Date) :
  select_date to_datetime flights_df start_date end_date = Some (after, returned) ->
  Forall2 (fun r r' =>
             exists t, to_datetime_cell to_datetime (flight_date r) = Some t
                       /\ r' = with_flight_date r (Stamp t))
          flights_df after.
Proof.
  unfold select_date, bind.
  destruct (mapM (fun r => to_datetime_cell to_datetime (flight_date r)) flights_df)
    as [parsed|] eqn:M; [|discriminate].
  intro E. injection E as E _. subst after.
  apply mapM_Some in M. induction M as [|r t rows ts P M IH]; simpl; constructor.
  - exists t. split; [exact P | reflexivity].
  - exact IH.
Qed.

Lemma select_date_frame_witness :
  exists after returned,
    select_date iso8601 two_weekdays (mkDate 2024 1 1) (mkDate 2024 1 3)
    = Some (after, returned)
    /\ Forall2 (fun r r' =>
                  exists t, to_datetime_cell iso8601 (flight_date r) = Some t
                            /\ r' = with_flight_date r (Stamp t))
               two_weekdays after.
Proof.
  assert (E : exists after returned,
             select_date iso8601 two_weekdays (mkDate 2024 1 1) (mkDate 2024 1 3)
             = Some (after, returned))
    by (eexists; eexists; vm_compute; reflexivity).
  destruct E as [after [returned E]].
  exists after, returned. split; [exact E|].
  exact (select_date_frame iso8601 two_weekdays after returned _ _ E).
Defined.

(** ** Sums over groups *)

Lemma Zsum_app (l l' : list Z) : Zsum (l ++ l') = (Zsum l + Zsum l')%Z.
Proof.
  induction l as [|x t IH]; simpl; [reflexivity|].
  fold (Zsum (t ++ l')). fold (Zsum t). rewrite IH. lia.
Qed.

Lemma Zsum_perm (l l' : list Z) : Permutation l l' -> Zsum l = Zsum l'.
Proof.
  induction 1 as [|x l l' P IH|x y l|l l' l'' P1 IH1 P2 IH2]; simpl;
    fold Zsum in *; try rewrite IH; lia.
Qed.

Lemma Qsum_app (l l' : list Q) : Qsum (l ++ l') == Qsum l + Qsum l'.
Proof.
  induction l as [|x t IH]; simpl.
  - ring.
  - fold (Qsum (t ++ l')). fold (Qsum t). rewrite IH. ring.
Qed.

Lemma Qsum_perm (l l' : list Q) : Permutation l l' -> Qsum l == Qsum l'.
Proof.
  induction 1 as [|x l l' P IH|x y l|l l' l'' P1 IH1 P2 IH2].
  - reflexivity.
  - simpl. fold (Qsum l). fold (Qsum l'). rewrite IH. reflexivity.
  - simpl. fold (Qsum l). ring.
  - rewrite IH1. exact IH2.
Qed.

Section GroupSums.
Context {K R : Type} (eqb leb : K -> K -> bool) (key : R -> K).
Hypothesis order : key_order eqb leb.

(** A column summed group by group is the column summed. *)
Lemma groupby_Zsum (f : R -> Z) (df : list R) :
  Zsum (map (fun g => Zsum (map f (snd g))) (groupby eqb leb key df))
  = Zsum (map f df).
Proof using order.
  rewrite <- (Zsum_perm _ _ (Permutation_map f (groupby_partition eqb leb order key df))).
  induction (groupby eqb leb key df) as [|g l IH]; [reflexivity|].
  cbn [map flat_map]. rewrite map_app, Zsum_app. rewrite <- IH. reflexivity.
Qed.

Lemma groupby_Qsum (f : R -> Q) (df : list R) :
  Qsum (map (fun g => Qsum (map f (snd g))) (groupby eqb leb key df))
  == Qsum (map f df).
Proof using order.
  rewrite <- (Qsum_perm _ _ (Permutation_map f (groupby_partition eqb leb order key df))).
  induction (groupby eqb leb key df) as [|g l IH]; [reflexivity|].
  cbn [map flat_map]. rewrite map_app, Qsum_app. rewrite <- IH. reflexivity.
Qed.
End GroupSums.

Lemma sorted_list_keys_NoDup (keys : list (list string)) :
  StronglySorted (key_lt key_eqb key_leb) keys -> NoDup keys.
Proof. apply sorted_keys_NoDup. exact list_key_order. Qed.

(** ** More on [aggregate_delay_metric] *)

Lemma percentage_bounds (o t : Z) :
  (0 <= o <= t)%Z -> (1 <= t)%Z ->
  0 <= inject_Z o / inject_Z t * 100 /\ inject_Z o / inject_Z t * 100 <= 100.
Proof.
  intros [O T] P.
  assert (Pt : 0 < inject_Z t) by (rewrite <- (Zlt_Qlt 0); lia).
  assert (Po : 0 <= inject_Z o) by (rewrite <- (Zle_Qle 0); lia).
  assert (Ot : inject_Z o <= inject_Z t) by (rewrite <- Zle_Qle; exact T).
  assert (F0 : 0 <= inject_Z o / inject_Z t).
  { apply Qle_shift_div_l; [exact Pt|]. rewrite Qmult_0_l. exact Po. }
  assert (F1 : inject_Z o / inject_Z t <= 1).
  { apply Qle_shift_div_r; [exact Pt|]. rewrite Qmult_1_l. exact Ot. }
  split; lra.
Qed.

(** X6.  In every group row the on-time count lies between 0 and the number
    of flights, and both percentages are finite numbers between 0 and 100. *)
Theorem delay_metric_bounds (flights_df : DataFrame) (groupby_col : list column)
    (arr_iata_codes : option (list string)) (agg_df : list DelayMetric)
    (row : DelayMetric) :
  aggregate_delay_metric flights_df groupby_col arr_iata_codes = Some agg_df ->
  In row agg_df ->
  (0 <= ontime_count row <= total_flights row)%Z
  /\ exists p d,
      pct_ontime row = Finite p /\ pct_delay row = Finite d
      /\ 0 <= p /\ p <= 100 /\ 0 <= d /\ d <= 100.
Proof.
  intros E I.
  destruct (aggregate_delay_metric_row _ _ _ _ _ E I) as [T [Tn [On [P D]]]].
  assert (B : (0 <= ontime_count row <= total_flights row)%Z).
  { rewrite On, Tn.
    pose proof (filter_length_le (fun r => Qltb (dep_delay r) 15)
                  (filter (fun r => key_eqb (map (fun c => get c r) groupby_col)
                                            (group_key row))
                          (metric_flights flights_df arr_iata_codes))).
    lia. }
  split; [exact B|].
  destruct (percentage_bounds _ _ B T) as [L U].
  eexists. eexists. split; [exact P|]. split; [exact D|].
  repeat split; lra.
Qed.

Lemma delay_metric_bounds_witness :
  let row := mkDelayMetric ["Delta Air Lines"] 80 100
               (Finite (8000 # 100)) (Finite (2000 # 100)) in
  aggregate_delay_metric scenario_flights [col_airline] None = Some [row]
  /\ In row [row]
  /\ (0 <= ontime_count row <= total_flights row)%Z.
Proof.
  intro row.
  assert (E : aggregate_delay_metric scenario_flights [col_airline] None = Some [row])
    by (vm_compute; reflexivity).
  assert (I : In row [row]) by (left; reflexivity).
  split; [exact E|]. split; [exact I|].
  exact (proj1 (delay_metric_bounds scenario_flights [col_airline] None [row] row E I)).
Defined.

(** X7.  The delay-metric table has one row for each combination of key values
    met among the operated flights, the rows in ascending key order; its
    [total_flights] add up to the number of those flights and its
    [ontime_count] to the number of them that left less than 15 minutes late:
    no flight is dropped or counted twice. *)
Theorem delay_metric_partition (flights_df : DataFrame) (groupby_col : list column)
    (arr_iata_codes : option (list string)) (agg_df : list DelayMetric) :
  aggregate_delay_metric flights_df groupby_col arr_iata_codes = Some agg_df ->
  let flights := metric_flights flights_df arr_iata_codes in
  StronglySorted (key_lt key_eqb key_leb) (map group_key agg_df)
  /\ NoDup (map group_key agg_df)
  /\ (forall r, In r flights ->
                In (map (fun c => get c r) groupby_col) (map group_key agg_df))
  /\ Zsum (map total_flights agg_df) = Z.of_nat (List.length flights)
  /\ Zsum (map ontime_count agg_df)
     = Z.of_nat (List.length (filter (fun r => Qltb (dep_delay r) 15) flights)).
Proof.
  unfold aggregate_delay_metric.
  destruct groupby_col as [|c cs]; [discriminate|].
  destruct (repeated (c :: cs)); [discriminate|].
  intro E. injection E as E. subst agg_df.
  set (flights := metric_flights flights_df arr_iata_codes).
  set (key := fun r : Row => map (fun c0 : column => get c0 r) (c :: cs)).
  rewrite !map_map. cbn [group_key total_flights ontime_count].
  assert (S : StronglySorted (key_lt key_eqb key_leb)
                (map (fun g : list string * list Row => fst g)
                     (groupby key_eqb key_leb key flights)))
    by (apply (groupby_keys_sorted key_eqb key_leb list_key_order)).
  split; [exact S|]. split; [apply sorted_list_keys_NoDup; exact S|]. split.
  - intros r I. unfold groupby. rewrite map_map. cbn [fst]. rewrite map_id.
    destruct (unique_sorted_complete key_eqb key_leb list_key_order (key r)
                (map key flights) (in_map key _ _ I)) as [k' [I' E']].
    apply key_eqb_eq in E'. fold (key r). rewrite E'. exact I'.
  - split.
    + apply (groupby_sizes key_eqb key_leb list_key_order).
    + rewrite (groupby_Zsum key_eqb key_leb key list_key_order on_time).
      apply Zsum_on_time.
Qed.

Lemma delay_metric_partition_witness :
  let row := mkDelayMetric ["Delta Air Lines"] 80 100
               (Finite (8000 # 100)) (Finite (2000 # 100)) in
  aggregate_delay_metric scenario_flights [col_airline] None = Some [row]
  /\ Zsum (map total_flights [row])
     = Z.of_nat (List.length (metric_flights scenario_flights None)).
Proof.
  intro row.
  assert (E : aggregate_delay_metric scenario_flights [col_airline] None = Some [row])
    by (vm_compute; reflexivity).
  split; [exact E|].
  exact (proj1 (proj2 (proj2 (proj2
           (delay_metric_partition scenario_flights [col_airline] None [row] E))))).
Defined.

(** ** Cancellations *)

Lemma StronglySorted_weaken {A : Type} (R R' : A -> A -> Prop) (l : list A) :
  (forall a b, R a b -> R' a b) -> StronglySorted R l -> StronglySorted R' l.
Proof.
  intro H. induction 1 as [|x t S IH F]; constructor; [exact IH|].
  revert F. apply Forall_impl. intro y. apply H.
Qed.

(** X8.  The cancellation table lists each departure airport with a cancelled
    flight of the airline once, the largest count first; the count of an
    airport is the number of the airline's cancelled flights from it, at
    least 1, and the counts add up to the number of the airline's cancelled
    flights. *)
Theorem cancelled_flights_counts (flights_df : DataFrame) (airline_name : string) :
  let cancelled :=
    filter (fun r => (flight_status r =? "cancelled") && (airline r =? airline_name))
           flights_df in
  let table := cancelled_flights flights_df airline_name in
  StronglySorted (fun x y => (snd y <= snd x)%Z) table
  /\ NoDup (map fst table)
  /\ Forall (fun e =>
               (1 <= snd e)%Z
               /\ snd e = Z.of_nat (List.length
                            (filter (fun r => key_eqb [dep_iata r; dep_airport r] (fst e))
                                    cancelled)))
            table
  /\ Zsum (map snd table) = Z.of_nat (List.length cancelled).
Proof.
  intros cancelled table.
  set (key := fun r : Row => [dep_iata r; dep_airport r]).
  set (groups := groupby key_eqb key_leb key cancelled).
  set (rows := map (fun g : list string * list Row =>
                      (fst g, Z.of_nat (List.length (snd g)))) groups).
  assert (P : Permutation table rows) by apply sort_perm.
  split; [|split; [|split]].
  - assert (S : StronglySorted (fun x y : list string * Z => (snd y <=? snd x)%Z = true)
                               table).
    { apply sort_sorted.
      - intros a b H. apply Z.leb_le. apply Z.leb_gt in H. lia.
      - intros a b c H1 H2. apply Z.leb_le. apply Z.leb_le in H1, H2. lia. }
    revert S. apply StronglySorted_weaken. intros x y H. apply Z.leb_le. exact H.
  - apply (Permutation_NoDup (Permutation_sym (Permutation_map fst P))).
    unfold rows. rewrite map_map. cbn [fst].
    apply sorted_list_keys_NoDup.
    apply (groupby_keys_sorted key_eqb key_leb list_key_order).
  - apply (Permutation_Forall (Permutation_sym P)).
    apply Forall_forall. intros e I. unfold rows in I.
    apply in_map_iff in I. destruct I as [g [E Ig]]. subst e. cbn [fst snd].
    pose proof (groupby_nonempty key_eqb key_leb key_eqb_refl _ _ _ Ig) as N.
    destruct (groupby_In _ _ _ _ _ Ig) as [_ G].
    split; [lia|]. rewrite G at 1. reflexivity.
  - rewrite (Zsum_perm _ _ (Permutation_map snd P)).
    unfold rows. rewrite map_map. cbn [snd].
    apply (groupby_sizes key_eqb key_leb list_key_order).
Qed.

(** ** The headline metrics *)

(** X9.  The three metrics of the dashboard and the population of the
    aggregators fit together: the airline's total is its cancelled flights,
    its diverted flights and the operated flights every delay aggregator
    works on. *)
Theorem metrics_add_up (filtered_df : DataFrame) :
  metric_total filtered_df
  = (metric_cancelled filtered_df + metric_diverted filtered_df
     + Z.of_nat (List.length (filter (operated_by "Delta Air Lines") filtered_df)))%Z.
Proof.
  unfold metric_total, metric_cancelled, metric_diverted.
  induction filtered_df as [|r t IH]; [reflexivity|].
  cbn [filter]. unfold operated_by at 1.
  destruct (airline r =? "Delta Air Lines"); cbn [andb];
    [|rewrite !andb_false_r; exact IH].
  rewrite !andb_true_r.
  destruct (flight_status r =? "cancelled") eqn:C;
    destruct (flight_status r =? "diverted") eqn:D; cbn [negb andb List.length];
    try lia.
  apply String.eqb_eq in C, D. rewrite C in D. discriminate D.
Qed.

(** ** The map *)

Lemma location_key_order : key_order Geo.location_eqb Geo.location_leb.
Proof.
  unfold Geo.location_eqb, Geo.location_leb.
  apply pair_key_order; [exact Q_key_order|].
  apply pair_key_order; [exact Q_key_order | exact string_key_order].
Qed.

(** X10.  The map table has a point for every arrival location of the
    airline's operated flights; each point counts at least one flight and
    carries the mean delay of its flights, a finite number, and the counts of
    all points add up to the number of operated flights. *)
Theorem map_points (flights_df : DataFrame) (airline_name : string) :
  let flights := filter (operated_by airline_name) flights_df in
  let table := Geo.map flights_df airline_name in
  Forall (fun p =>
            let here := filter (fun r => Geo.location_eqb (Geo.location_of r)
                                                          (Geo.point p)) flights in
            (1 <= Geo.flights_to p)%Z
            /\ Geo.flights_to p = Z.of_nat (List.length here)
            /\ Geo.mean_dep_delay p
               = Finite (Qsum (map dep_delay here) / inject_Z (Geo.flights_to p)))
         table
  /\ (forall r, In r flights ->
                exists p, In p table
                          /\ Geo.location_eqb (Geo.location_of r) (Geo.point p) = true)
  /\ Zsum (map Geo.flights_to table) = Z.of_nat (List.length flights).
Proof.
  intros flights table. unfold table, Geo.map. fold flights.
  split; [|split].
  - apply Forall_forall. intros p I. apply in_map_iff in I.
    destruct I as [g [E Ig]]. subst p. cbn [Geo.point Geo.flights_to Geo.mean_dep_delay].
    pose proof (groupby_nonempty _ _ (ko_refl _ _ location_key_order) _ _ _ Ig) as N.
    destruct (groupby_In _ _ _ _ _ Ig) as [_ G].
    rewrite (mean_of_rows dep_delay _ N). rewrite <- G.
    split; [lia|]. split; reflexivity.
  - intros r I.
    destruct (unique_sorted_complete _ _ location_key_order (Geo.location_of r)
                (map Geo.location_of flights) (in_map _ _ _ I)) as [k [Ik Ek]].
    eexists. split.
    + apply in_map. unfold groupby. apply in_map. exact Ik.
    + exact Ek.
  - rewrite map_map. cbn [Geo.flights_to].
    apply (groupby_sizes _ _ location_key_order).
Qed.

(** ** More on [relative_delay] *)

(** A row of [relative_delay]: the airport's flights and their mean. *)
Lemma relative_delay_row (flights_df : DataFrame) (airline_name : string)
    (row : RelativeDelay) :
  In row (relative_delay flights_df airline_name) ->
  let flights :=
    filter (fun r => dep_airport r =? rd_dep_airport row)
           (filter (operated_by airline_name) flights_df) in
  let m := Qsum (map dep_delay flights) / inject_Z (Z.of_nat (List.length flights)) in
  (1 <= List.length flights)%nat
  /\ mean_delay row = Finite m
  /\ delay_ratio row = fdiv (Finite m) (global_mean flights_df airline_name).
Proof.
  intros I flights m. unfold relative_delay in I.
  apply in_map_iff in I. destruct I as [g [Eg Ig]].
  pose proof (groupby_nonempty String.eqb String.leb String.eqb_refl _ _ _ Ig) as N.
  destruct (groupby_In _ _ _ _ _ Ig) as [_ F].
  rewrite (mean_of_rows dep_delay _ N) in Eg. subst row.
  assert (F' : snd g = flights) by exact F.
  cbn [mean_delay delay_ratio]. unfold m. rewrite <- F'.
  split; [exact N|]. split; reflexivity.
Qed.

(** X11.  When the airline-wide mean delay is zero nothing raises and no ratio
    is a number: the ratio of an airport is [NaN] if its own mean is zero,
    plus infinity if its mean is positive and minus infinity if it is
    negative. *)
Theorem delay_ratio_zero_global_mean (flights_df : DataFrame) (airline_name : string)
    (gm : Q) (row : RelativeDelay) :
  global_mean flights_df airline_name = Finite gm ->
  gm == 0 ->
  In row (relative_delay flights_df airline_name) ->
  exists m,
    mean_delay row = Finite m
    /\ (m == 0 -> delay_ratio row = NaN)
    /\ (0 < m -> delay_ratio row = Inf false)
    /\ (m < 0 -> delay_ratio row = Inf true).
Proof.
  intros G Z I.
  destruct (relative_delay_row _ _ _ I) as [_ [M R]].
  eexists. split; [exact M|]. rewrite R, G. unfold fdiv.
  rewrite (Qeq_eq_bool _ _ Z).
  split; [|split]; intro H.
  - rewrite (Qeq_eq_bool _ _ H). reflexivity.
  - destruct (Qeq_bool _ 0) eqn:E; [apply Qeq_bool_eq in E; lra|].
    f_equal. apply Qltb_ge. lra.
  - destruct (Qeq_bool _ 0) eqn:E; [apply Qeq_bool_eq in E; lra|].
    f_equal. apply Qltb_lt. exact H.
Qed.

Lemma delay_ratio_zero_global_mean_witness :
  let row := mkRelativeDelay "MSP Airport" (Finite (10 # 1)) (Inf false) in
  global_mean balanced_flights "Delta Air Lines" = Finite (0 # 2)
  /\ 0 # 2 == 0
  /\ In row (relative_delay balanced_flights "Delta Air Lines")
  /\ exists m, mean_delay row = Finite m /\ (0 < m -> delay_ratio row = Inf false).
Proof.
  intro row.
  assert (G : global_mean balanced_flights "Delta Air Lines" = Finite (0 # 2))
    by reflexivity.
  assert (Z : 0 # 2 == 0) by reflexivity.
  assert (I : In row (relative_delay balanced_flights "Delta Air Lines"))
    by (right; left; reflexivity).
  split; [exact G|]. split; [exact Z|]. split; [exact I|].
  destruct (delay_ratio_zero_global_mean balanced_flights "Delta Air Lines" _ row G Z I)
    as [m [M [_ [P _]]]].
  exists m. split; assumption.
Defined.

(** X12.  When the airline leaves early on average (a negative mean delay) the
    ratio turns round: it is finite, and above 1 exactly for the airports
    whose mean delay is below the airline's, the ones that leave earlier
    still. *)
Theorem delay_ratio_negative_global_mean (flights_df : DataFrame)
    (airline_name : string) (gm : Q) (row : RelativeDelay) :
  global_mean flights_df airline_name = Finite gm ->
  gm < 0 ->
  In row (relative_delay flights_df airline_name) ->
  exists m ratio,
    mean_delay row = Finite m
    /\ delay_ratio row = Finite ratio
    /\ ratio * gm == m
    /\ (1 < ratio <-> m < gm).
Proof.
  intros G N I.
  destruct (relative_delay_row _ _ _ I) as [_ [M R]].
  eexists. eexists. split; [exact M|]. rewrite R, G. unfold fdiv.
  destruct (Qeq_bool gm 0) eqn:E; [apply Qeq_bool_eq in E; lra|].
  split; [reflexivity|].
  match goal with |- ?q / gm * gm == ?q /\ _ => generalize q end. intro m.
  assert (NZ : ~ gm == 0) by lra.
  assert (Em : m / gm * gm == m) by (field; exact NZ).
  split; [exact Em|].
  assert (P : 0 < - gm) by lra.
  split; intro H.
  - assert (X : (m / gm - 1) * (- gm) > 0) by (apply Qmult_lt_0_compat; lra).
    assert (Y : (m / gm - 1) * (- gm) == gm - m) by (rewrite <- Em at 2; ring).
    lra.
  - destruct (Qlt_le_dec 1 (m / gm)) as [L|L]; [exact L|]. exfalso.
    assert (X : 0 <= (1 - m / gm) * (- gm)) by (apply Qmult_le_0_compat; lra).
    assert (Y : (1 - m / gm) * (- gm) == m - gm) by (rewrite <- Em at 2; ring).
    lra.
Qed.

Lemma delay_ratio_negative_global_mean_witness :
  let row := mkRelativeDelay "ATL Airport" (Finite (-12 # 2)) (Finite (36 # 18)) in
  global_mean early_flights "Delta Air Lines" = Finite (-9 # 3)
  /\ -9 # 3 < 0
  /\ exists m ratio,
      mean_delay (hd row (relative_delay early_flights "Delta Air Lines")) = Finite m
      /\ delay_ratio (hd row (relative_delay early_flights "Delta Air Lines"))
         = Finite ratio
      /\ m == -6 /\ ratio == 2 /\ (1 < ratio <-> m < -9 # 3).
Proof.
  intro row.
  assert (G : global_mean early_flights "Delta Air Lines" = Finite (-9 # 3))
    by reflexivity.
  assert (N : -9 # 3 < 0) by reflexivity.
  assert (I : In (hd row (relative_delay early_flights "Delta Air Lines"))
                 (relative_delay early_flights "Delta Air Lines"))
    by (left; reflexivity).
  split; [exact G|]. split; [exact N|].
  destruct (delay_ratio_negative_global_mean early_flights "Delta Air Lines" _ _ G N I)
    as [m [ratio [M [R [_ B]]]]].
  exists m, ratio. split; [exact M|]. split; [exact R|].
  assert (Em : Finite m = Finite (-12 # 2)) by (rewrite <- M; reflexivity).
  assert (Er : Finite ratio = Finite (Qdiv (-12 # 2) (-9 # 3)))
    by (rewrite <- R; reflexivity).
  injection Em as Em. injection Er as Er. subst m ratio.
  split; [reflexivity|]. split; [reflexivity | exact B].
Defined.

Lemma mean_Finite (l : list Q) (m : Q) :
  mean l = Finite m ->
  (1 <= List.length l)%nat /\ m = Qsum l / inject_Z (Z.of_nat (List.length l)).
Proof.
  destruct l as [|x t]; [discriminate|].
  intro E. injection E as E. split; [simpl; lia | symmetry; exact E].
Qed.

Lemma Qsum_map_eq {A : Type} (f g : A -> Q) (l : list A) :
  (forall x, In x l -> f x == g x) -> Qsum (map f l) == Qsum (map g l).
Proof.
  induction l as [|x t IH]; intro H; [reflexivity|].
  simpl. fold (Qsum (map f t)). fold (Qsum (map g t)).
  rewrite (H x (or_introl eq_refl)), IH; [reflexivity|].
  intros y I. apply H. right. exact I.
Qed.

(** X13.  The airline-wide mean is the mean of the airport means weighted by
    the airports' flights: the airport means, each times its number of
    flights, add up to the airline-wide mean times the number of all flights.
    So with a mean above zero the ratios cannot all lie above 1, nor all
    below. *)
Theorem global_mean_is_weighted_mean (flights_df : DataFrame) (airline_name : string)
    (gm : Q) :
  global_mean flights_df airline_name = Finite gm ->
  let flights := filter (operated_by airline_name) flights_df in
  let weight row :=
    inject_Z (Z.of_nat (List.length
      (filter (fun r => dep_airport r =? rd_dep_airport row) flights))) in
  Qsum (map (fun row => match mean_delay row with
                        | Finite m => m * weight row
                        | _ => 0
                        end)
            (relative_delay flights_df airline_name))
  == gm * inject_Z (Z.of_nat (List.length flights)).
Proof.
  intros G flights weight.
  assert (T : Qsum (map dep_delay flights)
              == gm * inject_Z (Z.of_nat (List.length flights))).
  { unfold global_mean in G. fold flights in G.
    destruct (mean_Finite _ _ G) as [N E]. rewrite E, length_map in *.
    field. apply inject_Z_pos_nonzero. lia. }
  rewrite <- T.
  rewrite <- (groupby_Qsum String.eqb String.leb dep_airport string_key_order
                           dep_delay flights).
  unfold relative_delay. fold flights. rewrite map_map.
  apply Qsum_map_eq. intros g Ig.
  pose proof (groupby_nonempty String.eqb String.leb String.eqb_refl _ _ _ Ig) as N.
  destruct (groupby_In _ _ _ _ _ Ig) as [_ F].
  cbn [mean_delay]. rewrite (mean_of_rows dep_delay _ N).
  unfold weight. cbn [rd_dep_airport]. rewrite <- F.
  field. apply inject_Z_pos_nonzero. lia.
Qed.

Lemma global_mean_is_weighted_mean_witness :
  global_mean early_flights "Delta Air Lines" = Finite (-9 # 3)
  /\ (-12 # 2) * 2 + ((3 # 1) * 1 + 0) == (-9 # 3) * 3.
Proof.
  assert (G : global_mean early_flights "Delta Air Lines" = Finite (-9 # 3))
    by reflexivity.
  split; [exact G|].
  exact (global_mean_is_weighted_mean early_flights "Delta Air Lines" _ G).
Defined.

(** ** More on [top_delayed_routes] *)

Lemma Z_sorted_nth_le (s : list Z) :
  StronglySorted (fun a b => (a <=? b)%Z = true) s ->
  forall i j, (i <= j < List.length s)%nat -> (nth i s 0 <= nth j s 0)%Z.
Proof.
  induction 1 as [|a t S IH F]; intros i j L; [simpl in L; lia|].
  destruct i as [|i], j as [|j]; cbn [nth]; try lia.
  - rewrite Forall_forall in F. apply Z.leb_le. apply F. apply nth_In. simpl in L. lia.
  - apply IH. simpl in L. lia.
Qed.

(** In an ascending list, the entries above the entry at position [k] lie
    behind it. *)
Lemma Z_sorted_above_nth (s : list Z) :
  StronglySorted (fun a b => (a <=? b)%Z = true) s ->
  forall k, (k < List.length s)%nat ->
    (List.length (filter (fun y => (nth k s 0 <? y)%Z) s) <= List.length s - 1 - k)%nat.
Proof.
  induction 1 as [|a t S IH F]; intros k L; [simpl in L; lia|].
  cbn [filter List.length].
  assert (A : (nth k (a :: t) 0 <? a)%Z = false).
  { apply Z.ltb_ge.
    apply (Z_sorted_nth_le (a :: t) (SSorted_cons a S F) 0 k). lia. }
  rewrite A. destruct k as [|k]; cbn [nth].
  - pose proof (filter_length_le (fun y => (a <? y)%Z) t). lia.
  - specialize (IH k ltac:(simpl in L; lia)). lia.
Qed.

Lemma filter_length_mono {A : Type} (p q : A -> bool) (l : list A) :
  (forall x, p x = true -> q x = true) ->
  (List.length (filter p l) <= List.length (filter q l))%nat.
Proof.
  intro H. induction l as [|x t IH]; simpl; [lia|].
  destruct (p x) eqn:P; [rewrite (H x P); simpl; lia|].
  destruct (q x); simpl; lia.
Qed.

Lemma Z_leb_total (a b : Z) : (a <=? b)%Z = false -> (b <=? a)%Z = true.
Proof. lia. Qed.

Lemma Z_leb_trans (a b c : Z) :
  (a <=? b)%Z = true -> (b <=? c)%Z = true -> (a <=? c)%Z = true.
Proof. lia. Qed.

(** No more than half of a column lies strictly above its median. *)
Lemma above_median_half (l : list Z) :
  (2 * List.length (filter (fun x => fgtb (of_int x) (median l)) l)
   <= List.length l)%nat.
Proof.
  pose proof (sort_perm Z.leb l) as P.
  pose proof (sort_sorted Z.leb Z_leb_total Z_leb_trans l) as S.
  rewrite <- (Permutation_length (Permutation_filter _ _ _ P)).
  rewrite <- (Permutation_length P).
  unfold median. remember (sort Z.leb l) as s eqn:Es. clear Es P l.
  destruct (List.length s) as [|n'] eqn:Len.
  - destruct s; [simpl; lia | discriminate Len].
  - rewrite <- Len. assert (Pos : (1 <= List.length s)%nat) by lia. clear Len n'.
    destruct (Nat.odd (List.length s)) eqn:O.
    + apply Nat.odd_spec in O. destruct O as [m Em].
      assert (H2 : (List.length s / 2 = m)%nat).
      { rewrite Em. replace (2 * m + 1)%nat with (1 + m * 2)%nat by lia.
        rewrite Nat.div_add by lia. reflexivity. }
      rewrite H2.
      pose proof (Z_sorted_above_nth s S m ltac:(lia)) as B.
      rewrite (filter_ext _ (fun y => (nth m s 0 <? y)%Z)).
      * lia.
      * intro x. unfold fgtb, of_int, Qltb.
        destruct (nth m s 0 <? x)%Z eqn:E.
        -- apply negb_true_iff. destruct (Qle_bool _ _) eqn:Q; [|reflexivity].
           apply Qle_bool_iff in Q. rewrite <- Zle_Qle in Q. lia.
        -- apply negb_false_iff. apply Qle_bool_iff. rewrite <- Zle_Qle. lia.
    + assert (Ev : Nat.even (List.length s) = true)
        by (rewrite <- Nat.negb_odd, O; reflexivity).
      apply Nat.even_spec in Ev. destruct Ev as [m Em].
      assert (H2 : (List.length s / 2 = m)%nat).
      { rewrite Em. replace (2 * m)%nat with (0 + m * 2)%nat by lia.
        rewrite Nat.div_add by lia. reflexivity. }
      rewrite H2.
      pose proof (Z_sorted_above_nth s S (m - 1) ltac:(lia)) as B.
      pose proof (Z_sorted_nth_le s S (m - 1) m ltac:(lia)) as M.
      pose proof (filter_length_mono
                    (fun x => fgtb (of_int x)
                                (Finite ((inject_Z (nth (m - 1) s 0%Z)
                                          + inject_Z (nth m s 0%Z)) / 2)))
                    (fun y => (nth (m - 1) s 0 <? y)%Z) s) as Mo.
      assert (X : forall x,
                 fgtb (of_int x)
                   (Finite ((inject_Z (nth (m - 1) s 0%Z)
                             + inject_Z (nth m s 0%Z)) / 2)) = true ->
                 (nth (m - 1) s 0 <? x)%Z = true).
      { intros x G. unfold fgtb, of_int in G. apply Qltb_lt in G.
        apply Z.ltb_lt. rewrite Zlt_Qlt. rewrite Zle_Qle in M.
        apply Qle_lt_trans with
          ((inject_Z (nth (m - 1) s 0%Z) + inject_Z (nth m s 0%Z)) / 2); [|exact G].
        apply Qle_shift_div_l; [reflexivity|]. lra. }
      specialize (Mo X). lia.
Qed.

Lemma outranked_at_position (s : list Route) (d : Route) :
  descending s ->
  forall i, (i < List.length s)%nat -> (outranked s (nth i s d) <= i)%nat.
Proof.
  unfold descending, outranked.
  induction 1 as [|a t S IH F]; intros i L; [simpl in L; lia|].
  cbn [filter]. destruct i as [|i]; cbn [nth].
  - assert (N : Qltb (delay_rate a) (delay_rate a) = false)
      by (apply Qltb_ge; apply Qle_refl).
    rewrite N.
    assert (Z : filter (fun r' => Qltb (delay_rate a) (delay_rate r')) t = []).
    { clear IH S L. induction F as [|b t' B F IHF]; [reflexivity|].
      simpl. assert (Nb : Qltb (delay_rate a) (delay_rate b) = false)
        by (apply Qltb_ge; exact B).
      rewrite Nb. exact IHF. }
    rewrite Z. simpl. lia.
  - specialize (IH i ltac:(simpl in L; lia)).
    destruct (Qltb (delay_rate (nth i t d)) (delay_rate a)); simpl; lia.
Qed.

(** The ten best with ties are at least ten when there are ten to choose
    from, and never more than there are. *)
Lemma top_with_ties_length (n : nat) (df : list Route) :
  (Nat.min n (List.length df) <= List.length (top_with_ties n df) <= List.length df)%nat.
Proof.
  split; [|apply filter_length_le].
  pose proof (sort_perm rate_geb df) as P. fold (sort_values_desc df) in P.
  rewrite <- (Permutation_length (top_with_ties_perm n _ _ P)).
  rewrite <- (Permutation_length P).
  pose proof (sort_values_desc_descending df) as D.
  remember (sort_values_desc df) as s eqn:Es. clear Es P df.
  unfold top_with_ties.
  rewrite <- (firstn_skipn n s) at 2. rewrite filter_app, length_app.
  rewrite filter_all.
  - rewrite length_firstn. lia.
  - apply Forall_forall. intros r I.
    destruct s as [|d s']; [destruct n; destruct I|].
    destruct (In_nth _ _ d I) as [i [Li Ei]].
    rewrite length_firstn in Li. rewrite nth_firstn in Ei.
    destruct (i <? n)%nat eqn:Lt; [|apply Nat.ltb_ge in Lt; lia].
    apply Nat.ltb_lt in Lt. apply Nat.ltb_lt. rewrite <- Ei.
    pose proof (outranked_at_position (d :: s') d D i ltac:(lia)). lia.
Qed.

Lemma ranking_length (flights_df : DataFrame)
    (airline_name : string) (domestic : bool) :
  (Nat.min 10 (List.length (above_median flights_df airline_name domestic))
   <= List.length (top_delayed_routes flights_df airline_name domestic))%nat
  /\ (List.length (top_delayed_routes flights_df airline_name domestic)
      <= List.length (above_median flights_df airline_name domestic))%nat.
Proof.
  assert (P : Permutation (top_delayed_routes flights_df airline_name domestic)
                (top_with_ties 10 (above_median flights_df airline_name domestic))).
  { unfold top_delayed_routes.
    destruct (nlargest_top_with_ties 10
                (sort_values_desc (above_median flights_df airline_name domestic))
                ltac:(lia)) as [P _].
    apply (Permutation_trans P). apply top_with_ties_perm. apply sort_perm. }
  rewrite (Permutation_length P). apply top_with_ties_length.
Qed.

(** X14.  The median filter keeps at most half of the routes, for it asks for
    a flight count strictly above the median: with a single route, or with
    routes that are all equally busy, [top_delayed_routes] returns nothing. *)
Theorem at_most_half_above_median (flights_df : DataFrame) (airline_name : string)
    (domestic : bool) :
  (2 * List.length (above_median flights_df airline_name domestic)
   <= List.length (route_table flights_df airline_name domestic))%nat
  /\ (2 * List.length (top_delayed_routes flights_df airline_name domestic)
      <= List.length (route_table flights_df airline_name domestic))%nat
  /\ ((List.length (route_table flights_df airline_name domestic) <= 1)%nat ->
      top_delayed_routes flights_df airline_name domestic = []).
Proof.
  assert (A : (2 * List.length (above_median flights_df airline_name domestic)
               <= List.length (route_table flights_df airline_name domestic))%nat).
  { unfold above_median, median_flight_count.
    pose proof (above_median_half
                  (map flight_count (route_table flights_df airline_name domestic))) as H.
    rewrite filter_map_length, length_map in H. exact H. }
  assert (T : (List.length (top_delayed_routes flights_df airline_name domestic)
               <= List.length (above_median flights_df airline_name domestic))%nat).
  { destruct (ranking_length flights_df airline_name domestic)
      as [_ U]. exact U. }
  split; [exact A|]. split; [lia|].
  intro L. destruct (top_delayed_routes flights_df airline_name domestic);
    [reflexivity | simpl in T; lia].
Qed.

(** X15.  [top_delayed_routes] returns at least ten routes whenever ten or
    more lie above the median, all of them when fewer do, and never a route
    more than lie above the median. *)
Theorem top_delayed_routes_length (flights_df : DataFrame) (airline_name : string)
    (domestic : bool) :
  let ranked := List.length (top_delayed_routes flights_df airline_name domestic) in
  let eligible := List.length (above_median flights_df airline_name domestic) in
  (Nat.min 10 eligible <= ranked <= eligible)%nat
  /\ ((eligible <= 10)%nat -> ranked = eligible).
Proof.
  intros ranked eligible.
  destruct (ranking_length flights_df airline_name domestic) as [L U].
  fold ranked eligible in L, U. split; [lia|]. lia.
Qed.

Lemma filter_complement_length {A : Type} (p : A -> bool) (l : list A) :
  (List.length (filter p l) + List.length (filter (fun x => negb (p x)) l)
   = List.length l)%nat.
Proof.
  induction l as [|x t IH]; simpl; [reflexivity|].
  destruct (p x); simpl; lia.
Qed.

Lemma route_table_counts (flights_df : DataFrame) (airline_name : string)
    (domestic : bool) :
  Zsum (map flight_count (route_table flights_df airline_name domestic))
  = Z.of_nat (List.length (route_flights flights_df airline_name domestic)).
Proof.
  unfold route_table. rewrite map_map. cbn [flight_count].
  apply (groupby_sizes key_eqb key_leb list_key_order).
Qed.

(** X16.  The domestic table is built from flights to the United States only,
    the international table from the other flights only, and the two together
    count every operated flight of the airline once. *)
Theorem routes_split_by_country (flights_df : DataFrame) (airline_name : string) :
  Forall (fun r => arr_country r = "US") (route_flights flights_df airline_name true)
  /\ Forall (fun r => arr_country r <> "US") (route_flights flights_df airline_name false)
  /\ (Zsum (map flight_count (route_table flights_df airline_name true))
      + Zsum (map flight_count (route_table flights_df airline_name false))
      = Z.of_nat (List.length (filter (operated_by airline_name) flights_df)))%Z.
Proof.
  split; [|split].
  - apply Forall_forall. intros r I. unfold route_flights in I.
    apply filter_In in I. destruct I as [_ U]. apply String.eqb_eq. exact U.
  - apply Forall_forall. intros r I. unfold route_flights in I.
    apply filter_In in I. destruct I as [_ U]. apply String.eqb_neq.
    apply negb_true_iff. exact U.
  - rewrite !route_table_counts. unfold route_flights.
    pose proof (filter_complement_length (fun r => arr_country r =? "US")
                  (filter (operated_by airline_name) flights_df)).
    lia.
Qed.

(** X17.  The route table has a row for each route once; in every row the
    delayed flights are at most the flights, and the delay rate lies between
    0 and 1. *)
Theorem route_rates_bounded (flights_df : DataFrame) (airline_name : string)
    (domestic : bool) :
  NoDup (map route_key (route_table flights_df airline_name domestic))
  /\ Forall (fun r => (0 <= delay_count r <= flight_count r)%Z
                      /\ 0 <= delay_rate r /\ delay_rate r <= 1)
            (route_table flights_df airline_name domestic).
Proof.
  split.
  - unfold route_table. rewrite map_map. cbn [route_key].
    apply sorted_list_keys_NoDup.
    apply (groupby_keys_sorted key_eqb key_leb list_key_order).
  - apply Forall_forall. intros r I.
    destruct (route_table_row _ _ _ _ I) as [P [Fc [Dc Rt]]].
    assert (B : (0 <= delay_count r <= flight_count r)%Z).
    { rewrite Dc, Fc.
      pose proof (filter_length_le (fun x => Qltb 60 (dep_delay x))
                    (flights_of_route (route_key r)
                       (route_flights flights_df airline_name domestic))).
      lia. }
    split; [exact B|].
    destruct (percentage_bounds _ _ B P) as [L U]. rewrite Rt. split; lra.
Qed.

(** ** More on [peak_hour_delays] *)

Lemma with_hour_filter (p : Z * Row -> bool) (q : HourRow -> bool) (rows : list HourRow) :
  (forall x n, hour_col x = Some n -> p (n, flight x) = q x) ->
  (forall x, hour_col x = None -> q x = false) ->
  List.length (filter p (with_hour rows)) = List.length (filter q rows).
Proof.
  intros H1 H2. induction rows as [|x t IH]; [reflexivity|].
  unfold with_hour in *. cbn [flat_map filter].
  destruct (hour_col x) as [n|] eqn:E.
  - cbn [app filter]. rewrite (H1 x n E). destruct (q x); simpl; rewrite IH; reflexivity.
  - rewrite (H2 x E). exact IH.
Qed.

Lemma groupby_nil_iff {K R : Type} (eqb leb : K -> K -> bool) (key : R -> K)
    (df : list R) :
  (forall k, eqb k k = true) ->
  (groupby eqb leb key df = [] <-> df = []).
Proof.
  intro Rf. split.
  - intro E. destruct df as [|r t]; [reflexivity|]. exfalso.
    unfold groupby in E. apply map_eq_nil in E.
    cbn [map unique_sorted fold_right] in E.
    clear -E Rf. fold (unique_sorted eqb leb (map key t)) in E.
    destruct (unique_sorted eqb leb (map key t)) as [|y u]; simpl in E; [discriminate|].
    destruct (eqb (key r) y); [discriminate|].
    destruct (leb (key r) y); discriminate.
  - intro E. subst. reflexivity.
Qed.

Section PeakHours.
Variables (flights_df : list HourRow) (airline_name : string).

Let flights := filter (fun h => operated_by airline_name (flight h)) flights_df.
Let fig := peak_hour_delays flights_df airline_name.

Lemma total_by_hour_entry (h m : Z) :
  In (h, m) (total_flights_by_hour fig) ->
  (1 <= m)%Z /\ m = Z.of_nat (List.length (filter (at_hour h) flights)).
Proof using Type.
  unfold fig, peak_hour_delays. cbn [total_flights_by_hour]. fold flights.
  rewrite in_map_iff. intros [g [E Ig]]. injection E as Eh Em. subst h m.
  pose proof (groupby_nonempty Z.eqb Z.leb Z.eqb_refl _ _ _ Ig) as N.
  destruct (groupby_In _ _ _ _ _ Ig) as [_ G].
  split; [lia|]. rewrite G at 1. f_equal.
  apply with_hour_filter.
  - intros x n E. unfold at_hour. rewrite E. reflexivity.
  - intros x E. unfold at_hour. rewrite E. reflexivity.
Qed.

Lemma total_by_hour_complete (h : Z) :
  (1 <= List.length (filter (at_hour h) flights))%nat ->
  In (h, Z.of_nat (List.length (filter (at_hour h) flights))) (total_flights_by_hour fig).
Proof using Type.
  intro N.
  assert (I : In h (map fst (with_hour flights))).
  { destruct (filter (at_hour h) flights) as [|x t] eqn:F; [simpl in N; lia|].
    assert (Ix : In x (filter (at_hour h) flights)) by (rewrite F; left; reflexivity).
    apply filter_In in Ix. destruct Ix as [Ix A]. unfold at_hour in A.
    destruct (hour_col x) as [n|] eqn:E; [|discriminate A].
    apply Z.eqb_eq in A. subst n.
    apply in_map_iff. exists (h, flight x). split; [reflexivity|].
    unfold with_hour. apply in_flat_map. exists x. split; [exact Ix|].
    rewrite E. left. reflexivity. }
  destruct (unique_sorted_complete Z.eqb Z.leb Z_key_order h _ I) as [k [Ik Ek]].
  apply Z.eqb_eq in Ek. subst k.
  unfold fig, peak_hour_delays. cbn [total_flights_by_hour]. fold flights.
  apply in_map_iff.
  exists (h, filter (fun nr : Z * Row => (fst nr =? h)%Z) (with_hour flights)).
  split.
  - cbn [fst snd]. f_equal. f_equal. apply with_hour_filter.
    + intros x n E. unfold at_hour. rewrite E. reflexivity.
    + intros x E. unfold at_hour. rewrite E. reflexivity.
  - unfold groupby. apply in_map_iff. exists h. split; [reflexivity | exact Ik].
Qed.

Lemma grouped_counts_entry (h : Z) (g : string) (n : Z) :
  In (h, g, n) (grouped_counts fig) ->
  (1 <= n)%Z
  /\ n = Z.of_nat (List.length
         (filter (fun x => at_hour h x && (country_group (flight x) =? g)
                           && Qltb 15 (dep_delay (flight x)))
                 flights)).
Proof using Type.
  unfold fig, peak_hour_delays, delayed_flights. cbn [grouped_counts]. fold flights.
  rewrite in_map_iff. intros [gr [E Ig]]. injection E as Eh En. subst n.
  pose proof (groupby_nonempty hour_group_eqb hour_group_leb
                (ko_refl _ _ hour_group_key_order) _ _ _ Ig) as N.
  destruct (groupby_In _ _ _ _ _ Ig) as [_ G].
  split; [lia|]. rewrite G at 1. f_equal. rewrite Eh.
  rewrite (with_hour_filter _
             (fun x => at_hour h x && (country_group (flight x) =? g))).
  - set (p := fun x : HourRow => Qltb 15 (dep_delay (flight x))).
    clear. induction flights as [|x t IH]; [reflexivity|].
    cbn [filter]. unfold p at 1 3.
    destruct (Qltb 15 (dep_delay (flight x))); cbn [filter];
      [|rewrite andb_false_r; exact IH].
    rewrite andb_true_r.
    destruct (at_hour h x && (country_group (flight x) =? g));
      cbn [List.length]; rewrite IH; reflexivity.
  - intros x k E. unfold at_hour, hour_group_eqb. rewrite E. reflexivity.
  - intros x E. unfold at_hour. rewrite E. reflexivity.
Qed.

(** X18.  In the two tables of [peak_hour_delays] an hour's total is the
    number of the airline's operated flights scheduled in that hour, and a
    delayed count is the number of those, domestic or international, that
    left more than 15 minutes late.  Every count is at least 1 (an hour or a
    group without flights has no row), and a delayed count never exceeds the
    total of its hour, which is always there. *)
Theorem hourly_counts :
  Forall (fun e =>
            (1 <= snd e)%Z
            /\ snd e = Z.of_nat (List.length (filter (at_hour (fst e)) flights)))
         (total_flights_by_hour fig)
  /\ Forall (fun e =>
               (1 <= snd e)%Z
               /\ snd e = Z.of_nat (List.length
                    (filter (fun x => at_hour (fst (fst e)) x
                                      && (country_group (flight x) =? snd (fst e))
                                      && Qltb 15 (dep_delay (flight x)))
                            flights))
               /\ exists m, In (fst (fst e), m) (total_flights_by_hour fig)
                            /\ (snd e <= m)%Z)
            (grouped_counts fig).
Proof using Type.
  split; apply Forall_forall.
  - intros [h m] I. cbn [fst snd]. apply total_by_hour_entry. exact I.
  - intros [[h g] n] I. cbn [fst snd].
    destruct (grouped_counts_entry h g n I) as [P E].
    split; [exact P|]. split; [exact E|].
    exists (Z.of_nat (List.length (filter (at_hour h) flights))).
    assert (Le : (List.length
                    (filter (fun x => at_hour h x && (country_group (flight x) =? g)%string
                                      && Qltb 15 (dep_delay (flight x))) flights)
                  <= List.length (filter (at_hour h) flights))%nat).
    { apply filter_length_mono. intros x H.
      apply andb_true_iff in H. destruct H as [H _].
      apply andb_true_iff in H. tauto. }
    split; [apply total_by_hour_complete|]; lia.
Qed.

(** X19.  A flight whose schedule cannot be parsed is counted in neither
    table: the hourly totals add up to the operated flights with a readable
    schedule, and the delayed counts to those of them more than 15 minutes
    late. *)
Theorem hourly_counts_total :
  Zsum (map snd (total_flights_by_hour fig))
  = Z.of_nat (List.length (filter has_hour flights))
  /\ Zsum (map snd (grouped_counts fig))
     = Z.of_nat (List.length
         (filter (fun x => has_hour x && Qltb 15 (dep_delay (flight x))) flights)).
Proof using Type.
  assert (W : forall rows, List.length (with_hour rows)
                           = List.length (filter has_hour rows)).
  { intro rows. rewrite <- (with_hour_filter (fun _ => true) has_hour rows).
    - rewrite filter_all; [reflexivity|]. apply Forall_forall. reflexivity.
    - intros x n E. unfold has_hour. rewrite E. reflexivity.
    - intros x E. unfold has_hour. rewrite E. reflexivity. }
  unfold fig, peak_hour_delays, delayed_flights.
  cbn [grouped_counts total_flights_by_hour]. fold flights.
  rewrite !map_map. cbn [snd]. split.
  - rewrite (groupby_sizes Z.eqb Z.leb Z_key_order). rewrite W. reflexivity.
  - rewrite (groupby_sizes hour_group_eqb hour_group_leb hour_group_key_order).
    rewrite W. f_equal. f_equal.
    clear. induction flights as [|x t IH]; [reflexivity|].
    cbn [filter]. destruct (Qltb 15 (dep_delay (flight x))); cbn [filter];
      [rewrite andb_true_r | rewrite andb_false_r; exact IH].
    destruct (has_hour x); cbn [List.length]; rewrite IH; reflexivity.
Qed.
End PeakHours.

Lemma fold_max_spec (x : Z) (t : list Z) :
  In (fold_right Z.max x t) (x :: t)
  /\ Forall (fun y => (y <= fold_right Z.max x t)%Z) (x :: t).
Proof.
  induction t as [|a t [I F]]; simpl.
  - split; [left; reflexivity | constructor; [lia | constructor]].
  - inversion F as [|? ? Fx Ft]. subst. split.
    + destruct (Z.max_spec a (fold_right Z.max x t)) as [[_ E]|[_ E]]; rewrite E.
      * simpl in I. destruct I as [I|I]; [left; exact I | right; right; exact I].
      * right. left. reflexivity.
    + constructor; [lia|]. constructor; [lia|].
      revert Ft. apply Forall_impl. intros y H. lia.
Qed.

Lemma series_max_spec (l : list Z) :
  l <> [] ->
  exists M, series_max l = of_int M /\ In M l /\ Forall (fun y => (y <= M)%Z) l.
Proof.
  destruct l as [|x t]; [congruence|]. intros _.
  exists (fold_right Z.max x t). split; [reflexivity|]. apply fold_max_spec.
Qed.

(** X20.  The common upper end of the two y axes, [max_val], is 1.1 times the
    largest hourly total as long as some flight with a readable schedule left
    more than 15 minutes late.  When none did, the delayed table is empty and
    [max_val] is [NaN], however many flights there are: Python's [max] keeps
    its first argument when the comparison with it fails. *)
Theorem max_val_range (flights_df : list HourRow) (airline_name : string) :
  let fig := peak_hour_delays flights_df airline_name in
  (grouped_counts fig = [] <-> with_hour (delayed_flights flights_df airline_name) = [])
  /\ (grouped_counts fig = [] -> max_val fig = NaN)
  /\ (grouped_counts fig <> [] ->
      exists M,
        In M (map snd (total_flights_by_hour fig))
        /\ Forall (fun m => (m <= M)%Z) (map snd (total_flights_by_hour fig))
        /\ max_val fig = Finite (inject_Z M * one_point_one)).
Proof.
  intro fig. split; [|split].
  - unfold fig, peak_hour_delays. cbn [grouped_counts]. split.
    + intro E. apply map_eq_nil in E.
      apply (groupby_nil_iff hour_group_eqb hour_group_leb) in E; [exact E|].
      apply (ko_refl _ _ hour_group_key_order).
    + intro E. rewrite E. reflexivity.
  - intro E. unfold max_val, py_max. rewrite E. cbn [map series_max].
    destruct (series_max (map snd (total_flights_by_hour fig))); reflexivity.
  - intro N.
    destruct (grouped_counts fig) as [|e rest] eqn:G; [congruence|]. clear N.
    assert (B : forall e', In e' (grouped_counts fig) ->
                  exists m, In m (map snd (total_flights_by_hour fig)) /\ (snd e' <= m)%Z).
    { intros [[h g] n] I.
      destruct (grouped_counts_entry flights_df airline_name h g n I) as [P E].
      exists (Z.of_nat (List.length
                (filter (at_hour h)
                   (filter (fun x => operated_by airline_name (flight x)) flights_df)))).
      assert (Le : (List.length
                      (filter (fun x => at_hour h x
                                        && (country_group (flight x) =? g)%string
                                        && Qltb 15 (dep_delay (flight x)))
                         (filter (fun x => operated_by airline_name (flight x)) flights_df))
                    <= List.length
                         (filter (at_hour h)
                            (filter (fun x => operated_by airline_name (flight x))
                                    flights_df)))%nat).
      { apply filter_length_mono. intros x H.
        apply andb_true_iff in H. destruct H as [H _].
        apply andb_true_iff in H. tauto. }
      cbn [snd]. split; [|lia].
      apply in_map_iff.
      exists (h, Z.of_nat (List.length
                   (filter (at_hour h)
                      (filter (fun x => operated_by airline_name (flight x))
                              flights_df)))).
      split; [reflexivity|]. apply total_by_hour_complete. lia. }
    destruct (B e ltac:(rewrite G; left; reflexivity)) as [m0 [I0 _]].
    destruct (series_max_spec (map snd (total_flights_by_hour fig))) as [M [EM [IM FM]]].
    { intro Z. rewrite Z in I0. destruct I0. }
    destruct (series_max_spec (map snd (grouped_counts fig))) as [A [EA [IA _]]].
    { rewrite G. discriminate. }
    exists M. split; [exact IM|]. split; [exact FM|].
    unfold max_val. rewrite EA, EM.
    assert (AM : (A <= M)%Z).
    { apply in_map_iff in IA. destruct IA as [e' [Ee' Ie']]. subst A.
      destruct (B e' Ie') as [m [Im Lm]].
      rewrite Forall_forall in FM. specialize (FM m Im). lia. }
    unfold py_max, fgtb, of_int.
    destruct (Qltb (inject_Z A) (inject_Z M)) eqn:L; cbn [fmul]; [reflexivity|].
    apply Qltb_ge in L. rewrite <- Zle_Qle in L.
    assert (A = M) by lia. subst A. reflexivity.
Qed.

(** ** More on [flight_volume_by_day] *)

Lemma mapM_map {A B C : Type} (g : A -> B) (f : B -> option C) (l : list A) :
  mapM (fun x => f (g x)) l = mapM f (map g l).
Proof.
  induction l as [|x t IH]; simpl; [reflexivity|]. rewrite IH. reflexivity.
Qed.

Lemma day_name_is_weekday (t : Timestamp) : In (day_name t) weekday_order.
Proof.
  unfold day_name. apply nth_In.
  pose proof (Z.mod_pos_bound (days_from_civil (date t) + 3) 7 ltac:(lia)).
  simpl. lia.
Qed.

Section Volumes.
Variable countries_lookup : string -> option string.
Variable country_alpha2_to_continent_code : string -> option string.

Let region_of' := region_of countries_lookup country_alpha2_to_continent_code.
Let selected := selected_flights countries_lookup country_alpha2_to_continent_code.
Let volume := flight_volume_by_day countries_lookup country_alpha2_to_continent_code.

Lemma region_flights_selected (flights_df : DataFrame) (airline_name region : string) :
  exists rows,
    region_flights countries_lookup country_alpha2_to_continent_code
                   flights_df airline_name region = Some rows
    /\ map fst rows = selected flights_df airline_name region.
Proof using Type.
  unfold region_flights, bind, selected, selected_flights.
  rewrite (mapM_total _ (fun r => (r, region_of' (arr_country r)))).
  - eexists. split; [reflexivity|].
    destruct (region =? "world") eqn:W; cbn [negb orb].
    + rewrite map_map. cbn [fst]. rewrite map_id.
      symmetry. apply filter_all. apply Forall_forall. reflexivity.
    + apply (tagged_filter (fun r => region_of' (arr_country r))).
  - intro r. unfold apply_country_to_continent.
    rewrite classify_cases. reflexivity.
Qed.

(** The figure is made from the weekdays of the selected flights. *)
Lemma volume_from_selected (flights_df : DataFrame) (airline_name region : string) :
  volume flights_df airline_name region
  = match mapM departure_day_of_week (selected flights_df airline_name region) with
    | Some days =>
        Some (mkVolumeFigure
                (map (fun g => (fst g, Z.of_nat (List.length (snd g))))
                     (groupby String.eqb String.leb (fun d => d) days))
                weekday_order weekday_order)
    | None => None
    end.
Proof using Type.
  unfold volume, flight_volume_by_day.
  destruct (region_flights_selected flights_df airline_name region) as [rows [R M]].
  rewrite R. cbn [bind]. rewrite (mapM_map fst departure_day_of_week), M.
  destruct (mapM departure_day_of_week (selected flights_df airline_name region));
    reflexivity.
Qed.

(** X21.  [flight_volume_by_day] needs parsed dates: it raises as soon as one
    of the flights it selects, an operated flight of the airline in the
    region, has a [flight_date] that is still text, as in a table that did not
    go through [select_date]. *)
Theorem volume_raises (flights_df : DataFrame) (airline_name region : string)
    (r : Row) (s : string) :
  In r (selected flights_df airline_name region) ->
  flight_date r = Text s ->
  volume flights_df airline_name region = None.
Proof using Type.
  intros I T. rewrite volume_from_selected.
  assert (X : mapM departure_day_of_week (selected flights_df airline_name region)
              = None).
  { apply mapM_None. exists r. split; [exact I|].
    unfold departure_day_of_week. rewrite T. reflexivity. }
  rewrite X. reflexivity.
Qed.

(** X22.  The weekday table has at most seven rows, one for each weekday on
    which a selected flight left, in ascending order of the weekday names;
    a row counts the selected flights of its weekday, at least one, and the
    counts add up to the number of selected flights. *)
Theorem volume_counts (flights_df : DataFrame) (airline_name region : string)
    (fig : VolumeFigure) :
  volume flights_df airline_name region = Some fig ->
  let flights := selected flights_df airline_name region in
  StronglySorted (key_lt String.eqb String.leb) (map fst (grouped_df fig))
  /\ (List.length (grouped_df fig) <= 7)%nat
  /\ Forall (fun e =>
               In (fst e) weekday_order
               /\ (1 <= snd e)%Z
               /\ snd e = Z.of_nat (List.length (filter (weekday_is (fst e)) flights)))
            (grouped_df fig)
  /\ Zsum (map snd (grouped_df fig)) = Z.of_nat (List.length flights).
Proof using Type.
  rewrite volume_from_selected. intros E flights. fold flights in E.
  destruct (mapM departure_day_of_week flights) as [days|] eqn:M; [|discriminate E].
  injection E as E. subst fig. cbn [grouped_df].
  apply mapM_Some in M.
  assert (D : Forall (fun d => In d weekday_order) days).
  { clear -M. induction M as [|r d rows days E M IH]; constructor; [|exact IH].
    unfold departure_day_of_week in E. destruct (flight_date r) as [s|t];
      [discriminate E|]. injection E as E. subst d. apply day_name_is_weekday. }
  assert (S : StronglySorted (key_lt String.eqb String.leb)
                (map fst (map (fun g : string * list string =>
                                 (fst g, Z.of_nat (List.length (snd g))))
                              (groupby String.eqb String.leb (fun d => d) days)))).
  { rewrite map_map. cbn [fst].
    apply (groupby_keys_sorted String.eqb String.leb string_key_order). }
  assert (F : Forall (fun e : string * Z =>
                        In (fst e) weekday_order
                        /\ (1 <= snd e)%Z
                        /\ snd e = Z.of_nat (List.length
                                               (filter (weekday_is (fst e)) flights)))
                (map (fun g : string * list string =>
                        (fst g, Z.of_nat (List.length (snd g))))
                     (groupby String.eqb String.leb (fun d => d) days))).
  { apply Forall_forall. intros e I. apply in_map_iff in I.
    destruct I as [g [Eg Ig]]. subst e. cbn [fst snd].
    pose proof (groupby_nonempty String.eqb String.leb String.eqb_refl _ _ _ Ig) as N.
    destruct (groupby_In _ _ _ _ _ Ig) as [Ik G].
    rewrite map_id in Ik. rewrite Forall_forall in D.
    split; [apply D; exact Ik|]. split; [lia|].
    rewrite G. f_equal. apply weekday_count. exact M. }
  split; [exact S|]. split; [|split; [exact F|]].
  - rewrite <- (length_map fst).
    apply (NoDup_incl_length (l' := weekday_order)
             (sorted_keys_NoDup String.eqb String.leb string_key_order _ S)).
    intros d I. apply in_map_iff in I. destruct I as [e [Ee Ie]]. subst d.
    rewrite Forall_forall in F. apply (F e Ie).
  - rewrite map_map. cbn [snd].
    rewrite (groupby_sizes String.eqb String.leb string_key_order).
    f_equal. symmetry. exact (Forall2_length M).
Qed.

(** The libraries know the United States under the code ["US"]. *)
Hypothesis US_resolves :
  exists name,
    continent_name_of countries_lookup country_alpha2_to_continent_code "US" = Some name.

(** X23.  A flight to the United States belongs to the region ["usa"] and to
    no continent: for every region other than ["usa"] and ["world"], North
    America included, the figure is the one made without the flights to the
    United States. *)
Theorem volume_without_us (flights_df : DataFrame) (airline_name region : string) :
  region <> "usa" -> region <> "world" ->
  volume flights_df airline_name region
  = volume (filter (fun r => negb (arr_country r =? "US")) flights_df)
           airline_name region.
Proof using US_resolves.
  intros Nu Nw. rewrite !volume_from_selected.
  assert (E : selected flights_df airline_name region
              = selected (filter (fun r => negb (arr_country r =? "US")) flights_df)
                         airline_name region).
  { unfold selected, selected_flights. apply String.eqb_neq in Nw. rewrite Nw.
    cbn [orb]. clear Nw.
    induction flights_df as [|r t IH]; [reflexivity|].
    cbn [filter]. destruct (arr_country r =? "US") eqn:U; cbn [negb filter].
    - destruct (operated_by airline_name r); [|exact IH]. cbn [filter].
      apply String.eqb_eq in U.
      assert (R : region_of countries_lookup country_alpha2_to_continent_code
                            (arr_country r) = "usa").
      { pose proof (proj2 (classify_usa countries_lookup
                             country_alpha2_to_continent_code US_resolves
                             (arr_country r)) U) as C.
        rewrite classify_cases in C. injection C as C. exact C. }
      rewrite R. destruct ("usa" =? region) eqn:X; [|exact IH].
      apply String.eqb_eq in X. congruence.
    - destruct (operated_by airline_name r); [|exact IH]. cbn [filter].
      destruct (region_of countries_lookup country_alpha2_to_continent_code
                          (arr_country r) =? region);
        rewrite IH; reflexivity. }
  rewrite E. reflexivity.
Qed.
End Volumes.

Lemma volume_counts_witness :
  let fig := mkVolumeFigure [("Friday", 1%Z); ("Monday", 1%Z)]
                            weekday_order weekday_order in
  flight_volume_by_day sample_lookup sample_continent_code
                       parsed_weekdays "Delta Air Lines" "world" = Some fig
  /\ (List.length (grouped_df fig) <= 7)%nat
  /\ Zsum (map snd (grouped_df fig))
     = Z.of_nat (List.length
         (selected_flights sample_lookup sample_continent_code
                           parsed_weekdays "Delta Air Lines" "world")).
Proof.
  intro fig.
  assert (E : flight_volume_by_day sample_lookup sample_continent_code
                parsed_weekdays "Delta Air Lines" "world" = Some fig)
    by (vm_compute; reflexivity).
  split; [exact E|].
  destruct (volume_counts sample_lookup sample_continent_code
              parsed_weekdays "Delta Air Lines" "world" fig E) as [_ [L [_ S]]].
  split; [exact L | exact S].
Defined.

Lemma volume_without_us_witness :
  (exists name, continent_name_of sample_lookup sample_continent_code "US" = Some name)
  /\ "north america" <> "usa"
  /\ "north america" <> "world"
  /\ flight_volume_by_day sample_lookup sample_continent_code
                          parsed_weekdays "Delta Air Lines" "north america"
     = flight_volume_by_day sample_lookup sample_continent_code
         (filter (fun r => negb (arr_country r =? "US")) parsed_weekdays)
         "Delta Air Lines" "north america".
Proof.
  assert (U : exists name,
             continent_name_of sample_lookup sample_continent_code "US" = Some name)
    by (exists "North America"; reflexivity).
  assert (N1 : "north america" <> "usa") by discriminate.
  assert (N2 : "north america" <> "world") by discriminate.
  split; [exact U|]. split; [exact N1|]. split; [exact N2|].
  exact (volume_without_us sample_lookup sample_continent_code U
           parsed_weekdays "Delta Air Lines" "north america" N1 N2).
Defined.

(** ** More on [delays_heatmap] *)

(** X24.  The rows of the heat map are the values the dimension takes among
    the airline's operated flights, each once and in ascending order, and
    every cell is a finite fraction between 0 and 1. *)
Theorem heatmap_index_and_range (flights_df : DataFrame) (var : column)
    (airline_name : string) :
  let flights := filter (operated_by airline_name) flights_df in
  let fig := delays_heatmap flights_df var airline_name in
  StronglySorted (key_lt String.eqb String.leb) (heat_index fig)
  /\ (forall k, In k (heat_index fig) <-> exists r, In r flights /\ get var r = k)
  /\ Forall (Forall (fun c => exists q, c = Finite q /\ 0 <= q /\ q <= 1))
            (heat_values fig).
Proof.
  intros flights fig.
  set (binned := map (fun r => (r, cut (dep_delay r))) flights).
  assert (I0 : heat_index fig = level0 (size_by_bin var binned)).
  { unfold fig, delays_heatmap. cbn [heat_index]. unfold unstack.
    rewrite map_map. cbn [fst]. apply map_id. }
  split; [|split].
  - rewrite I0. unfold level0.
    apply (unique_sorted_sorted String.eqb String.leb string_key_order).
  - intro k. rewrite I0. split.
    + intro I. apply (level0_key flights_df var airline_name) in I.
      apply unique_sorted_incl in I. unfold binned in I. rewrite map_map in I.
      apply in_map_iff in I. destruct I as [r [E Ir]]. exists r. tauto.
    + intros [r [Ir E]].
      assert (Ik : In k (map (fun rb : Row * option string => get var (fst rb)) binned)).
      { unfold binned. rewrite map_map. cbn [fst]. subst k.
        apply (in_map (get var)). exact Ir. }
      destruct (unique_sorted_complete String.eqb String.leb string_key_order k _ Ik)
        as [k' [Ik' Ek']].
      apply String.eqb_eq in Ek'. subst k'.
      pose proof (size_by_bin_complete flights_df var airline_name k
                    (nth 0 labels "") Ik' ltac:(left; reflexivity)) as Ie.
      unfold level0.
      destruct (unique_sorted_complete String.eqb String.leb string_key_order k
                  (map (fun e : string * string * Z => fst (fst e))
                       (size_by_bin var binned))) as [k'' [Ik'' Ek'']].
      { apply in_map_iff. eexists. split; [|exact Ie]. reflexivity. }
      apply String.eqb_eq in Ek''. subst k''. exact Ik''.
  - unfold fig, delays_heatmap. cbn [heat_values]. fold flights. fold binned.
    apply Forall_forall. intros cells Ic. apply in_map_iff in Ic.
    destruct Ic as [row [E Ir]]. subst cells.
    destruct (unstack_row flights_df var airline_name row Ir) as [Er T].
    fold flights in Er, T.
    assert (S : Zsum (snd row)
                = Z.of_nat (List.length (filter (fun r => get var r =? fst row) flights))).
    { rewrite Er. apply bin_counts_total. }
    rewrite S. apply Forall_forall. intros c Ic. apply in_map_iff in Ic.
    destruct Ic as [n [E In_]]. subst c.
    rewrite (fdiv_of_int _ _ T). eexists. split; [reflexivity|].
    rewrite Er in In_. apply in_map_iff in In_. destruct In_ as [label [E _]]. subst n.
    assert (B : (0 <= Z.of_nat (List.length
                        (filter (fun r => (get var r =? fst row)%string
                                          && bin_is (cut (dep_delay r)) label) flights))
                 <= Z.of_nat (List.length
                        (filter (fun r => (get var r =? fst row)%string) flights)))%Z).
    { split; [lia|]. apply inj_le. apply filter_length_mono.
      intros x H. apply andb_true_iff in H. tauto. }
    destruct (percentage_bounds _ _ B T) as [L U]. split; lra.
Qed.

Lemma volume_raises_witness :
  let r := a_flight "2024-01-01" "Delta Air Lines" "ATL" "JFK" "US" 5 "normal" in
  In r (selected_flights sample_lookup sample_continent_code
                         two_weekdays "Delta Air Lines" "world")
  /\ flight_date r = Text "2024-01-01"
  /\ flight_volume_by_day sample_lookup sample_continent_code
                          two_weekdays "Delta Air Lines" "world" = None.
Proof.
  intro r.
  assert (I : In r (selected_flights sample_lookup sample_continent_code
                                     two_weekdays "Delta Air Lines" "world"))
    by (left; reflexivity).
  assert (T : flight_date r = Text "2024-01-01") by reflexivity.
  split; [exact I|]. split; [exact T|].
  exact (volume_raises sample_lookup sample_continent_code
           two_weekdays "Delta Air Lines" "world" r _ I T).
Defined.

(** ** The ranking, from the flights to the result *)

Lemma Z_sorted_count_below (s : list Z) :
  StronglySorted (fun a b => (a <=? b)%Z = true) s ->
  forall j, (j < List.length s)%nat ->
    (j + 1 <= List.length (filter (fun y => (y <=? nth j s 0)%Z) s))%nat.
Proof.
  induction 1 as [|a t S IH F]; intros j L; [simpl in L; lia|].
  cbn [filter].
  assert (A : (a <=? nth j (a :: t) 0)%Z = true).
  { apply Z.leb_le.
    apply (Z_sorted_nth_le (a :: t) (SSorted_cons a S F) 0 j). lia. }
  rewrite A. destruct j as [|j]; cbn [nth List.length]; [lia|].
  specialize (IH j ltac:(simpl in L; lia)). lia.
Qed.

Lemma Z_sorted_count_above (s : list Z) :
  StronglySorted (fun a b => (a <=? b)%Z = true) s ->
  forall j, (j < List.length s)%nat ->
    (List.length s - j <= List.length (filter (fun y => (nth j s 0 <=? y)%Z) s))%nat.
Proof.
  induction 1 as [|a t S IH F]; intros j L; [simpl in L; lia|].
  cbn [filter]. destruct j as [|j]; cbn [nth].
  - rewrite Z.leb_refl. cbn [List.length].
    rewrite filter_all; [lia|]. exact F.
  - specialize (IH j ltac:(simpl in L; lia)).
    destruct (nth j t 0 <=? a)%Z; cbn [List.length]; lia.
Qed.

(** The median of a column is a median of it: at least half of the entries
    lie at or below it, and at least half at or above. *)
Lemma median_splits (l : list Z) :
  l <> [] ->
  exists m,
    median l = Finite m
    /\ (List.length l
        <= 2 * List.length (filter (fun x => Qle_bool (inject_Z x) m) l))%nat
    /\ (List.length l
        <= 2 * List.length (filter (fun x => Qle_bool m (inject_Z x)) l))%nat.
Proof.
  intro N.
  pose proof (sort_perm Z.leb l) as P.
  pose proof (sort_sorted Z.leb Z_leb_total Z_leb_trans l) as S.
  assert (Pos : (1 <= List.length (sort Z.leb l))%nat).
  { rewrite (Permutation_length P). destruct l; [congruence | simpl; lia]. }
  assert (C : forall p : Z -> bool,
             List.length (filter p l) = List.length (filter p (sort Z.leb l))).
  { intro p. symmetry. apply Permutation_length. apply Permutation_filter. exact P. }
  rewrite <- (Permutation_length P).
  unfold median. remember (sort Z.leb l) as s eqn:Es.
  destruct (List.length s) as [|n'] eqn:Len; [lia|].
  rewrite <- Len in Pos |- *. clear Len n'.
  destruct (Nat.odd (List.length s)) eqn:O.
  - apply Nat.odd_spec in O. destruct O as [k Ek].
    assert (H2 : (List.length s / 2 = k)%nat).
    { rewrite Ek. replace (2 * k + 1)%nat with (1 + k * 2)%nat by lia.
      rewrite Nat.div_add by lia. reflexivity. }
    rewrite H2. eexists. split; [reflexivity|]. rewrite !C.
    pose proof (Z_sorted_count_below s S k ltac:(lia)) as B.
    pose proof (Z_sorted_count_above s S k ltac:(lia)) as A.
    rewrite (filter_ext (fun x => Qle_bool (inject_Z x) (inject_Z (nth k s 0%Z)))
                        (fun y => (y <=? nth k s 0)%Z)).
    + rewrite (filter_ext (fun x => Qle_bool (inject_Z (nth k s 0%Z)) (inject_Z x))
                          (fun y => (nth k s 0 <=? y)%Z)); [lia|].
      intro x. unfold Qle_bool. simpl. rewrite !Z.mul_1_r. reflexivity.
    + intro x. unfold Qle_bool. simpl. rewrite !Z.mul_1_r. reflexivity.
  - assert (Ev : Nat.even (List.length s) = true)
      by (rewrite <- Nat.negb_odd, O; reflexivity).
    apply Nat.even_spec in Ev. destruct Ev as [k Ek].
    assert (H2 : (List.length s / 2 = k)%nat).
    { rewrite Ek. replace (2 * k)%nat with (0 + k * 2)%nat by lia.
      rewrite Nat.div_add by lia. reflexivity. }
    rewrite H2. eexists. split; [reflexivity|]. rewrite !C.
    pose proof (Z_sorted_count_below s S (k - 1) ltac:(lia)) as B.
    pose proof (Z_sorted_count_above s S k ltac:(lia)) as A.
    pose proof (Z_sorted_nth_le s S (k - 1) k ltac:(lia)) as M.
    rewrite Zle_Qle in M.
    split.
    + pose proof (filter_length_mono
                    (fun y => (y <=? nth (k - 1) s 0)%Z)
                    (fun x => Qle_bool (inject_Z x)
                                ((inject_Z (nth (k - 1) s 0%Z) + inject_Z (nth k s 0%Z)) / 2))
                    s) as Mo.
      assert (X : forall x, (x <=? nth (k - 1) s 0)%Z = true ->
                   Qle_bool (inject_Z x)
                     ((inject_Z (nth (k - 1) s 0%Z) + inject_Z (nth k s 0%Z)) / 2) = true).
      { intros x H. apply Z.leb_le in H. rewrite Zle_Qle in H.
        apply Qle_bool_iff. apply Qle_shift_div_l; [reflexivity|]. lra. }
      specialize (Mo X). lia.
    + pose proof (filter_length_mono
                    (fun y => (nth k s 0 <=? y)%Z)
                    (fun x => Qle_bool
                                ((inject_Z (nth (k - 1) s 0%Z) + inject_Z (nth k s 0%Z)) / 2)
                                (inject_Z x))
                    s) as Mo.
      assert (X : forall x, (nth k s 0 <=? x)%Z = true ->
                   Qle_bool
                     ((inject_Z (nth (k - 1) s 0%Z) + inject_Z (nth k s 0%Z)) / 2)
                     (inject_Z x) = true).
      { intros x H. apply Z.leb_le in H. rewrite Zle_Qle in H.
        apply Qle_bool_iff. apply Qle_shift_div_r; [reflexivity|]. lra. }
      specialize (Mo X). lia.
Qed.

(** C1.  [top_delayed_routes], from the flights to the result.
    - The route table has exactly one row for every route flown by the
      airline's operated flights to the chosen side of the border; a row
      counts the flights of its route, counts those more than 60 minutes
      late, and has the quotient of the two counts as its delay rate.
    - The median is taken over the flight counts of all these routes, and is
      a median of them: half of the routes or more lie at or below it, half
      or more at or above.
    - A route is eligible exactly when its flight count is strictly above the
      median.
    - The result comes best rate first, holds each returned route once, and
      is the ten best eligible routes by rate with the ties of the tenth: a
      route is returned exactly when it is eligible and fewer than ten
      eligible routes have a strictly higher rate. *)
Theorem top_delayed_routes_top_10_with_ties (flights_df : DataFrame)
    (airline_name : string) (domestic : bool) :
  let flights :=
    filter (fun x => if domestic then arr_country x =? "US"
                     else negb (arr_country x =? "US"))
           (filter (fun x => (airline x =? airline_name)
                             && negb (flight_status x =? "cancelled")
                             && negb (flight_status x =? "diverted"))
                   flights_df) in
  let key := fun x : Row => [dep_iata x; dep_airport x; arr_iata x; arr_airport x] in
  let routes := route_table flights_df airline_name domestic in
  let result := top_delayed_routes flights_df airline_name domestic in
  let eligible :=
    filter (fun r => fgtb (of_int (flight_count r)) (median (map flight_count routes)))
           routes in
  let better r := filter (fun r' => Qltb (delay_rate r) (delay_rate r')) eligible in
  NoDup (map route_key routes)
  /\ (forall x, In x flights -> In (key x) (map route_key routes))
  /\ Forall (fun r =>
               let flown := filter (fun x => key_eqb (key x) (route_key r)) flights in
               (1 <= flight_count r)%Z
               /\ flight_count r = Z.of_nat (List.length flown)
               /\ delay_count r
                  = Z.of_nat (List.length (filter (fun x => Qltb 60 (dep_delay x)) flown))
               /\ delay_rate r = inject_Z (delay_count r) / inject_Z (flight_count r))
            routes
  /\ (routes <> [] ->
      exists m,
        median (map flight_count routes) = Finite m
        /\ (List.length routes
            <= 2 * List.length
                     (filter (fun r => Qle_bool (inject_Z (flight_count r)) m) routes))%nat
        /\ (List.length routes
            <= 2 * List.length
                     (filter (fun r => Qle_bool m (inject_Z (flight_count r))) routes))%nat)
  /\ (forall r, In r eligible
                <-> In r routes
                    /\ exists m, median (map flight_count routes) = Finite m
                                 /\ m < inject_Z (flight_count r))
  /\ Forall (fun r =>
               In r routes
               /\ exists m, median (map flight_count routes) = Finite m
                            /\ m < inject_Z (flight_count r))
            result
  /\ StronglySorted (fun a b => delay_rate b <= delay_rate a) result
  /\ Permutation result
       (filter (fun r => (List.length (better r) <? 10)%nat) eligible)
  /\ (forall r, In r result
                <-> In r eligible /\ (List.length (better r) < 10)%nat)
  /\ Permutation result
       (top_with_ties 10 (above_median flights_df airline_name domestic)).
Proof.
  intros flights key routes result eligible better.
  assert (T : Permutation result
                (top_with_ties 10 (above_median flights_df airline_name domestic))
              /\ descending result).
  { unfold result, top_delayed_routes.
    destruct (nlargest_top_with_ties 10
                (sort_values_desc (above_median flights_df airline_name domestic))
                ltac:(lia)) as [P D].
    split; [|exact D].
    apply (Permutation_trans P). apply top_with_ties_perm. apply sort_perm. }
  destruct T as [P D].
  assert (P' : Permutation result
                 (filter (fun r => (List.length (better r) <? 10)%nat) eligible))
    by exact P.
  assert (El : forall r, In r eligible
                         <-> In r routes
                             /\ exists m, median (map flight_count routes) = Finite m
                                          /\ m < inject_Z (flight_count r)).
  { intro r. unfold eligible. rewrite filter_In. split.
    - intros [I G]. split; [exact I|].
      destruct (median (map flight_count routes)) as [m|s|] eqn:M.
      + exists m. split; [reflexivity|]. apply Qltb_lt. exact G.
      + exfalso. exact (median_not_infinite _ _ M).
      + discriminate G.
    - intros [I [m [M L]]]. split; [exact I|]. rewrite M. apply Qltb_lt. exact L. }
  assert (Mem : forall r, In r result
                          <-> In r eligible /\ (List.length (better r) < 10)%nat).
  { intro r. split.
    - intro I. apply (Permutation_in _ P') in I. apply filter_In in I.
      destruct I as [I L]. apply Nat.ltb_lt in L. tauto.
    - intros [I L]. apply (Permutation_in _ (Permutation_sym P')).
      apply filter_In. split; [exact I | apply Nat.ltb_lt; exact L]. }
  split; [|split; [|split; [|split; [|split; [exact El
           |split; [|split; [exact D|split; [exact P'|split; [exact Mem|exact P]]]]]]]]].
  - unfold routes, route_table. rewrite map_map. cbn [route_key].
    apply sorted_list_keys_NoDup.
    apply (groupby_keys_sorted key_eqb key_leb list_key_order).
  - intros x I. unfold routes, route_table. rewrite map_map. cbn [route_key].
    unfold groupby. rewrite map_map. cbn [fst]. rewrite map_id.
    assert (I' : In x (route_flights flights_df airline_name domestic)) by exact I.
    destruct (unique_sorted_complete key_eqb key_leb list_key_order (key x)
                (map key (route_flights flights_df airline_name domestic))
                (in_map key _ _ I')) as [k' [Ik Ek]].
    apply key_eqb_eq in Ek. rewrite Ek. exact Ik.
  - apply Forall_forall. intros r I. exact (route_table_row _ _ _ _ I).
  - intro N.
    destruct (median_splits (map flight_count routes)) as [m [M [B A]]].
    { intro Z. apply map_eq_nil in Z. exact (N Z). }
    exists m. split; [exact M|].
    rewrite !filter_map_length, length_map in *. split; assumption.
  - apply Forall_forall. intros r I. apply El. apply Mem in I. tauto.
Qed.

(** ** The weekday axis *)

Lemma weekday_order_is_monday_first : monday_first weekday_order.
Proof.
  unfold monday_first, weekday_order.
  repeat (constructor; [|repeat (constructor; [vm_compute; lia|]); constructor]).
  constructor.
Qed.

(** C6, as the code has it.  Whenever [flight_volume_by_day] returns, the
    weekday axis of its figure is pinned to Monday, Tuesday, ..., Sunday, and
    the weekday column of its table carries these seven names as its
    categories, in the order of the week, whatever the order of the groups;
    every weekday of the table is one of them.  The rows of the table are in
    the order of the group keys, the weekday names ascending. *)
Theorem weekday_axis_monday_first
    (countries_lookup country_alpha2_to_continent_code : string -> option string)
    (flights_df : DataFrame) (airline_name region : string) (fig : VolumeFigure) :
  flight_volume_by_day countries_lookup country_alpha2_to_continent_code
                       flights_df airline_name region = Some fig ->
  categoryarray fig
  = ["Monday"; "Tuesday"; "Wednesday"; "Thursday"; "Friday"; "Saturday"; "Sunday"]
  /\ categories fig
     = ["Monday"; "Tuesday"; "Wednesday"; "Thursday"; "Friday"; "Saturday"; "Sunday"]
  /\ monday_first (categoryarray fig)
  /\ Forall (fun e => In (fst e) (categoryarray fig)) (grouped_df fig)
  /\ StronglySorted (key_lt String.eqb String.leb) (map fst (grouped_df fig)).
Proof.
  rewrite volume_from_selected. intro E.
  destruct (mapM departure_day_of_week
              (selected_flights countries_lookup country_alpha2_to_continent_code
                                flights_df airline_name region))
    as [days|] eqn:M; [|discriminate E].
  injection E as E. subst fig. cbn [grouped_df categories categoryarray].
  split; [reflexivity|]. split; [reflexivity|].
  split; [exact weekday_order_is_monday_first|].
  apply mapM_Some in M.
  assert (D : Forall (fun d => In d weekday_order) days).
  { clear -M. induction M as [|r d rows days E M IH]; constructor; [|exact IH].
    unfold departure_day_of_week in E. destruct (flight_date r) as [s|t];
      [discriminate E|]. injection E as E. subst d. apply day_name_is_weekday. }
  split.
  - apply Forall_forall. intros e I. apply in_map_iff in I.
    destruct I as [g [Eg Ig]]. subst e. cbn [fst].
    destruct (groupby_In _ _ _ _ _ Ig) as [Ik _].
    rewrite map_id in Ik. rewrite Forall_forall in D. apply D. exact Ik.
  - rewrite map_map. cbn [fst].
    apply (groupby_keys_sorted String.eqb String.leb string_key_order).
Qed.

Lemma weekday_axis_monday_first_witness :
  let fig := mkVolumeFigure [("Friday", 1%Z); ("Monday", 1%Z)]
                            weekday_order weekday_order in
  flight_volume_by_day sample_lookup sample_continent_code
                       parsed_weekdays "Delta Air Lines" "world" = Some fig
  /\ categoryarray fig
     = ["Monday"; "Tuesday"; "Wednesday"; "Thursday"; "Friday"; "Saturday"; "Sunday"]
  /\ monday_first (categoryarray fig)
  /\ Forall (fun e => In (fst e) (categoryarray fig)) (grouped_df fig).
Proof.
  intro fig.
  assert (E : flight_volume_by_day sample_lookup sample_continent_code
                parsed_weekdays "Delta Air Lines" "world" = Some fig)
    by (vm_compute; reflexivity).
  split; [exact E|].
  destruct (weekday_axis_monday_first sample_lookup sample_continent_code
              parsed_weekdays "Delta Air Lines" "world" fig E) as [A [_ [M [F _]]]].
  split; [exact A|]. split; [exact M | exact F].
Defined.
